(** * Canary project: the environment catalog, the timestamp tool,
      the canary tool registry and the interface / type stability suites.

    Shallow embedding of
      - test/system/utils.ts               (module [TestEnv])
      - src/tools/current-timestamp.ts     (module [Timestamp])
      - src/tools/index.ts                 (module [Tools])
      - test/interface-stability.test.ts   (modules [Stability],
                                             [Unchanged])
      - test/type-compatibility.test.ts    (module [TypeCompatRuntime])
      - test/system/utils.ts, the helpers  (modules [Kinds], [Polling],
                                             [Expect], [Discovery])
      - test/system/vitest-global-setup.ts (module [Polling])
      - the global teardown of the system tests (module [Teardown])
      - the MCP protocol system tests      (modules [Expect], [McpSuite])
      - api/index.ts                       (module [Serverless])
    The [@mcp-typescript-simple/*] packages, the module loader, the
    JavaScript engine and the test runner are outside the repository:
    their behaviour enters as parameters ([Dependency], [Timestamp.Platform],
    [Effects.server], [Teardown.processes], [Serverless.Framework]) or as
    small models written next to the code that uses them ([Js], [Value],
    [Vitest], [Effects]).  The definitions come first, the properties after
    them. *)

From Stdlib Require Import ZArith Lia List Bool.
From stdpp Require Import base option strings gmap pretty.
Import ListNotations.

Local Open Scope string_scope.

(* ===================================================================== *)
(** ** JavaScript notions shared by all modules *)
(* ===================================================================== *)

Module Js.

(** [String.prototype.includes]: [needle] occurs somewhere in [hay]. *)
Fixpoint includes (needle hay : string) : bool :=
  if String.prefix needle hay then true
  else match hay with
       | EmptyString => false
       | String _ rest => includes needle rest
       end.

(** [Array.prototype.join]. *)
Definition join (sep : string) (parts : list string) : string :=
  String.concat sep parts.

(** What a [throw] carries.  An [Error] instance has a constructor name and
    a [message]; a thrown string is itself; anything else is kept as the
    text that [String(v)] gives for it. *)
Inductive thrown : Type :=
| ErrorObject (ctor message : string)
| ThrownString (s : string)
| ThrownOther (text : string).

(** [error instanceof Error ? error.message : String(error)] *)
Definition error_message (e : thrown) : string :=
  match e with
  | ErrorObject _ m => m
  | ThrownString s => s
  | ThrownOther t => t
  end.

(** The way a statement or a call finishes. *)
Inductive completion (A : Type) : Type :=
| Return (a : A)
| Throw (e : thrown).
Arguments Return {A} a.
Arguments Throw {A} e.

Definition bind {A B : Type} (c : completion A) (k : A -> completion B)
  : completion B :=
  match c with
  | Return a => k a
  | Throw e => Throw e
  end.

#[global] Instance completion_ret : MRet completion := fun A a => Return a.
#[global] Instance completion_bind : MBind completion :=
  fun A B k c => bind c k.
#[global] Instance completion_fmap : FMap completion :=
  fun A B f c => bind c (fun a => Return (f a)).

(** [try { body } catch (error) { handler }] *)
Definition try_catch {A : Type} (body : completion A)
    (handler : thrown -> completion A) : completion A :=
  match body with
  | Return a => Return a
  | Throw e => handler e
  end.

(** The environment block [process.env]: every variable that is set holds
    a string. *)
Abbreviation process_env := (gmap string string).

(** Truthiness of [process.env.X] and of an optional string argument:
    [undefined] and the empty string are falsy. *)
Definition truthy (v : option string) : bool :=
  match v with
  | Some s => negb (String.eqb s "")
  | None => false
  end.

(** [v || dflt] on a possibly undefined string. *)
Definition or_else (v : option string) (dflt : string) : string :=
  match v with
  | Some s => if String.eqb s "" then dflt else s
  | None => dflt
  end.

(** The property names every plain object inherits from
    [Object.prototype]; each of them reads as a truthy value (a function,
    or for [__proto__] the prototype object itself). *)
Definition object_prototype_keys : list string :=
  [ "constructor"; "__defineGetter__"; "__defineSetter__"; "hasOwnProperty";
    "__lookupGetter__"; "__lookupSetter__"; "isPrototypeOf";
    "propertyIsEnumerable"; "toString"; "valueOf"; "__proto__";
    "toLocaleString" ].

Definition inherited (key : string) : bool :=
  bool_decide (key ∈ object_prototype_keys).

End Js.

(* ===================================================================== *)
(** ** test/system/utils.ts : the catalog of test environments *)
(* ===================================================================== *)

Module TestEnv.
Import Js.

Record TestEnvironment : Type := {
  name : string;
  baseUrl : string;
  description : string
}.

(** [TEST_ENVIRONMENTS], an object literal: its own properties in source
    order.  Three base URLs are computed from [process.env] when the module
    is loaded. *)
Definition TEST_ENVIRONMENTS (env : process_env)
  : list (string * TestEnvironment) :=
  [ ("express",
     {| name := "express";
        baseUrl := "http://localhost:3020";
        description := "Express HTTP server (npm run dev:http)" |});
    ("express:ci",
     {| name := "express:ci";
        baseUrl := "http://localhost:" +:+ or_else (env !! "HTTP_TEST_PORT") "3021";
        description := "Express HTTP server for CI testing (npm run dev:http:ci)" |});
    ("stdio",
     {| name := "stdio";
        baseUrl := "stdio://localhost";
        description := "STDIO transport mode (npm run dev:stdio)" |});
    ("vercel:local",
     {| name := "vercel:local";
        baseUrl := "http://localhost:3020";
        description := "Local Vercel dev server (npm run dev:vercel)" |});
    ("vercel:preview",
     {| name := "vercel:preview";
        baseUrl := or_else (env !! "VERCEL_PREVIEW_URL")
                     "https://canary-preview.vercel.app";
        description := "Vercel preview deployment" |});
    ("vercel:production",
     {| name := "vercel:production";
        baseUrl := or_else (env !! "VERCEL_PRODUCTION_URL")
                     "https://canary.vercel.app";
        description := "Vercel production deployment" |});
    ("docker",
     {| name := "docker";
        baseUrl := "http://localhost:3020";
        description := "Docker container (docker run with exposed port)" |}) ].

(** Own-property lookup in the literal. *)
Fixpoint own_property (table : list (string * TestEnvironment)) (key : string)
  : option TestEnvironment :=
  match table with
  | [] => None
  | (k, e) :: rest => if String.eqb k key then Some e else own_property rest key
  end.

(** [Object.keys(TEST_ENVIRONMENTS)] *)
Definition keys (table : list (string * TestEnvironment)) : list string :=
  map fst table.

(** What [TEST_ENVIRONMENTS[envName]] evaluates to: an own entry, a member
    inherited from [Object.prototype], or [undefined]. *)
Inductive property : Type :=
| OwnEntry (e : TestEnvironment)
| Inherited (key : string)
| Undefined.

Definition get_property (table : list (string * TestEnvironment)) (key : string)
  : property :=
  match own_property table key with
  | Some e => OwnEntry e
  | None => if inherited key then Inherited key else Undefined
  end.

(** What the function hands back.  The declared return type is
    [TestEnvironment]; at run time an inherited member comes back as it is,
    and spreading it leaves an object with [baseUrl] alone. *)
Inductive returned : Type :=
| Environment (e : TestEnvironment)
| PrototypeMember (key : string)
| BaseUrlOnly (url : string).

(** [{ ...environment, baseUrl: url }] *)
Definition with_baseUrl (e : TestEnvironment) (url : string) : TestEnvironment :=
  {| name := name e; baseUrl := url; description := description e |}.

Definition unknown_environment (table : list (string * TestEnvironment))
    (envName : string) : thrown :=
  ErrorObject "Error"
    ("Unknown test environment: " +:+ envName +:+ ". Available: "
       +:+ join ", " (keys table)).

(** [getCurrentEnvironment()].  [table] is the module constant, [env] is
    [process.env] at the time of the call. *)
Definition getCurrentEnvironment (table : list (string * TestEnvironment))
    (env : process_env) : completion returned :=
  let envName := or_else (env !! "TEST_ENV") "vercel:local" in
  match get_property table envName with
  | Undefined => Throw (unknown_environment table envName)
  | OwnEntry e =>
      if truthy (env !! "TEST_BASE_URL")
      then Return (Environment (with_baseUrl e (default "" (env !! "TEST_BASE_URL"))))
      else Return (Environment e)
  | Inherited key =>
      if truthy (env !! "TEST_BASE_URL")
      then Return (BaseUrlOnly (default "" (env !! "TEST_BASE_URL")))
      else Return (PrototypeMember key)
  end.

(** The claim in its original wording, for one load-time environment
    [env0] and one call-time environment [env]. *)
Definition override_claim (env0 env : process_env) : Prop :=
  forall envName e,
    env !! "TEST_ENV" = Some envName ->
    own_property (TEST_ENVIRONMENTS env0) envName = Some e ->
    match env !! "TEST_BASE_URL" with
    | Some url =>
        getCurrentEnvironment (TEST_ENVIRONMENTS env0) env
        = Return (Environment (with_baseUrl e url))
    | None =>
        getCurrentEnvironment (TEST_ENVIRONMENTS env0) env
        = Return (Environment e)
    end.

Definition unknown_claim (env0 env : process_env) : Prop :=
  forall envName,
    env !! "TEST_ENV" = Some envName ->
    own_property (TEST_ENVIRONMENTS env0) envName = None ->
    exists e, getCurrentEnvironment (TEST_ENVIRONMENTS env0) env = Throw e.

(** The claim in its original wording, both halves. *)
Definition environment_claim (env0 env : process_env) : Prop :=
  override_claim env0 env /\ unknown_claim env0 env.

End TestEnv.

(* ===================================================================== *)
(** ** src/tools/current-timestamp.ts : the [current-timestamp] tool *)
(* ===================================================================== *)

Module Timestamp.
Import Js.

Record ContentItem : Type := { type : string; text : string }.

(** The handler's result: [isError] is present on the two error paths only. *)
Record CallToolResult : Type := {
  content : list ContentItem;
  isError : option bool
}.

(** What the handler asks of the host: the clock, the time zones that
    [Intl.DateTimeFormat] knows, and the date renderings.  Each rendering may
    throw, as any library call may. *)
Record Platform : Type := {
  getTime : Z;                                   (* new Date().getTime() *)
  timeZone_supported : string -> bool;
  format_iso_zone : string -> Z -> completion string;
  format_human_zone : string -> Z -> completion string;
  toISOString : Z -> completion string;
  toString : Z -> completion string
}.

(** [new Intl.DateTimeFormat('en-US', { timeZone })]: a [RangeError] for a
    zone the platform does not know. *)
Definition DateTimeFormat (P : Platform) (timeZone : string) : completion unit :=
  if timeZone_supported P timeZone then Return tt
  else Throw (ErrorObject "RangeError" ("Invalid time zone specified: " +:+ timeZone)).

Definition text_item (s : string) : ContentItem := {| type := "text"; text := s |}.

Definition invalid_timezone (timezone : string) : CallToolResult :=
  {| content :=
       [ text_item ("Invalid timezone: " +:+ timezone +:+
           ". Use IANA timezone identifiers (e.g., America/New_York, Europe/London, Asia/Tokyo)") ];
     isError := Some true |}.

Definition failure (e : thrown) : CallToolResult :=
  {| content := [ text_item ("Error getting timestamp: " +:+ error_message e) ];
     isError := Some true |}.

(** A template literal prints an undefined [format] as [undefined]. *)
Definition show_format (format : option string) : string := default "undefined" format.

(** [switch (format) { ... }] *)
Definition render (P : Platform) (now : Z) (timezone format : option string)
  : completion string :=
  match format with
  | Some "unix" => Return (pretty (now `div` 1000)%Z)
  | Some "iso" =>
      if truthy timezone then format_iso_zone P (default "" timezone) now
      else toISOString P now
  | Some "human" =>
      if truthy timezone then format_human_zone P (default "" timezone) now
      else toString P now
  | _ => toISOString P now
  end.

(** The statements after the time-zone check. *)
Definition respond (P : Platform) (now : Z) (timezone format displayTimezone : option string)
  : completion CallToolResult :=
  result ← render P now timezone format;
  let timezoneInfo :=
    if truthy displayTimezone then " (" +:+ default "" displayTimezone +:+ ")" else "" in
  let formatInfo :=
    if bool_decide (format = Some "unix") then ""
    else " in " +:+ show_format format +:+ " format" in
  mret {| content := [ text_item ("Current timestamp" +:+ formatInfo +:+ timezoneInfo
                                    +:+ ": " +:+ result) ];
          isError := None |}.

(** The body of the outer [try]. *)
Definition attempt (P : Platform) (timezone format : option string)
  : completion CallToolResult :=
  let now := getTime P in
  if truthy timezone then
    match DateTimeFormat P (default "" timezone) with
    | Throw _ => Return (invalid_timezone (default "" timezone))
    | Return _ => respond P now timezone format timezone
    end
  else respond P now timezone format None.

(** [currentTimestampTool.handler]: how the promise it returns settles. *)
Definition handler (P : Platform) (timezone format : option string)
  : completion CallToolResult :=
  try_catch (attempt P timezone format) (fun error => Return (failure error)).

Definition texts (r : CallToolResult) : list string := map text (content r).

(** The claim about unknown time zones in its original wording. *)
Definition invalid_timezone_claim (P : Platform) (timezone : string)
    (format : option string) : Prop :=
  timeZone_supported P timezone = false ->
  exists r rest,
    handler P (Some timezone) format = Return r /\
    isError r = Some true /\
    texts r = [ "Invalid timezone: " +:+ timezone +:+ rest ].

(** The claim in its original wording. *)
Definition handler_claim (P : Platform) (timezone format : option string) : Prop :=
  (exists r, handler P timezone format = Return r /\ content r <> []) /\
  (forall tz, timezone = Some tz -> invalid_timezone_claim P tz format) /\
  (forall e, attempt P timezone format = Throw e ->
             handler P timezone format = Return (failure e)).

(** A small concrete host, used to run the handler. *)
Definition sample_platform : Platform :=
  {| getTime := 1700000000123;
     timeZone_supported := fun tz =>
       bool_decide (tz ∈ ["UTC"; "America/New_York"; "Europe/London"; "Asia/Tokyo"]);
     format_iso_zone := fun tz _ => Return ("11/14/2023, 22:13:20 " +:+ tz);
     format_human_zone := fun tz _ => Return ("Tuesday, November 14, 2023 at 10:13:20 PM " +:+ tz);
     toISOString := fun _ => Return "2023-11-14T22:13:20.123Z";
     toString := fun _ => Return "Tue Nov 14 2023 22:13:20 GMT+0000 (Coordinated Universal Time)" |}.

End Timestamp.

(* ===================================================================== *)
(** ** Run-time values of the test suites *)
(* ===================================================================== *)

Module Value.
Import Js.

(** Plain data.  Numbers are the integers (the suites use no others); a
    promise is kept with the way it settles. *)
#[local] Unset Elimination Schemes.
Inductive value : Type :=
| VUndefined
| VNull
| VBool (b : bool)
| VNumber (n : Z)
| VString (s : string)
| VArray (items : list value)
| VObject (fields : list (string * value))
| VResolved (v : value)
| VRejected (e : thrown).
#[local] Set Elimination Schemes.

Definition typeof (v : value) : string :=
  match v with
  | VUndefined => "undefined"
  | VBool _ => "boolean"
  | VNumber _ => "number"
  | VString _ => "string"
  | VNull | VArray _ | VObject _ | VResolved _ | VRejected _ => "object"
  end.

(** [Object.is] against a primitive: an object or an array is never the
    same value as a literal written in the test. *)
Definition object_is (a b : value) : bool :=
  match a, b with
  | VUndefined, VUndefined => true
  | VNull, VNull => true
  | VBool x, VBool y => Bool.eqb x y
  | VNumber x, VNumber y => Z.eqb x y
  | VString x, VString y => String.eqb x y
  | _, _ => false
  end.

Definition isArray (v : value) : bool :=
  match v with VArray _ => true | _ => false end.

Definition is_undefined (v : value) : bool :=
  match v with VUndefined => true | _ => false end.

Fixpoint assoc (fields : list (string * value)) (key : string) : option value :=
  match fields with
  | [] => None
  | (k, v) :: rest => if String.eqb k key then Some v else assoc rest key
  end.

(** The properties of a value that the suites read. *)
Definition lookup_property (v : value) (key : string) : option value :=
  match v with
  | VObject fields => assoc fields key
  | VArray items =>
      if String.eqb key "length" then Some (VNumber (Z.of_nat (length items)))
      else None
  | VString s =>
      if String.eqb key "length" then Some (VNumber (Z.of_nat (String.length s)))
      else None
  | _ => None
  end.

Definition cannot_read (what key : string) : thrown :=
  ErrorObject "TypeError"
    ("Cannot read properties of " +:+ what +:+ " (reading '" +:+ key +:+ "')").

(** [v.key] *)
Definition get (v : value) (key : string) : completion value :=
  match v with
  | VUndefined => Throw (cannot_read "undefined" key)
  | VNull => Throw (cannot_read "null" key)
  | _ => Return (default VUndefined (lookup_property v key))
  end.

(** [v?.key] *)
Definition get_optional (v : value) (key : string) : value :=
  match v with
  | VUndefined | VNull => VUndefined
  | _ => default VUndefined (lookup_property v key)
  end.

(** [v[i]] *)
Definition index (v : value) (i : nat) : completion value :=
  match v with
  | VUndefined => Throw (cannot_read "undefined" (pretty i))
  | VNull => Throw (cannot_read "null" (pretty i))
  | VArray items => Return (default VUndefined (items !! i))
  | VObject fields => Return (default VUndefined (assoc fields (pretty i)))
  | VString s =>
      Return (match String.get i s with
              | Some c => VString (String c "")
              | None => VUndefined
              end)
  | _ => Return VUndefined
  end.

(** [String(v)], as a template literal applies it. *)
Fixpoint to_string (v : value) : string :=
  match v with
  | VUndefined => "undefined"
  | VNull => "null"
  | VBool true => "true"
  | VBool false => "false"
  | VNumber n => pretty n
  | VString s => s
  | VArray items =>
      join "," (map (fun x => match x with
                              | VUndefined | VNull => ""
                              | _ => to_string x
                              end) items)
  | VObject _ => "[object Object]"
  | VResolved _ | VRejected _ => "[object Promise]"
  end.

(** How the test runner prints a value inside a diagnostic. *)
Fixpoint inspect (v : value) : string :=
  match v with
  | VUndefined => "undefined"
  | VNull => "null"
  | VBool true => "true"
  | VBool false => "false"
  | VNumber n => pretty n
  | VString s => "'" +:+ s +:+ "'"
  | VArray items => "[ " +:+ join ", " (map inspect items) +:+ " ]"
  | VObject fields =>
      "{ " +:+ join ", " (map (fun kv => fst kv +:+ ": " +:+ inspect (snd kv)) fields)
        +:+ " }"
  | VResolved _ | VRejected _ => "Promise{}"
  end.

(** [await v] *)
Definition await (v : value) : completion value :=
  match v with
  | VResolved x => Return x
  | VRejected e => Throw e
  | _ => Return v
  end.

(** The promise an [async] function returns for a body that finishes as [c]. *)
Definition promise (c : completion value) : value :=
  match c with
  | Return v => VResolved v
  | Throw e => VRejected e
  end.

(** The Zod schemas that the sources write. *)
#[local] Unset Elimination Schemes.
Inductive zod : Type :=
| ZString
| ZNumber
| ZBoolean
| ZOptional (inner : zod)
| ZEnum (options : list string)
| ZDefault (inner : zod) (dflt : string)
| ZArray (item : zod)
| ZObject (shape : list (string * zod)).
#[local] Set Elimination Schemes.

(** [schema.safeParse(v)]: the parsed data, or nothing when [v] is refused.
    An object schema drops unknown keys. *)
Fixpoint parse (z : zod) (v : value) {struct z} : option value :=
  match z with
  | ZString => match v with VString _ => Some v | _ => None end
  | ZNumber => match v with VNumber _ => Some v | _ => None end
  | ZBoolean => match v with VBool _ => Some v | _ => None end
  | ZOptional inner =>
      match v with VUndefined => Some VUndefined | _ => parse inner v end
  | ZEnum options =>
      match v with
      | VString s => if bool_decide (s ∈ options) then Some v else None
      | _ => None
      end
  | ZDefault inner dflt =>
      match v with VUndefined => Some (VString dflt) | _ => parse inner v end
  | ZArray item =>
      match v with
      | VArray items =>
          VArray <$>
          (fix each (xs : list value) : option (list value) :=
             match xs with
             | [] => Some []
             | x :: rest =>
                 match parse item x, each rest with
                 | Some y, Some ys => Some (y :: ys)
                 | _, _ => None
                 end
             end) items
      | _ => None
      end
  | ZObject shape =>
      match v with
      | VObject fields =>
          VObject <$>
          (fix each (sh : list (string * zod)) : option (list (string * value)) :=
             match sh with
             | [] => Some []
             | (k, zk) :: rest =>
                 match parse zk (default VUndefined (assoc fields k)), each rest with
                 | Some y, Some ys =>
                     Some (if is_undefined y then ys else (k, y) :: ys)
                 | _, _ => None
                 end
             end) shape
      | _ => None
      end
  end.

(** A property that should hold something richer than plain data (a
    method, a handler, a schema): either it does, or plain data sits there
    ([Plain VUndefined] when the property is missing). *)
Inductive slot (F : Type) : Type :=
| Held (f : F)
| Plain (v : value).
Arguments Held {F} f.
Arguments Plain {F} v.

Definition slot_defined {F : Type} (p : slot F) : bool :=
  match p with
  | Held _ => true
  | Plain v => negb (is_undefined v)
  end.

(** [typeof] of a property that should hold a function. *)
Definition typeof_method {F : Type} (p : slot F) : string :=
  match p with
  | Held _ => "function"
  | Plain v => typeof v
  end.

Definition not_a_function (what : string) : thrown :=
  ErrorObject "TypeError" (what +:+ " is not a function").

Definition not_a_constructor (what : string) : thrown :=
  ErrorObject "TypeError" (what +:+ " is not a constructor").

(** A tool definition object, [{ name, description, inputSchema, handler }].
    The handler is an [async] function: it is given by the way its promise
    settles. *)
Record tool : Type := {
  tool_name : value;
  tool_description : value;
  tool_inputSchema : slot zod;
  tool_handler : slot (value -> completion value)
}.

(** What a variable such as [tool] or [retrieved] can hold. *)
Inductive object : Type :=
| Tool (t : tool)
| Data (v : value).

Definition object_defined (o : object) : bool :=
  match o with
  | Tool _ => true
  | Data v => negb (is_undefined v)
  end.

(** [o.name] and [o?.name] *)
Definition object_name (o : object) : completion value :=
  match o with
  | Tool t => Return (tool_name t)
  | Data v => get v "name"
  end.

Definition object_name_optional (o : object) : value :=
  match o with
  | Tool t => tool_name t
  | Data v => get_optional v "name"
  end.

Definition object_description (o : object) : completion value :=
  match o with
  | Tool t => Return (tool_description t)
  | Data v => get v "description"
  end.

Definition object_inputSchema (o : object) : completion (slot zod) :=
  match o with
  | Tool t => Return (tool_inputSchema t)
  | Data v => Plain <$> get v "inputSchema"
  end.

Definition object_handler (o : object) : completion (slot (value -> completion value)) :=
  match o with
  | Tool t => Return (tool_handler t)
  | Data v => Plain <$> get v "handler"
  end.

Definition text_content (s : string) : value :=
  VObject [ ("content",
             VArray [ VObject [ ("type", VString "text"); ("text", VString s) ] ]) ].

End Value.

(* ===================================================================== *)
(** ** The installed [@mcp-typescript-simple/*] packages, as the suites
       see them *)
(* ===================================================================== *)

Module Dependency.
Import Js Value.

(** What an [import { X }] binds under the test runner: the export as it
    is meant to be (a function or a class), some plain data exported under
    that name, or [undefined] when the package has no such export.  The
    suite relies on the last case itself: its "should export ..." tests
    look at [typeof X]. *)
Inductive binding (A : Type) : Type :=
| Exported (a : A)
| ExportedData (v : value)
| NotExported.
Arguments Exported {A} a.
Arguments ExportedData {A} v.
Arguments NotExported {A}.

Definition typeof_binding {A : Type} (b : binding A) : string :=
  match b with
  | Exported _ => "function"
  | ExportedData v => typeof v
  | NotExported => "undefined"
  end.

(** [class ToolRegistry]: [R] is the state of an instance.  A method takes
    the state of [this] and gives back the new state with its result. *)
Record RegistryClass (R : Type) : Type := {
  registry_class_name : value;
  registry_new : completion R;
  registry_add : slot (R -> object -> completion (R * value));
  registry_get : slot (R -> value -> completion (R * object));
  registry_has : slot (R -> value -> completion (R * value));
  registry_list : slot (R -> completion (R * value));
  registry_merge : slot (R -> R -> completion (R * value));
  registry_call : slot (R -> value -> value -> completion (R * value))
}.
Arguments registry_class_name {R} _.
Arguments registry_new {R} _.
Arguments registry_add {R} _.
Arguments registry_get {R} _.
Arguments registry_has {R} _.
Arguments registry_list {R} _.
Arguments registry_merge {R} _.
Arguments registry_call {R} _.

(** [class EnvironmentConfig]: static methods only. *)
Record ConfigClass : Type := {
  config_class_name : value;
  config_get : slot (completion value);
  config_getTransportMode : slot (completion value);
  config_logConfiguration : slot (completion value)
}.

(** [class LLMManager]: [M] is the state of an instance. *)
Record ManagerClass (M : Type) : Type := {
  manager_class_name : value;
  manager_new : completion M;
  manager_initialize : slot (M -> completion (M * value));
  manager_getAvailableProviders : slot (M -> completion (M * value));
  manager_isProviderAvailable : slot (M -> value -> completion (M * value))
}.
Arguments manager_class_name {M} _.
Arguments manager_new {M} _.
Arguments manager_initialize {M} _.
Arguments manager_getAvailableProviders {M} _.
Arguments manager_isProviderAvailable {M} _.

(** The four names that the suites import. *)
Record dependency (R M : Type) : Type := {
  defineTool : binding (tool -> completion object);
  ToolRegistry : binding (RegistryClass R);
  EnvironmentConfig : binding ConfigClass;
  LLMManager : binding (ManagerClass M)
}.
Arguments defineTool {R M} _.
Arguments ToolRegistry {R M} _.
Arguments EnvironmentConfig {R M} _.
Arguments LLMManager {R M} _.

Inductive symbol : Type :=
| sym_defineTool
| sym_ToolRegistry
| sym_EnvironmentConfig
| sym_LLMManager.

#[global] Instance symbol_eq_dec : EqDecision symbol.
Proof. solve_decision. Defined.

(** The same installation with one export deleted. *)
Definition without {R M : Type} (s : symbol) (d : dependency R M) : dependency R M :=
  match s with
  | sym_defineTool =>
      {| defineTool := NotExported; ToolRegistry := ToolRegistry d;
         EnvironmentConfig := EnvironmentConfig d; LLMManager := LLMManager d |}
  | sym_ToolRegistry =>
      {| defineTool := defineTool d; ToolRegistry := NotExported;
         EnvironmentConfig := EnvironmentConfig d; LLMManager := LLMManager d |}
  | sym_EnvironmentConfig =>
      {| defineTool := defineTool d; ToolRegistry := ToolRegistry d;
         EnvironmentConfig := NotExported; LLMManager := LLMManager d |}
  | sym_LLMManager =>
      {| defineTool := defineTool d; ToolRegistry := ToolRegistry d;
         EnvironmentConfig := EnvironmentConfig d; LLMManager := NotExported |}
  end.

Definition exports {R M : Type} (d : dependency R M) (s : symbol) : bool :=
  match s with
  | sym_defineTool => match defineTool d with NotExported => false | _ => true end
  | sym_ToolRegistry => match ToolRegistry d with NotExported => false | _ => true end
  | sym_EnvironmentConfig => match EnvironmentConfig d with NotExported => false | _ => true end
  | sym_LLMManager => match LLMManager d with NotExported => false | _ => true end
  end.

(** What the module loader makes of the specifiers that the test files
    import values from ([zod] and the three packages): the exports of the
    module, or the error of an import that does not resolve, as when the
    package is not installed.  The imports are static, so a file is
    evaluated only once all of its imports have resolved.

    [declarations] stands for the type declarations that the packages
    ship, through what the TypeScript compiler would make of them: [None]
    when they ship none, [Some accepts] when they do, a fragment [f] of a
    test file type-checking against them exactly when [accepts f] holds.
    The test runner strips the type annotations and the [import type]
    lines before it evaluates a file, and so reads none of this. *)
Record packages (R M : Type) : Type := {
  zod_module : completion unit;
  tools_module :
    completion (binding (tool -> completion object) * binding (RegistryClass R));
  config_module : completion (binding ConfigClass);
  tools_llm_module : completion (binding (ManagerClass M));
  declarations : option (string -> bool)
}.
Arguments zod_module {R M} _.
Arguments tools_module {R M} _.
Arguments config_module {R M} _.
Arguments tools_llm_module {R M} _.
Arguments declarations {R M} _.

(** The same packages with one export deleted from its module. *)
Definition without_export {R M : Type} (s : symbol) (p : packages R M)
  : packages R M :=
  match s with
  | sym_defineTool =>
      {| zod_module := zod_module p;
         tools_module := (fun m => (NotExported, snd m)) <$> tools_module p;
         config_module := config_module p;
         tools_llm_module := tools_llm_module p;
         declarations := declarations p |}
  | sym_ToolRegistry =>
      {| zod_module := zod_module p;
         tools_module := (fun m => (fst m, NotExported)) <$> tools_module p;
         config_module := config_module p;
         tools_llm_module := tools_llm_module p;
         declarations := declarations p |}
  | sym_EnvironmentConfig =>
      {| zod_module := zod_module p;
         tools_module := tools_module p;
         config_module := (fun _ => NotExported) <$> config_module p;
         tools_llm_module := tools_llm_module p;
         declarations := declarations p |}
  | sym_LLMManager =>
      {| zod_module := zod_module p;
         tools_module := tools_module p;
         config_module := config_module p;
         tools_llm_module := (fun _ => NotExported) <$> tools_llm_module p;
         declarations := declarations p |}
  end.


(** Packages all installed, whose modules export what [d] holds. *)
Definition packaged {R M : Type} (d : dependency R M) (types : option (string -> bool))
  : packages R M :=
  {| zod_module := Return tt;
     tools_module := Return (defineTool d, ToolRegistry d);
     config_module := Return (EnvironmentConfig d);
     tools_llm_module := Return (LLMManager d);
     declarations := types |}.

Section Access.
Context {R M : Type}.

(** An instance: the class it was made from and its state. *)
Definition registry : Type := RegistryClass R * R.
Definition manager : Type := ManagerClass M * M.

(** [X.name] on an imported binding. *)
Definition binding_name {A : Type} (class_name : A -> value) (b : binding A)
  : completion value :=
  match b with
  | Exported a => Return (class_name a)
  | ExportedData v => get v "name"
  | NotExported => get VUndefined "name"
  end.

(** [defineTool({ ... })]; the test runner rewrites a call of an imported
    name to [(0, module.defineTool)(...)], which is how the engine quotes
    it. *)
Definition call_defineTool (d : dependency R M) (t : tool) : completion object :=
  match defineTool d with
  | Exported f => f t
  | _ => Throw (not_a_function "(0 , defineTool)")
  end.

(** [new ToolRegistry()] *)
Definition new_ToolRegistry (d : dependency R M) : completion registry :=
  match ToolRegistry d with
  | Exported C => r ← registry_new C; mret (C, r)
  | _ => Throw (not_a_constructor "ToolRegistry")
  end.

(** [new LLMManager()] *)
Definition new_LLMManager (d : dependency R M) : completion manager :=
  match LLMManager d with
  | Exported C => m ← manager_new C; mret (C, m)
  | _ => Throw (not_a_constructor "LLMManager")
  end.

(** Calling a method of an instance: [this.m(args)].  [apply] feeds the
    arguments to the method once it is known to be one. *)
Definition invoke {C S F B : Type} (what : string) (method : C -> slot F)
    (apply : F -> S -> completion (S * B)) (this : C * S) : completion ((C * S) * B) :=
  match method (fst this) with
  | Held f => '(s, b) ← apply f (snd this); mret ((fst this, s), b)
  | Plain _ => Throw (not_a_function what)
  end.

Definition add (this : registry) (t : object) : completion (registry * value) :=
  invoke "registry.add" registry_add (fun f r => f r t) this.
Definition get_tool (this : registry) (name : value) : completion (registry * object) :=
  invoke "registry.get" registry_get (fun f r => f r name) this.
Definition has (this : registry) (name : value) : completion (registry * value) :=
  invoke "registry.has" registry_has (fun f r => f r name) this.
Definition list_tools (this : registry) : completion (registry * value) :=
  invoke "registry.list" registry_list (fun f r => f r) this.
Definition merge (this other : registry) : completion (registry * value) :=
  invoke "registry.merge" registry_merge (fun f r => f r (snd other)) this.
Definition call (this : registry) (name args : value) : completion (registry * value) :=
  invoke "registry.call" registry_call (fun f r => f r name args) this.

Definition initialize (this : manager) : completion (manager * value) :=
  invoke "manager.initialize" manager_initialize (fun f m => f m) this.
Definition getAvailableProviders (this : manager) : completion (manager * value) :=
  invoke "manager.getAvailableProviders" manager_getAvailableProviders
    (fun f m => f m) this.
Definition isProviderAvailable (this : manager) (provider : value)
  : completion (manager * value) :=
  invoke "manager.isProviderAvailable" manager_isProviderAvailable
    (fun f m => f m provider) this.

(** [EnvironmentConfig.m], a static member. *)
Definition static (d : dependency R M) (key : string)
    (member : ConfigClass -> slot (completion value))
  : completion (slot (completion value)) :=
  match EnvironmentConfig d with
  | Exported C => Return (member C)
  | ExportedData v => Plain <$> get v key
  | NotExported => Plain <$> get VUndefined key
  end.

(** [EnvironmentConfig.m()] *)
Definition call_static (what : string) (p : slot (completion value))
  : completion value :=
  match p with
  | Held f => f
  | Plain _ => Throw (not_a_function what)
  end.

End Access.
End Dependency.

(* ===================================================================== *)
(** ** The test runner: [it], [expect] and its matchers *)
(* ===================================================================== *)

Module Vitest.
Import Js Value.

(** [expect(...)] throws at the first mismatch ([Throwing], what the
    suites use).  [Collecting] records the mismatch and goes on: the
    evaluation that keeps one diagnostic for every violated assertion. *)
Inductive mode : Type := Throwing | Collecting.

(** A test body ends normally or is cut short by a throw; [recorded] holds
    the mismatches noted on the way. *)
Inductive run (A : Type) : Type :=
| Finished (a : A) (recorded : list thrown)
| Aborted (recorded : list thrown) (fatal : thrown).
Arguments Finished {A} a recorded.
Arguments Aborted {A} recorded fatal.

Definition test (A : Type) : Type := mode -> run A.

#[global] Instance test_ret : MRet test := fun A a _ => Finished a [].
#[global] Instance test_bind : MBind test := fun A B k m md =>
  match m md with
  | Finished a l =>
      match k a md with
      | Finished b l' => Finished b (l ++ l')
      | Aborted l' e => Aborted (l ++ l') e
      end
  | Aborted l e => Aborted l e
  end.

(** A statement of the body that is not an assertion. *)
Definition js {A : Type} (c : completion A) : test A := fun _ =>
  match c with
  | Return a => Finished a []
  | Throw e => Aborted [] e
  end.

Definition assertion_error (message : string) : thrown :=
  ErrorObject "AssertionError" message.

Definition assert (ok : bool) (message : string) : test unit := fun md =>
  if ok then Finished tt []
  else match md with
       | Throwing => Aborted [] (assertion_error message)
       | Collecting => Finished tt [assertion_error message]
       end.

(** Every diagnostic of a run, in order. *)
Definition failures {A : Type} (r : run A) : list thrown :=
  match r with
  | Finished _ l => l
  | Aborted l e => l ++ [e]
  end.

Inductive status : Type :=
| pass
| fail
| skip (reason : string).

#[global] Instance status_eq_dec : EqDecision status.
Proof. solve_decision. Defined.

(** A test passes when its body ends normally with nothing recorded. *)
Definition verdict {A : Type} (r : run A) : status :=
  match r with
  | Finished _ [] => pass
  | _ => fail
  end.

Record ProbeResult : Type := {
  result_entry : string;
  result_status : status;
  result_failures : list string
}.

Definition report {A : Type} (entry : string) (r : run A) : ProbeResult :=
  {| result_entry := entry;
     result_status := verdict r;
     result_failures := map error_message (failures r) |}.

(** A [describe] block: it fails when one of its tests fails, and it
    lists the diagnostics of all of them. *)
Definition failed (r : ProbeResult) : bool :=
  bool_decide (result_status r = fail).

Definition suite (name : string) (tests : list ProbeResult) : ProbeResult :=
  {| result_entry := name;
     result_status := if existsb failed tests then fail else pass;
     result_failures := concat (map result_failures tests) |}.

(** *** Matchers *)

Definition toBe (actual expected : value) : test unit :=
  assert (object_is actual expected)
    ("expected " +:+ inspect actual +:+ " to be " +:+ inspect expected
       +:+ " // Object.is equality").

(** [expect(x).toBeDefined()]; it fails on [undefined] alone. *)
Definition toBeDefined (defined : bool) : test unit :=
  assert defined "expected undefined to be defined".

Definition has_property (v : value) (key : string) : bool :=
  match lookup_property v key with Some _ => true | None => false end.

Definition toHaveProperty (actual : value) (key : string) : test unit :=
  assert (has_property actual key)
    ("expected " +:+ inspect actual +:+ " to have property '" +:+ key +:+ "'").

Definition toContain (items : list value) (item : value) : test unit :=
  assert (existsb (fun x => object_is x item) items)
    ("expected " +:+ inspect (VArray items) +:+ " to include " +:+ inspect item).

(** The text that [toThrow('...')] searches: the [message] of an error
    object, or a thrown string itself. *)
Definition thrown_text (e : thrown) : option string :=
  match e with
  | ErrorObject _ m => Some m
  | ThrownString s => Some s
  | ThrownOther _ => None
  end.

Definition matches_message (e : thrown) (expected : string) : bool :=
  match thrown_text e with
  | Some m => includes expected m
  | None => false
  end.

(** [await expect(actual).rejects.toThrow(expected)] *)
Definition rejects_toThrow (actual : value) (expected : string) : test unit :=
  match actual with
  | VRejected e =>
      assert (matches_message e expected)
        ("expected error to include '" +:+ expected +:+ "' but got '"
           +:+ error_message e +:+ "'")
  | VResolved v =>
      assert false
        ("promise resolved '" +:+ inspect v +:+ "' instead of rejecting")
  | _ =>
      js (Throw (ErrorObject "TypeError"
            ("You must provide a Promise to expect() when using .rejects, not '"
               +:+ typeof actual +:+ "'.")))
  end.

(** A body respects the two modes when its throwing run records nothing,
    ends as the collecting run does if no assertion fails, and otherwise
    stops on the first diagnostic of the collecting run. *)
Definition respects_modes {A : Type} (m : test A) : Prop :=
  match m Throwing with
  | Finished a l => l = [] /\ m Collecting = Finished a []
  | Aborted l e => l = [] /\ exists rest, failures (m Collecting) = e :: rest
  end.

End Vitest.

(* ===================================================================== *)
(** ** test/interface-stability.test.ts *)
(* ===================================================================== *)

Module Stability.
Import Js Value Dependency Vitest.

(** Destructuring [{ key }] in the parameter list of a handler. *)
Definition destructure (arg : value) (key : string) : completion value :=
  match arg with
  | VUndefined | VNull =>
      Throw (ErrorObject "TypeError"
               ("Cannot destructure property '" +:+ key +:+ "' of '"
                  +:+ (if is_undefined arg then "undefined" else "object null")
                  +:+ "' as it is " +:+ to_string arg +:+ "."))
  | _ => Return (default VUndefined (lookup_property arg key))
  end.

(** The handlers written in the suite. *)

(** [async ({ input }) => ({ content: [{ type: 'text', text: `Received: ${input}` }] })] *)
Definition received_input (arg : value) : completion value :=
  input ← destructure arg "input";
  mret (text_content ("Received: " +:+ to_string input)).

(** [async () => ({ content: [] })] *)
Definition empty_content (_ : value) : completion value :=
  Return (VObject [ ("content", VArray []) ]).

(** [async ({ input }) => ({ content: [{ type: 'text', text: input }] })] *)
Definition text_input (arg : value) : completion value :=
  input ← destructure arg "input";
  mret (VObject [ ("content",
                   VArray [ VObject [ ("type", VString "text"); ("text", input) ] ]) ]).

(** [async ({ message }) => ({ content: [{ type: 'text', text: `Echo: ${message}` }] })] *)
Definition echo_message (arg : value) : completion value :=
  message ← destructure arg "message";
  mret (text_content ("Echo: " +:+ to_string message)).

(** An object literal [{ name, description, inputSchema, handler }]. *)
Definition literal (name description : string) (inputSchema : zod)
    (handler : value -> completion value) : tool :=
  {| tool_name := VString name;
     tool_description := VString description;
     tool_inputSchema := Held inputSchema;
     tool_handler := Held handler |}.

Section Suite.
Context {R M : Type}.
Variable d : dependency R M.

(** [expect(typeof x).toBe('function')] *)
Definition is_function (type : string) : test unit :=
  toBe (VString type) (VString "function").

(** *** describe('defineTool function') *)

Definition defineTool_exported : test unit :=
  is_function (typeof_binding (defineTool d)).

Definition defineTool_zod_schema : test unit :=
  tool ← js (call_defineTool d
               (literal "test-tool" "Test tool for interface stability"
                  (ZObject [ ("input", ZString) ]) received_input));
  name ← js (object_name tool);
  toBe name (VString "test-tool");;
  description ← js (object_description tool);
  toBe description (VString "Test tool for interface stability");;
  inputSchema ← js (object_inputSchema tool);
  toBeDefined (slot_defined inputSchema);;
  handler ← js (object_handler tool);
  toBeDefined (slot_defined handler);;
  is_function (typeof_method handler).

Definition defineTool_optional_fields : test unit :=
  tool ← js (call_defineTool d
               (literal "optional-test" "Test optional fields"
                  (ZObject [ ("required", ZString); ("optional", ZOptional ZString) ])
                  empty_content));
  inputSchema ← js (object_inputSchema tool);
  toBeDefined (slot_defined inputSchema).

Definition defineTool_enum_fields : test unit :=
  tool ← js (call_defineTool d
               (literal "enum-test" "Test enum fields"
                  (ZObject [ ("format", ZEnum ["a"; "b"; "c"]) ]) empty_content));
  inputSchema ← js (object_inputSchema tool);
  toBeDefined (slot_defined inputSchema).

(** *** describe('ToolRegistry class') *)

Definition ToolRegistry_exported : test unit :=
  is_function (typeof_binding (ToolRegistry d));;
  name ← js (binding_name registry_class_name (ToolRegistry d));
  toBe name (VString "ToolRegistry").

Definition ToolRegistry_add : test unit :=
  registry ← js (new_ToolRegistry d);
  tool ← js (call_defineTool d
               (literal "test" "Test" (ZObject [ ("input", ZString) ]) text_input));
  is_function (typeof_method (registry_add (fst registry)));;
  '(registry, _) ← js (add registry tool);
  '(registry, found) ← js (has registry (VString "test"));
  toBe found (VBool true).

Definition ToolRegistry_get : test unit :=
  registry ← js (new_ToolRegistry d);
  tool ← js (call_defineTool d
               (literal "lookup-test" "Lookup test" (ZObject []) empty_content));
  '(registry, _) ← js (add registry tool);
  '(registry, retrieved) ← js (get_tool registry (VString "lookup-test"));
  toBeDefined (object_defined retrieved);;
  toBe (object_name_optional retrieved) (VString "lookup-test").

Definition ToolRegistry_has : test unit :=
  registry ← js (new_ToolRegistry d);
  is_function (typeof_method (registry_has (fst registry)));;
  '(registry, found) ← js (has registry (VString "nonexistent"));
  toBe found (VBool false).

Definition ToolRegistry_list : test unit :=
  registry ← js (new_ToolRegistry d);
  tool1 ← js (call_defineTool d (literal "tool1" "Tool 1" (ZObject []) empty_content));
  tool2 ← js (call_defineTool d (literal "tool2" "Tool 2" (ZObject []) empty_content));
  '(registry, _) ← js (add registry tool1);
  '(registry, _) ← js (add registry tool2);
  '(registry, tools) ← js (list_tools registry);
  toBe (VBool (isArray tools)) (VBool true);;
  length ← js (get tools "length");
  toBe length (VNumber 2);;
  first ← js (index tools 0);
  toHaveProperty first "name";;
  first ← js (index tools 0);
  toHaveProperty first "description";;
  first ← js (index tools 0);
  toHaveProperty first "inputSchema".

Definition ToolRegistry_merge : test unit :=
  registry1 ← js (new_ToolRegistry d);
  registry2 ← js (new_ToolRegistry d);
  tool1 ← js (call_defineTool d (literal "tool1" "Tool 1" (ZObject []) empty_content));
  '(registry1, _) ← js (add registry1 tool1);
  tool2 ← js (call_defineTool d (literal "tool2" "Tool 2" (ZObject []) empty_content));
  '(registry2, _) ← js (add registry2 tool2);
  is_function (typeof_method (registry_merge (fst registry1)));;
  '(registry1, _) ← js (merge registry1 registry2);
  '(registry1, found1) ← js (has registry1 (VString "tool1"));
  toBe found1 (VBool true);;
  '(registry1, found2) ← js (has registry1 (VString "tool2"));
  toBe found2 (VBool true).

Definition ToolRegistry_call : test unit :=
  registry ← js (new_ToolRegistry d);
  tool ← js (call_defineTool d
               (literal "invoke-test" "Invocation test"
                  (ZObject [ ("message", ZString) ]) echo_message));
  '(registry, _) ← js (add registry tool);
  is_function (typeof_method (registry_call (fst registry)));;
  '(registry, pending) ← js (call registry (VString "invoke-test")
                               (VObject [ ("message", VString "hello") ]));
  result ← js (await pending);
  toHaveProperty result "content";;
  content ← js (get result "content");
  toBe (VBool (isArray content)) (VBool true).

(** *** describe('EnvironmentConfig class') *)

Definition EnvironmentConfig_exported : test unit :=
  is_function (typeof_binding (EnvironmentConfig d));;
  name ← js (binding_name config_class_name (EnvironmentConfig d));
  toBe name (VString "EnvironmentConfig").

Definition EnvironmentConfig_get : test unit :=
  get_ ← js (static d "get" config_get);
  is_function (typeof_method get_);;
  get_ ← js (static d "get" config_get);
  config ← js (call_static "EnvironmentConfig.get" get_);
  toBeDefined (negb (is_undefined config));;
  toHaveProperty config "NODE_ENV".

Definition EnvironmentConfig_getTransportMode : test unit :=
  getTransportMode ← js (static d "getTransportMode" config_getTransportMode);
  is_function (typeof_method getTransportMode);;
  getTransportMode ← js (static d "getTransportMode" config_getTransportMode);
  mode ← js (call_static "EnvironmentConfig.getTransportMode" getTransportMode);
  toBe (VString (typeof mode)) (VString "string");;
  toContain [ VString "stdio"; VString "streamable_http" ] mode.

Definition EnvironmentConfig_logConfiguration : test unit :=
  logConfiguration ← js (static d "logConfiguration" config_logConfiguration);
  is_function (typeof_method logConfiguration);;
  logConfiguration ← js (static d "logConfiguration" config_logConfiguration);
  _ ← js (call_static "EnvironmentConfig.logConfiguration" logConfiguration);
  mret tt.

(** *** describe('LLMManager class') *)

Definition LLMManager_exported : test unit :=
  is_function (typeof_binding (LLMManager d));;
  name ← js (binding_name manager_class_name (LLMManager d));
  toBe name (VString "LLMManager").

Definition LLMManager_initialize : test unit :=
  manager ← js (new_LLMManager d);
  is_function (typeof_method (manager_initialize (fst manager)));;
  '(manager, pending) ← js (initialize manager);
  rejects_toThrow pending "No LLM clients could be initialized".

Definition LLMManager_getAvailableProviders : test unit :=
  manager ← js (new_LLMManager d);
  is_function (typeof_method (manager_getAvailableProviders (fst manager)));;
  '(manager, providers) ← js (getAvailableProviders manager);
  toBe (VBool (isArray providers)) (VBool true).

Definition LLMManager_isProviderAvailable : test unit :=
  manager ← js (new_LLMManager d);
  is_function (typeof_method (manager_isProviderAvailable (fst manager)));;
  '(manager, hasAnthropic) ← js (isProviderAvailable manager (VString "anthropic"));
  toBe (VString (typeof hasAnthropic)) (VString "boolean").

End Suite.

(** One [it(...)] of the file: its place in the [describe] tree, the
    imported names its body mentions, and the body. *)
Record entry (R M : Type) : Type := {
  path : string;
  symbols : list symbol;
  body : dependency R M -> test unit
}.
Arguments path {R M} _.
Arguments symbols {R M} _.
Arguments body {R M} _.

Definition registry_block : string :=
  "Tool System Interface Stability > ToolRegistry class > ".

(** The [it]s of [describe('ToolRegistry class')], in source order. *)
Definition registry_entries {R M : Type} : list (entry R M) :=
  [ {| path := registry_block +:+ "should export ToolRegistry class";
       symbols := [sym_ToolRegistry];
       body := ToolRegistry_exported |};
    {| path := registry_block +:+ "should support tool registration via add() method";
       symbols := [sym_ToolRegistry; sym_defineTool];
       body := ToolRegistry_add |};
    {| path := registry_block +:+ "should support tool lookup via get() method";
       symbols := [sym_ToolRegistry; sym_defineTool];
       body := ToolRegistry_get |};
    {| path := registry_block +:+ "should support tool existence check via has() method";
       symbols := [sym_ToolRegistry];
       body := ToolRegistry_has |};
    {| path := registry_block +:+ "should support tool listing via list() method";
       symbols := [sym_ToolRegistry; sym_defineTool];
       body := ToolRegistry_list |};
    {| path := registry_block +:+ "should support registry merging via merge() method";
       symbols := [sym_ToolRegistry; sym_defineTool];
       body := ToolRegistry_merge |};
    {| path := registry_block +:+ "should support async tool invocation via call() method";
       symbols := [sym_ToolRegistry; sym_defineTool];
       body := ToolRegistry_call |} ].

(** The [it] that calls [initialize()]. *)
Definition initialize_entry {R M : Type} : entry R M :=
  {| path := "LLM System Interface Stability > LLMManager class > should support initialize() method";
     symbols := [sym_LLMManager];
     body := LLMManager_initialize |}.

(** Every [it] of the file, in source order. *)
Definition catalog {R M : Type} : list (entry R M) :=
  [ {| path := "Tool System Interface Stability > defineTool function > should export defineTool function";
       symbols := [sym_defineTool];
       body := defineTool_exported |};
    {| path := "Tool System Interface Stability > defineTool function > should support tool definition with Zod schema";
       symbols := [sym_defineTool];
       body := defineTool_zod_schema |};
    {| path := "Tool System Interface Stability > defineTool function > should support optional input fields";
       symbols := [sym_defineTool];
       body := defineTool_optional_fields |};
    {| path := "Tool System Interface Stability > defineTool function > should support enum input fields";
       symbols := [sym_defineTool];
       body := defineTool_enum_fields |} ]
  ++ registry_entries ++
  [ {| path := "Configuration System Interface Stability > EnvironmentConfig class > should export EnvironmentConfig class";
       symbols := [sym_EnvironmentConfig];
       body := EnvironmentConfig_exported |};
    {| path := "Configuration System Interface Stability > EnvironmentConfig class > should support get() static method";
       symbols := [sym_EnvironmentConfig];
       body := EnvironmentConfig_get |};
    {| path := "Configuration System Interface Stability > EnvironmentConfig class > should support getTransportMode() static method";
       symbols := [sym_EnvironmentConfig];
       body := EnvironmentConfig_getTransportMode |};
    {| path := "Configuration System Interface Stability > EnvironmentConfig class > should support logConfiguration() static method";
       symbols := [sym_EnvironmentConfig];
       body := EnvironmentConfig_logConfiguration |};
    {| path := "LLM System Interface Stability > LLMManager class > should export LLMManager class";
       symbols := [sym_LLMManager];
       body := LLMManager_exported |};
    initialize_entry;
    {| path := "LLM System Interface Stability > LLMManager class > should support getAvailableProviders() method";
       symbols := [sym_LLMManager];
       body := LLMManager_getAvailableProviders |};
    {| path := "LLM System Interface Stability > LLMManager class > should support isProviderAvailable() method";
       symbols := [sym_LLMManager];
       body := LLMManager_isProviderAvailable |} ].

(** Running one entry the way the suite does: [expect] throws. *)
Definition probe {R M : Type} (d : dependency R M) (e : entry R M) : ProbeResult :=
  report (path e) (body e d Throwing).

(** The same entry with every assertion evaluated. *)
Definition probe_collecting {R M : Type} (d : dependency R M) (e : entry R M)
  : ProbeResult :=
  report (path e) (body e d Collecting).

(** Every [it] of the file, run in source order once the imports of the
    file have resolved to [d]. *)
Definition run_catalog {R M : Type} (d : dependency R M) : list ProbeResult :=
  map (probe d) catalog.

(** The imports at the top of the file (lines 1 to 7), in source order;
    [vitest] is the runner itself. *)
Definition imports {R M : Type} (p : packages R M) : completion (dependency R M) :=
  zod_module p;;
  tools ← tools_module p;
  config ← config_module p;
  tools_llm ← tools_llm_module p;
  mret {| defineTool := fst tools; ToolRegistry := snd tools;
          EnvironmentConfig := config; LLMManager := tools_llm |}.

(** One run of the file.  When an import does not resolve the file fails
    as a whole with the error of the loader, and none of its tests is
    collected or reported; else every [it] is run and reported. *)
Definition run_file {R M : Type} (p : packages R M) : completion (list ProbeResult) :=
  d ← imports p;
  mret (run_catalog d).

(** The status reported under a title, if any. *)
Definition status_of (results : list ProbeResult) (title : string) : option status :=
  result_status <$> find (fun r => String.eqb (result_entry r) title) results.

(** The imported names that the body of an entry mentions. *)
Definition mentions {R M : Type} (e : entry R M) (s : symbol) : bool :=
  bool_decide (s ∈ symbols e).

(** The claim in its original wording: pass exactly when there is no
    diagnostic, and the failures kept are those of the evaluation that does
    not stop at the first failed assertion. *)
Definition keeps_every_diagnostic {R M : Type} (d : dependency R M) : Prop :=
  Forall (fun e =>
            (result_status (probe d e) = pass <-> result_failures (probe d e) = []) /\
            result_failures (probe d e) = result_failures (probe_collecting d e))
         catalog.

(** The claim in its original wording, for an installation [d] that
    loses the export [s]. *)
Definition removal_claim {R M : Type} (d : dependency R M) (s : symbol) : Prop :=
  forall e, e ∈ catalog ->
    (s ∈ symbols e ->
       result_status (probe (without s d) e) = fail /\
       exists message, message ∈ result_failures (probe (without s d) e) /\
                       includes "not exported" message = true) /\
    (s ∉ symbols e -> probe (without s d) e = probe d e).

(** [initialize()] of a fresh manager gives a promise that rejects with a
    message containing [needle]. *)
Definition rejects_with {R M : Type} (d : dependency R M) (needle : string) : Prop :=
  exists C m f m' e message,
    LLMManager d = Exported C /\
    manager_new C = Return m /\
    manager_initialize C = Held f /\
    f m = Return (m', VRejected e) /\
    thrown_text e = Some message /\
    includes needle message = true.

(** The claim in its original wording. *)
Definition initialize_claim {R M : Type} (d : dependency R M) : Prop :=
  result_status (probe d initialize_entry) = pass
  <-> rejects_with d "could not be initialized".

End Stability.

(* ===================================================================== *)
(** ** Two runs against packages that have not changed *)
(* ===================================================================== *)

Module Unchanged.
Import Js Value Dependency.

Section Relation.
Context {R1 M1 R2 M2 : Type}.

(** An instance of a class keeps state, and what it holds at the second
    run needs not be what it held at the first (an address, a cache, the
    time of its creation).  [same_registry] and [same_manager] relate the
    states that stand for each other in the two runs. *)
Variable same_registry : R1 -> R2 -> Prop.
Variable same_manager : M1 -> M2 -> Prop.

(** Two calls end alike: both return, with results that stand for each
    other, or both throw.  What is thrown may differ from one run to the
    other, as a message with a time stamp in it does. *)
Definition alike {A1 A2 : Type} (same : A1 -> A2 -> Prop)
    (c1 : completion A1) (c2 : completion A2) : Prop :=
  match c1, c2 with
  | Return a1, Return a2 => same a1 a2
  | Throw _, Throw _ => True
  | _, _ => False
  end.

(** Two calls of a method end alike: the new states stand for each other
    and the results are equal. *)
Definition answers {S1 S2 B : Type} (same : S1 -> S2 -> Prop)
    (c1 : completion (S1 * B)) (c2 : completion (S2 * B)) : Prop :=
  alike (fun x y => same (fst x) (fst y) /\ snd x = snd y) c1 c2.

Definition same_slot {F1 F2 : Type} (same : F1 -> F2 -> Prop)
    (p1 : slot F1) (p2 : slot F2) : Prop :=
  match p1, p2 with
  | Held f1, Held f2 => same f1 f2
  | Plain v1, Plain v2 => v1 = v2
  | _, _ => False
  end.

Definition same_binding {A1 A2 : Type} (same : A1 -> A2 -> Prop)
    (b1 : binding A1) (b2 : binding A2) : Prop :=
  match b1, b2 with
  | Exported a1, Exported a2 => same a1 a2
  | ExportedData v1, ExportedData v2 => v1 = v2
  | NotExported, NotExported => True
  | _, _ => False
  end.

Definition same_defineTool (f1 f2 : tool -> completion object) : Prop :=
  forall t, alike eq (f1 t) (f2 t).

Record same_RegistryClass (C1 : RegistryClass R1) (C2 : RegistryClass R2) : Prop := {
  same_registry_name : registry_class_name C1 = registry_class_name C2;
  same_registry_new : alike same_registry (registry_new C1) (registry_new C2);
  same_add :
    same_slot (fun f1 f2 => forall r1 r2 o, same_registry r1 r2 ->
                 answers same_registry (f1 r1 o) (f2 r2 o))
      (registry_add C1) (registry_add C2);
  same_get :
    same_slot (fun f1 f2 => forall r1 r2 name, same_registry r1 r2 ->
                 answers same_registry (f1 r1 name) (f2 r2 name))
      (registry_get C1) (registry_get C2);
  same_has :
    same_slot (fun f1 f2 => forall r1 r2 name, same_registry r1 r2 ->
                 answers same_registry (f1 r1 name) (f2 r2 name))
      (registry_has C1) (registry_has C2);
  same_list :
    same_slot (fun f1 f2 => forall r1 r2, same_registry r1 r2 ->
                 answers same_registry (f1 r1) (f2 r2))
      (registry_list C1) (registry_list C2);
  same_merge :
    same_slot (fun f1 f2 => forall r1 r2 other1 other2,
                 same_registry r1 r2 -> same_registry other1 other2 ->
                 answers same_registry (f1 r1 other1) (f2 r2 other2))
      (registry_merge C1) (registry_merge C2);
  same_call :
    same_slot (fun f1 f2 => forall r1 r2 name args, same_registry r1 r2 ->
                 answers same_registry (f1 r1 name args) (f2 r2 name args))
      (registry_call C1) (registry_call C2)
}.

Record same_ConfigClass (C1 C2 : ConfigClass) : Prop := {
  same_config_name : config_class_name C1 = config_class_name C2;
  same_config_get : same_slot (alike eq) (config_get C1) (config_get C2);
  same_getTransportMode :
    same_slot (alike eq) (config_getTransportMode C1) (config_getTransportMode C2);
  same_logConfiguration :
    same_slot (alike eq) (config_logConfiguration C1) (config_logConfiguration C2)
}.

Record same_ManagerClass (C1 : ManagerClass M1) (C2 : ManagerClass M2) : Prop := {
  same_manager_name : manager_class_name C1 = manager_class_name C2;
  same_manager_new : alike same_manager (manager_new C1) (manager_new C2);
  same_initialize :
    same_slot (fun f1 f2 => forall m1 m2, same_manager m1 m2 ->
                 answers same_manager (f1 m1) (f2 m2))
      (manager_initialize C1) (manager_initialize C2);
  same_getAvailableProviders :
    same_slot (fun f1 f2 => forall m1 m2, same_manager m1 m2 ->
                 answers same_manager (f1 m1) (f2 m2))
      (manager_getAvailableProviders C1) (manager_getAvailableProviders C2);
  same_isProviderAvailable :
    same_slot (fun f1 f2 => forall m1 m2 provider, same_manager m1 m2 ->
                 answers same_manager (f1 m1 provider) (f2 m2 provider))
      (manager_isProviderAvailable C1) (manager_isProviderAvailable C2)
}.

(** The four imported names are bound alike in the two runs: each is
    missing in both, the same data in both, or a function or class whose
    every call ends alike. *)
Record unchanged (d1 : dependency R1 M1) (d2 : dependency R2 M2) : Prop := {
  unchanged_defineTool : same_binding same_defineTool (defineTool d1) (defineTool d2);
  unchanged_ToolRegistry :
    same_binding same_RegistryClass (ToolRegistry d1) (ToolRegistry d2);
  unchanged_EnvironmentConfig :
    same_binding same_ConfigClass (EnvironmentConfig d1) (EnvironmentConfig d2);
  unchanged_LLMManager : same_binding same_ManagerClass (LLMManager d1) (LLMManager d2)
}.

(** The loader finds the same at the second run: each specifier resolves
    in both runs, to modules whose exports are bound alike, or in
    neither. *)
Record unchanged_packages (p1 : packages R1 M1) (p2 : packages R2 M2) : Prop := {
  unchanged_zod : alike (fun _ _ => True) (zod_module p1) (zod_module p2);
  unchanged_tools :
    alike (fun m1 m2 => same_binding same_defineTool (fst m1) (fst m2) /\
                        same_binding same_RegistryClass (snd m1) (snd m2))
      (tools_module p1) (tools_module p2);
  unchanged_config :
    alike (same_binding same_ConfigClass) (config_module p1) (config_module p2);
  unchanged_tools_llm :
    alike (same_binding same_ManagerClass) (tools_llm_module p1) (tools_llm_module p2)
}.

(** Two instances stand for each other: so do their classes and their
    states. *)
Definition same_registry_instance (x : RegistryClass R1 * R1)
    (y : RegistryClass R2 * R2) : Prop :=
  same_RegistryClass (fst x) (fst y) /\ same_registry (snd x) (snd y).

Definition same_manager_instance (x : ManagerClass M1 * M1)
    (y : ManagerClass M2 * M2) : Prop :=
  same_ManagerClass (fst x) (fst y) /\ same_manager (snd x) (snd y).

End Relation.

(** Two runs of a test body end alike: both finish, with the same
    mismatches recorded and results that stand for each other, or both are
    cut short by a throw. *)
Definition similar {A1 A2 : Type} (same : A1 -> A2 -> Prop)
    (r1 : Vitest.run A1) (r2 : Vitest.run A2) : Prop :=
  match r1, r2 with
  | Vitest.Finished a1 l1, Vitest.Finished a2 l2 => same a1 a2 /\ l1 = l2
  | Vitest.Aborted _ _, Vitest.Aborted _ _ => True
  | _, _ => False
  end.

End Unchanged.

(* ===================================================================== *)
(** ** What the suite expects of the packages *)
(* ===================================================================== *)

Module Conformance.
Import Js Value Dependency Vitest.

(** A tool definition as the sources write them: a string name, a schema
    and a handler. *)
Definition well_formed (t : tool) : Prop :=
  (exists n, tool_name t = VString n) /\
  (exists z, tool_inputSchema t = Held z) /\
  (exists h, tool_handler t = Held h).

Definition named (n : string) (t : tool) : bool :=
  object_is (tool_name t) (VString n).

Definition registered (n : string) (tools : list tool) : bool :=
  existsb (named n) tools.

Definition descriptor_shaped (item : value) : Prop :=
  has_property item "name" = true /\
  has_property item "description" = true /\
  has_property item "inputSchema" = true.

(** [defineTool] hands the definition back: same name and description, a
    schema, and a handler that behaves as the one given. *)
Definition conforming_defineTool (f : tool -> completion object) : Prop :=
  forall t z h,
    tool_inputSchema t = Held z -> tool_handler t = Held h ->
    exists t' h',
      f t = Return (Tool t') /\
      tool_name t' = tool_name t /\
      tool_description t' = tool_description t /\
      tool_inputSchema t' = Held z /\
      tool_handler t' = Held h' /\
      (forall arg, h' arg = h arg).

(** A registry behaves as a list of tools kept in order of registration;
    [tools_of] reads that list off the state of an instance. *)
Record conforming_registry {R : Type} (C : RegistryClass R)
    (tools_of : R -> list tool) : Prop := {
  conforms_name : registry_class_name C = VString "ToolRegistry";
  conforms_new : exists r, registry_new C = Return r /\ tools_of r = [];
  conforms_add : exists f, registry_add C = Held f /\
    forall r t n, tool_name t = VString n -> registered n (tools_of r) = false ->
      exists r' v, f r (Tool t) = Return (r', v) /\ tools_of r' = (tools_of r ++ [t])%list;
  conforms_has : exists f, registry_has C = Held f /\
    forall r n, exists r',
      f r (VString n) = Return (r', VBool (registered n (tools_of r))) /\
      tools_of r' = tools_of r;
  conforms_get : exists f, registry_get C = Held f /\
    forall r n, registered n (tools_of r) = true ->
      exists r' o, f r (VString n) = Return (r', o) /\
        object_defined o = true /\ object_name_optional o = VString n /\
        tools_of r' = tools_of r;
  conforms_list : exists f, registry_list C = Held f /\
    forall r, exists r' items,
      f r = Return (r', VArray items) /\
      length items = length (tools_of r) /\
      Forall descriptor_shaped items /\
      tools_of r' = tools_of r;
  conforms_merge : exists f, registry_merge C = Held f /\
    forall r other,
      (forall n, registered n (tools_of r) && registered n (tools_of other) = false) ->
      exists r' v, f r other = Return (r', v) /\
        tools_of r' = (tools_of r ++ tools_of other)%list;
  conforms_call : exists f, registry_call C = Held f /\
    forall r n t z h args parsed,
      find (named n) (tools_of r) = Some t ->
      tool_inputSchema t = Held z -> tool_handler t = Held h ->
      parse z args = Some parsed ->
      exists r', f r (VString n) args = Return (r', promise (h parsed)) /\
        tools_of r' = tools_of r
}.

(** The part of an installation that the registry tests touch. *)
Definition conforming {R M : Type} (d : dependency R M) : Prop :=
  (exists f, defineTool d = Exported f /\ conforming_defineTool f) /\
  (exists C tools_of, ToolRegistry d = Exported C /\ conforming_registry C tools_of).

End Conformance.

(* ===================================================================== *)
(** ** Stand-ins for the packages, used to run the suites *)
(* ===================================================================== *)

Module Sample.
Import Js Value Dependency Conformance.

(** A registry that keeps its tools in a list. *)
Definition descriptor (t : tool) : value :=
  VObject [ ("name", tool_name t);
            ("description", tool_description t);
            ("inputSchema", VObject [ ("type", VString "object") ]) ].

Definition sample_add (r : list tool) (o : object) : completion (list tool * value) :=
  match o with
  | Tool t =>
      match tool_name t with
      | VString n =>
          if registered n r
          then Throw (ErrorObject "Error" ("Tool '" +:+ n +:+ "' is already registered"))
          else Return ((r ++ [t])%list, VUndefined)
      | _ => Throw (ErrorObject "Error" "Tool name must be a string")
      end
  | Data _ => Throw (ErrorObject "Error" "Invalid tool definition")
  end.

Definition sample_get (r : list tool) (name : value) : completion (list tool * object) :=
  match name with
  | VString n =>
      match find (named n) r with
      | Some t => Return (r, Tool t)
      | None => Return (r, Data VUndefined)
      end
  | _ => Return (r, Data VUndefined)
  end.

Definition sample_has (r : list tool) (name : value) : completion (list tool * value) :=
  match name with
  | VString n => Return (r, VBool (registered n r))
  | _ => Return (r, VBool false)
  end.

Definition sample_list (r : list tool) : completion (list tool * value) :=
  Return (r, VArray (map descriptor r)).

Definition sample_merge (r other : list tool) : completion (list tool * value) :=
  Return ((r ++ other)%list, VUndefined).

Definition sample_call (r : list tool) (name args : value)
  : completion (list tool * value) :=
  match name with
  | VString n =>
      match find (named n) r with
      | Some t =>
          match tool_inputSchema t, tool_handler t with
          | Held z, Held h =>
              match parse z args with
              | Some parsed => Return (r, promise (h parsed))
              | None => Return (r, VRejected (ErrorObject "Error" "Invalid tool input"))
              end
          | _, _ => Return (r, VRejected (ErrorObject "Error" "Invalid tool definition"))
          end
      | None => Return (r, VRejected (ErrorObject "Error" ("Tool not found: " +:+ n)))
      end
  | _ => Return (r, VRejected (ErrorObject "Error" "Tool not found"))
  end.

Definition sample_registry : RegistryClass (list tool) :=
  {| registry_class_name := VString "ToolRegistry";
     registry_new := Return [];
     registry_add := Held sample_add;
     registry_get := Held sample_get;
     registry_has := Held sample_has;
     registry_list := Held sample_list;
     registry_merge := Held sample_merge;
     registry_call := Held sample_call |}.

Definition sample_config (env : process_env) : ConfigClass :=
  {| config_class_name := VString "EnvironmentConfig";
     config_get :=
       Held (Return (VObject [ ("NODE_ENV",
                                VString (or_else (env !! "NODE_ENV") "development")) ]));
     config_getTransportMode :=
       Held (Return (VString (if truthy (env !! "MCP_MODE") then "streamable_http"
                              else "stdio")));
     config_logConfiguration := Held (Return VUndefined) |}.

(** A manager whose state is the list of providers it could start. *)
Definition configured (env : process_env) : list string :=
  ((if truthy (env !! "ANTHROPIC_API_KEY") then ["anthropic"] else []) ++
   (if truthy (env !! "OPENAI_API_KEY") then ["openai"] else []) ++
   (if truthy (env !! "GOOGLE_API_KEY") then ["gemini"] else []))%list.

Definition sample_manager (env : process_env) : ManagerClass (list string) :=
  {| manager_class_name := VString "LLMManager";
     manager_new := Return [];
     manager_initialize := Held (fun m =>
       match configured env with
       | [] => Return (m, VRejected (ErrorObject "Error"
                            "No LLM clients could be initialized"))
       | providers => Return (providers, VResolved VUndefined)
       end);
     manager_getAvailableProviders := Held (fun m => Return (m, VArray (map VString m)));
     manager_isProviderAvailable := Held (fun m provider =>
       Return (m, VBool (existsb (fun p => object_is (VString p) provider) m))) |}.

(** An installation that has everything. *)
Definition installed (env : process_env) : dependency (list tool) (list string) :=
  {| defineTool := Exported (fun t => Return (Tool t));
     ToolRegistry := Exported sample_registry;
     EnvironmentConfig := Exported (sample_config env);
     LLMManager := Exported (sample_manager env) |}.

(** The same, with a registry whose [list()] gives bare names. *)
Definition names_only (r : list tool) : completion (list tool * value) :=
  Return (r, VArray (map (fun t => VObject [ ("name", tool_name t) ]) r)).

Definition installed_bare_list (env : process_env)
  : dependency (list tool) (list string) :=
  {| defineTool := Exported (fun t => Return (Tool t));
     ToolRegistry := Exported
       {| registry_class_name := VString "ToolRegistry";
          registry_new := Return [];
          registry_add := Held sample_add;
          registry_get := Held sample_get;
          registry_has := Held sample_has;
          registry_list := Held names_only;
          registry_merge := Held sample_merge;
          registry_call := Held sample_call |};
     EnvironmentConfig := Exported (sample_config env);
     LLMManager := Exported (sample_manager env) |}.

(** The same installation after the tools package has been removed from
    [node_modules]: its specifier does not resolve. *)
Definition tools_missing (env : process_env) : packages (list tool) (list string) :=
  {| zod_module := Return tt;
     tools_module :=
       Throw (ErrorObject "Error"
                "Failed to resolve import '@mcp-typescript-simple/tools'");
     config_module := Return (Exported (sample_config env));
     tools_llm_module := Return (Exported (sample_manager env));
     declarations := None |}.

(** An installation whose configuration cannot be read, and says so with
    the time of the attempt. *)
Definition unreadable_config (now : Z) : ConfigClass :=
  {| config_class_name := VString "EnvironmentConfig";
     config_get :=
       Held (Throw (ErrorObject "Error"
                      ("[" +:+ pretty now +:+ "] configuration is not readable")));
     config_getTransportMode := Held (Return (VString "stdio"));
     config_logConfiguration := Held (Return VUndefined) |}.

Definition installed_unreadable (now : Z) (env : process_env)
  : dependency (list tool) (list string) :=
  {| defineTool := Exported (fun t => Return (Tool t));
     ToolRegistry := Exported sample_registry;
     EnvironmentConfig := Exported (unreadable_config now);
     LLMManager := Exported (sample_manager env) |}.

End Sample.

(* ===================================================================== *)
(** ** src/tools/index.ts : the canary tool registry *)
(* ===================================================================== *)

Module Tools.
Import Js Value Dependency.

Definition as_optional_string (v : value) : option string :=
  match v with
  | VString s => Some s
  | _ => None
  end.

Definition result_value (r : Timestamp.CallToolResult) : value :=
  VObject
    (("content",
      VArray (map (fun c => VObject [ ("type", VString (Timestamp.type c));
                                      ("text", VString (Timestamp.text c)) ])
                (Timestamp.content r)))
     :: match Timestamp.isError r with
        | Some b => [ ("isError", VBool b) ]
        | None => []
        end).

(** The handler of the tool, on the argument object it destructures.  Its
    parameters are typed [string | undefined]. *)
Definition timestamp_handler (P : Timestamp.Platform) (arg : value)
  : completion value :=
  timezone ← Stability.destructure arg "timezone";
  format ← Stability.destructure arg "format";
  result_value <$>
    Timestamp.handler P (as_optional_string timezone) (as_optional_string format).

(** The object literal given to [defineTool] in current-timestamp.ts. *)
Definition timestamp_definition (P : Timestamp.Platform) : tool :=
  {| tool_name := VString "current-timestamp";
     tool_description :=
       VString "Get current timestamp with optional timezone and format specification";
     tool_inputSchema :=
       Held (ZObject [ ("timezone", ZOptional ZString);
                       ("format", ZDefault (ZEnum ["unix"; "iso"; "human"]) "unix") ]);
     tool_handler := Held (timestamp_handler P) |}.

Section Canary.
Context {R M : Type}.
Variable d : dependency R M.

(** [export const currentTimestampTool = defineTool({ ... })], evaluated
    once when the module is loaded. *)
Definition currentTimestampTool (P : Timestamp.Platform) : completion object :=
  call_defineTool d (timestamp_definition P).

(** The registry objects that exist, by reference. *)
Definition heap : Type := gmap positive (@registry R).

(** [createCanaryTools()], given the module constant: the reference of the
    registry it returns and the heap afterwards. *)
Definition createCanaryTools (currentTimestampTool : object) (h : heap)
  : completion (positive * heap) :=
  registry ← new_ToolRegistry d;
  let this := fresh (dom h) in
  let h := <[this := registry]> h in
  '(registry, _) ← add registry currentTimestampTool;
  mret (this, <[this := registry]> h).

(** A caller's [registry.add(t)] on a registry it holds. *)
Definition add_to (this : positive) (t : object) (h : heap) : completion heap :=
  match h !! this with
  | Some registry =>
      '(registry, _) ← add registry t;
      mret (<[this := registry]> h)
  | None => Throw (cannot_read "undefined" "add")
  end.

End Canary.
End Tools.

(* ===================================================================== *)
(** ** test/system/utils.ts : kinds of environment, CORS, the HTTP client *)
(* ===================================================================== *)

Module Kinds.
Import Js TestEnv.

Definition isLocalEnvironment (environment : TestEnvironment) : bool :=
  String.eqb (name environment) "express" ||
  String.eqb (name environment) "express:ci" ||
  String.eqb (name environment) "stdio" ||
  String.eqb (name environment) "vercel:local" ||
  String.eqb (name environment) "docker".

Definition isProductionEnvironment (environment : TestEnvironment) : bool :=
  String.eqb (name environment) "vercel:production".

(** [environment.name.startsWith('vercel:')] *)
Definition isVercelEnvironment (environment : TestEnvironment) : bool :=
  String.prefix "vercel:" (name environment).

Definition isSTDIOEnvironment (environment : TestEnvironment) : bool :=
  String.eqb (name environment) "stdio".

Definition isHTTPEnvironment (environment : TestEnvironment) : bool :=
  negb (isSTDIOEnvironment environment).

(** The part of a parsed [URL] that the code reads. *)
Record URL : Type := {
  protocol : string;
  port : string
}.

(** [url.port || (url.protocol === 'https:' ? '443' : '80')] *)
Definition serverPort (url : URL) : string :=
  if String.eqb (port url) "" then
    (if String.eqb (protocol url) "https:" then "443" else "80")
  else port url.

(** [expectsCorsHeaders(environment)].  [new_URL] is the platform's URL
    parser, which throws on a string that is no URL; [env] is [process.env]
    at the time of the call. *)
Definition expectsCorsHeaders (new_URL : string -> completion URL)
    (env : process_env) (environment : TestEnvironment) : completion bool :=
  url ← new_URL (baseUrl environment);
  let serverPort := serverPort url in
  if String.eqb (name environment) "express:ci" then
    let testPort := or_else (env !! "HTTP_TEST_PORT") "3001" in
    mret (String.eqb serverPort testPort)
  else if String.eqb (name environment) "vercel:preview" ||
          String.eqb (name environment) "vercel:production" then
    mret true
  else if String.eqb (name environment) "express" ||
          String.eqb (name environment) "vercel:local" then
    mret false
  else if String.eqb (name environment) "docker" then
    mret false
  else mret false.

(** [environment.name] and [environment.baseUrl] on what
    [getCurrentEnvironment] really returned.  An inherited member is a
    function with a [name] of its own ([__proto__] is the prototype object
    and has none) and no [baseUrl]. *)
Definition returned_name (r : returned) : option string :=
  match r with
  | Environment e => Some (name e)
  | PrototypeMember key =>
      if String.eqb key "__proto__" then None
      else if String.eqb key "constructor" then Some "Object"
      else Some key
  | BaseUrlOnly _ => None
  end.

Definition returned_baseUrl (r : returned) : option string :=
  match r with
  | Environment e => Some (baseUrl e)
  | PrototypeMember _ => None
  | BaseUrlOnly url => Some url
  end.

(** A template literal prints [undefined] for a missing string. *)
Definition shown (s : option string) : string := default "undefined" s.

(** [String.prototype.toUpperCase] on the letters a-z (the method names of
    HTTP have no others). *)
Definition upper_ascii (c : Ascii.ascii) : Ascii.ascii :=
  let n := Ascii.nat_of_ascii c in
  if (97 <=? n)%nat && (n <=? 122)%nat then Ascii.ascii_of_nat (n - 32) else c.

Fixpoint toUpperCase (s : string) : string :=
  match s with
  | EmptyString => EmptyString
  | String c rest => String (upper_ascii c) (toUpperCase rest)
  end.

(** The glyph that the response interceptor prints. *)
Definition status_glyph (status : Z) : string :=
  if (200 <=? status)%Z && (status <? 300)%Z then "✅"
  else if (400 <=? status)%Z then "❌"
  else "⚠️".

(** What [axios.create] was given, and the lines the two interceptors
    print: for a request from [config.method], [config.baseURL] and
    [config.url], for a response from its status and the method and URL of
    its request. *)
Record AxiosInstance : Type := {
  baseURL : option string;
  timeout : Z;
  headers : list (string * string);
  validateStatus : Z -> bool;
  request_line : option string -> option string -> option string -> string;
  response_line : Z -> option string -> option string -> string
}.

(** [createHttpClient()] *)
Definition createHttpClient (table : list (string * TestEnvironment))
    (env : process_env) : completion AxiosInstance :=
  environment ← getCurrentEnvironment table env;
  let headers := [ ("Content-Type", "application/json") ] in
  let headers :=
    if bool_decide (returned_name environment = Some "express:ci")
    then (headers ++ [ ("Origin", "http://localhost:3020") ])%list
    else headers in
  mret {| baseURL := returned_baseUrl environment;
          timeout := 10000;
          headers := headers;
          validateStatus := fun _ => true;
          request_line := fun method baseURL url =>
            "🔄 " +:+ shown (toUpperCase <$> method) +:+ " "
              +:+ shown baseURL +:+ shown url;
          response_line := fun status method url =>
            status_glyph status +:+ " " +:+ pretty status +:+ " "
              +:+ shown (toUpperCase <$> method) +:+ " " +:+ shown url |}.

(** The decimal digits of a port as the platform's parser gives them back:
    without leading zeros. *)
Fixpoint strip_zeros (digits : string) : string :=
  match digits with
  | String c (String _ _ as more) =>
      if Ascii.eqb c (Ascii.ascii_of_nat 48) then strip_zeros more else digits
  | _ => digits
  end.

Definition is_digit (c : Ascii.ascii) : bool :=
  let n := Ascii.nat_of_ascii c in (48 <=? n)%nat && (n <=? 57)%nat.

Fixpoint all_digits (s : string) : bool :=
  match s with
  | EmptyString => true
  | String c rest => is_digit c && all_digits rest
  end.

(** A small URL parser, for running the functions above: scheme, then
    [://], then the authority up to the first [/], whose port follows its
    [:].  As the platform's parser does, it refuses a port that is not a
    number, gives a port back without leading zeros, and leaves the
    default port of the scheme out. *)
Definition sample_new_URL (input : string) : completion URL :=
  match String.index 0 "://" input with
  | None => Throw (ErrorObject "TypeError" "Invalid URL")
  | Some i =>
      let scheme := String.substring 0 i input in
      let rest := String.substring (i + 3) (String.length input - (i + 3)) input in
      let authority :=
        match String.index 0 "/" rest with
        | Some j => String.substring 0 j rest
        | None => rest
        end in
      let port :=
        match String.index 0 ":" authority with
        | Some k => String.substring (k + 1) (String.length authority - (k + 1)) authority
        | None => ""
        end in
      if all_digits port then
        let port := strip_zeros port in
        let port :=
          if (String.eqb scheme "http" && String.eqb port "80") ||
             (String.eqb scheme "https" && String.eqb port "443")
          then "" else port in
        Return {| protocol := scheme +:+ ":"; port := port |}
      else Throw (ErrorObject "TypeError" "Invalid URL")
  end.

End Kinds.

(* ===================================================================== *)
(** ** Effects of the system-test helpers: requests, pauses, console lines *)
(* ===================================================================== *)

Module Effects.
Import Js Value.

(** An HTTP response, as far as the helpers look at it; header names are
    in lower case. *)
Record Response : Type := {
  status : Z;
  headers : gmap string string;
  data : value
}.

Inductive event : Type :=
| Console (stream line : string)           (* console.log / warn / error *)
| Warning (line : string) (error : thrown) (* console.warn(line, error) *)
| Logged (line : string) (values : list value)  (* console.log(line, ...values) *)
| LoggedError (line : string) (error : thrown)  (* console.log(line, error) *)
| Logger (level message : string) (meta : list (string * value))
                                           (* logger.info / warn (message, meta) *)
| LoggerError (message : string) (error : thrown) (* logger.error(message, error) *)
| Request (method url : string)
| Sleep (ms : Z)
| Signal (pid : Z) (signal : string)       (* process.kill(pid, signal) *)
| Spawn (command : string) (args : list string).

(** A computation that leaves events behind: it is given the events so
    far and returns them extended. *)
Definition io (A : Type) : Type := list event -> completion A * list event.

#[global] Instance io_ret : MRet io := fun A a t => (Return a, t).
#[global] Instance io_bind : MBind io := fun A B k m t =>
  match m t with
  | (Return a, t') => k a t'
  | (Throw e, t') => (Throw e, t')
  end.

Definition emit (e : event) : io unit := fun t => (Return tt, (t ++ [e])%list).

Definition lift {A : Type} (c : completion A) : io A := fun t => (c, t).

(** [try { body } catch (error) { ... }], with the outcome in hand. *)
Definition caught {A : Type} (body : io A) : io (completion A) := fun t =>
  let '(c, t') := body t in (Return c, t').

Definition is_request (e : event) : bool :=
  match e with Request _ _ => true | _ => false end.

Definition is_sleep (e : event) : bool :=
  match e with Sleep _ => true | _ => false end.

Definition is_signal (e : event) : bool :=
  match e with Signal _ _ => true | _ => false end.

Definition is_spawn (e : event) : bool :=
  match e with Spawn _ _ => true | _ => false end.

Definition requests (t : list event) : list event := List.filter is_request t.
Definition spawns (t : list event) : list event := List.filter is_spawn t.
Definition sleeps (t : list event) : list event := List.filter is_sleep t.
Definition signals (t : list event) : list event := List.filter is_signal t.

(** The server behind the client: what it answers to the request
    [method url] when [n] requests were made before; a [Throw] is a network
    error. *)
Definition server : Type := nat -> string -> string -> completion Response.

(** [await client.get(url)], [client.options(url)], ...  The lines that
    the interceptors of the client print are the client's, they are not
    kept in the trace. *)
Definition send (s : server) (method url : string) : io Response := fun t =>
  (s (length (requests t)) method url, (t ++ [Request method url])%list).

Definition log (line : string) : io unit := emit (Console "log" line).

(** [await new Promise(resolve => setTimeout(resolve, ms))] *)
Definition sleep (ms : Z) : io unit := emit (Sleep ms).

End Effects.

(* ===================================================================== *)
(** ** Polling the health endpoint: [waitForServer] (test/system/utils.ts)
       and [waitForServerReady] (test/system/vitest-global-setup.ts) *)
(* ===================================================================== *)

Module Polling.
Import Js TestEnv Kinds Effects.

(** Whether the request number [n] for [url] is answered with status 200,
    and whether it fails without an answer. *)
Definition ready (s : server) (url : string) (n : nat) : bool :=
  match s n "GET" url with
  | Return response => (status response =? 200)%Z
  | Throw _ => false
  end.

Definition threw (s : server) (url : string) (n : nat) : bool :=
  match s n "GET" url with
  | Return _ => false
  | Throw _ => true
  end.

(** How many of the [count] requests from number [from] on fail without an
    answer. *)
Fixpoint thrown (s : server) (url : string) (from count : nat) : nat :=
  match count with
  | O => O
  | S rest => ((if threw s url from then 1 else 0) + thrown s url (S from) rest)%nat
  end.

(** A server for running the loops: it refuses the first [refused]
    connections, answers 503 to the next [starting] requests and 200 from
    then on. *)
Definition sample_server (refused starting : nat) : server := fun n _ _ =>
  if (n <? refused)%nat then Throw (ErrorObject "Error" "connect ECONNREFUSED")
  else if (n <? refused + starting)%nat
       then Return {| status := 503; headers := ∅; data := Value.VUndefined |}
       else Return {| status := 200; headers := ∅; data := Value.VUndefined |}.

Section WaitForServer.
Variable client : server.
Variable baseUrl_shown : string.      (* `${environment.baseUrl}` *)
Variables maxAttempts delayMs : Z.

(** The body of the [for] loop of [waitForServer], from [attempt] on;
    [remaining] counts the iterations still allowed,
    [maxAttempts - attempt + 1]. *)
Fixpoint attempts (remaining : nat) (attempt : Z) : io bool :=
  match remaining with
  | O =>
      log ("❌ Server not ready after " +:+ pretty maxAttempts +:+ " attempts");;
      mret false
  | S rest =>
      outcome ← caught (send client "GET" "/health");
      ready ← match outcome with
              | Return response =>
                  if (status response =? 200)%Z
                  then log ("✅ Server is ready at " +:+ baseUrl_shown);; mret true
                  else mret false
              | Throw _ =>
                  log ("⏳ Attempt " +:+ pretty attempt +:+ "/" +:+ pretty maxAttempts
                         +:+ " failed, retrying in " +:+ pretty delayMs +:+ "ms...");;
                  mret false
              end;
      if ready : bool then mret true
      else
        (if (attempt <? maxAttempts)%Z then sleep delayMs else mret tt);;
        attempts rest (attempt + 1)%Z
  end.

End WaitForServer.

(** [waitForServer(client, maxAttempts = 10, delayMs = 1000)] *)
Definition waitForServer (table : list (string * TestEnvironment))
    (env : process_env) (client : server) (maxAttempts delayMs : Z) : io bool :=
  environment ← lift (getCurrentEnvironment table env);
  let shown_url := shown (returned_baseUrl environment) in
  log ("⏳ Waiting for server at " +:+ shown_url +:+ "...");;
  attempts client shown_url maxAttempts delayMs (Z.to_nat maxAttempts) 1.

(** How JavaScript prints [n / 1000] for an integer [n]. *)
Definition thousandths (n : Z) : string :=
  let q := (Z.abs n / 1000)%Z in
  let r := (Z.abs n mod 1000)%Z in
  let sign := if (n <? 0)%Z then "-" else "" in
  let fraction :=
    if (r =? 0)%Z then ""
    else if (r mod 100 =? 0)%Z then "." +:+ pretty (r / 100)%Z
    else if (r mod 10 =? 0)%Z then
      "." +:+ (if (r <? 100)%Z then "0" else "") +:+ pretty (r / 10)%Z
    else "." +:+ (if (r <? 10)%Z then "00" else if (r <? 100)%Z then "0" else "")
           +:+ pretty r in
  sign +:+ pretty q +:+ fraction.

Section WaitForServerReady.
Variable network : server.
Variable baseUrl : string.
Variables maxAttempts delayMs : Z.

(** The [for] loop of [waitForServerReady]: the pause sits in the [catch]. *)
Fixpoint ready_attempts (remaining : nat) (attempt : Z) : io bool :=
  match remaining with
  | O =>
      emit (Console "error"
              ("❌ Server not ready after " +:+ pretty maxAttempts +:+ " attempts ("
                 +:+ thousandths (maxAttempts * delayMs) +:+ "s)"));;
      mret false
  | S rest =>
      outcome ← caught (send network "GET" (baseUrl +:+ "/health"));
      ready ← match outcome with
              | Return response =>
                  if (status response =? 200)%Z
                  then log ("✅ Server is ready at " +:+ baseUrl);; mret true
                  else mret false
              | Throw _ =>
                  (if (attempt <? maxAttempts)%Z then sleep delayMs else mret tt);;
                  mret false
              end;
      if ready : bool then mret true
      else ready_attempts rest (attempt + 1)%Z
  end.

(** [waitForServerReady(baseUrl, maxAttempts = 30, delayMs = 1000)] *)
Definition waitForServerReady : io bool :=
  log ("⏳ Waiting for server at " +:+ baseUrl +:+ "/health...");;
  ready_attempts (Z.to_nat maxAttempts) 1.

End WaitForServerReady.

End Polling.

(* ===================================================================== *)
(** ** test/system/utils.ts : the assertion helpers, and [sendMCPRequest]
       of the MCP protocol system tests *)
(* ===================================================================== *)

Module Expect.
Import Js Value Vitest Effects.

(** [expect(...)] as the system tests use it: it throws at a mismatch. *)
Definition expect {A : Type} (m : test A) : completion A :=
  match m Throwing with
  | Finished a _ => Return a
  | Aborted _ e => Throw e
  end.

(** [expect(actual).toMatch(/application\/json/)]: the pattern matches the
    strings that contain [application/json]. *)
Definition toMatch_json (actual : value) : test unit :=
  match actual with
  | VString s =>
      assert (includes "application/json" s)
        ("expected " +:+ inspect actual +:+ " to match /application\/json/")
  | _ =>
      js (Throw (ErrorObject "TypeError"
            (".toMatch() expects to receive a string, but got " +:+ typeof actual)))
  end.

(** [expect(actual).not.toBe(expected)] *)
Definition not_toBe (actual expected : value) : test unit :=
  assert (negb (object_is actual expected))
    ("expected " +:+ inspect actual +:+ " not to be " +:+ inspect expected
       +:+ " // Object.is equality").

(** [expect(actual).toBeGreaterThan(bound)] on a number; [None] is [NaN]. *)
Definition toBeGreaterThan (actual : option Z) (bound : Z) : test unit :=
  match actual with
  | Some n =>
      assert (bound <? n)%Z
        ("expected " +:+ pretty n +:+ " to be greater than " +:+ pretty bound)
  | None =>
      assert false ("expected NaN to be greater than " +:+ pretty bound)
  end.

(** [response.headers[key]] *)
Definition header (response : Response) (key : string) : value :=
  match headers response !! key with
  | Some s => VString s
  | None => VUndefined
  end.

(** [expectValidApiResponse(response, expectedStatus = 200)] *)
Definition expectValidApiResponse (response : Response) (expectedStatus : Z)
  : completion unit :=
  expect (toBe (VNumber (status response)) (VNumber expectedStatus));;
  expect (toMatch_json (header response "content-type"));;
  expect (toBeDefined (negb (is_undefined (data response)))).

(** [validateHealthResponse(response)].  [getTime v] is
    [new Date(v).getTime()], [None] for an invalid date. *)
Definition validateHealthResponse (getTime : value -> option Z) (response : Response)
  : completion value :=
  expect (toBe (VNumber (status response)) (VNumber 200));;
  expect (toMatch_json (header response "content-type"));;
  let health := data response in
  health_status ← get health "status";
  expect (toBe health_status (VString "healthy"));;
  timestamp ← get health "timestamp";
  expect (toBeDefined (negb (is_undefined timestamp)));;
  expect (toBeGreaterThan (getTime timestamp) 0);;
  mret health.

(** [expectErrorResponse(response, expectedStatus)] *)
Definition expectErrorResponse (response : Response) (expectedStatus : Z) : io unit :=
  lift (expect (toBe (VNumber (status response)) (VNumber expectedStatus)));;
  let contentType := or_else (headers response !! "content-type") "" in
  if includes "application/json" contentType then
    error ← lift (get (data response) "error");
    lift (expect (toBeDefined (negb (is_undefined error))))
  else
    log ("ℹ️  Expected non-JSON error: " +:+ contentType
           +:+ " (Express returns HTML for unmatched routes)").

(** [testEndpointExists(client, path)] *)
Definition testEndpointExists (client : server) (path : string) : io Response :=
  response ← send client "GET" path;
  lift (expect (not_toBe (VNumber (status response)) (VNumber 404)));;
  mret response.

(** [message?.includes(needle)] for whatever [message] holds: a string or
    an array has the method, [undefined] and [null] stop the chain, and on
    anything else the call is a [TypeError]. *)
Definition optional_includes (message : value) (needle : string) : completion bool :=
  match message with
  | VUndefined | VNull => Return false
  | VString s => Return (includes needle s)
  | VArray items => Return (existsb (fun x => object_is x (VString needle)) items)
  | _ => Throw (not_a_function "response.data?.error?.message?.includes")
  end.

(** [sendMCPRequest(request)]; [method] is [request.method].  The trace
    keeps the method and the URL of a request, not its body.  The result is
    [response.data], or [VNull] for the [null] of the early return. *)
Definition sendMCPRequest (client : server) (method : string) : io value :=
  response ← send client "POST" "/mcp";
  uninitialized ←
    (if (status response =? 400)%Z
     then lift (optional_includes
                  (get_optional (get_optional (data response) "error") "message")
                  "Server not initialized")
     else mret false);
  if uninitialized : bool then
    log ("⚠️ Skipping '" +:+ method +:+ "' - Streamable HTTP transport session limitation");;
    log "ℹ️  EXPECTED: HTTP transport can't persist sessions between requests (unlike STDIO mode)";;
    mret VNull
  else
    lift (expectValidApiResponse response 200);;
    mret (data response).

(** Answers for running the helpers: the refusal of a session-less
    request, and a health answer. *)
Definition uninitialized_answer : Response :=
  {| status := 400;
     headers := {[ "content-type" := "application/json; charset=utf-8" ]};
     data := VObject [ ("jsonrpc", VString "2.0");
                       ("error", VObject [ ("code", VNumber (-32000));
                                           ("message",
                                            VString "Bad Request: Server not initialized") ]);
                       ("id", VNull) ] |}.

(** A refusal that says nothing of sessions. *)
Definition bare_refusal : Response :=
  {| status := 400;
     headers := {[ "content-type" := "text/plain" ]};
     data := VString "Bad Request" |}.

Definition healthy_answer : Response :=
  {| status := 200;
     headers := {[ "content-type" := "application/json; charset=utf-8" ]};
     data := VObject [ ("status", VString "healthy");
                       ("timestamp", VString "2023-11-14T22:13:20.123Z");
                       ("auth", VString "enabled");
                       ("oauth_provider", VString "github");
                       ("llm_providers", VArray [ VString "claude" ]) ] |}.

Definition not_found_answer : Response :=
  {| status := 404;
     headers := {[ "content-type" := "text/html; charset=utf-8" ]};
     data := VString "<!DOCTYPE html><pre>Cannot GET /nowhere</pre>" |}.

(** A clock for running [validateHealthResponse]: it reads the one time
    stamp above. *)
Definition sample_getTime (v : value) : option Z :=
  match v with
  | VString "2023-11-14T22:13:20.123Z" => Some 1700000000123%Z
  | VNumber n => Some n
  | _ => None
  end.

End Expect.

(* ===================================================================== *)
(** ** test/system/utils.ts : what the server offers *)
(* ===================================================================== *)

Module Discovery.
Import Js Value Effects.

(** Truthiness of a value ([NaN] is not among the numbers here). *)
Definition value_truthy (v : value) : bool :=
  match v with
  | VUndefined | VNull => false
  | VBool b => b
  | VNumber n => negb (n =? 0)%Z
  | VString s => negb (String.eqb s "")
  | _ => true
  end.

(** [ServerCapabilities]; at run time [oauthProvider], [endpoints] and
    [llmProviders] hold whatever the health answer held. *)
Record ServerCapabilities : Type := {
  hasAuth : bool;
  hasLLM : bool;
  oauthProvider : value;
  endpoints : value;
  llmProviders : value
}.

(** [endpoints[key] = path] on a [Record<string, string>]. *)
Fixpoint assign (endpoints : list (string * string)) (key path : string)
  : list (string * string) :=
  match endpoints with
  | [] => [ (key, path) ]
  | (k, p) :: rest =>
      if String.eqb k key then (k, path) :: rest else (k, p) :: assign rest key path
  end.

Definition record (endpoints : list (string * string)) : value :=
  VObject (map (fun kp => (fst kp, VString (snd kp))) endpoints).

(** [tryGet(client, path)] and [tryOptions(client, path)]; [None] is [null]. *)
Definition try_request (client : server) (method path : string) : io (option Response) :=
  outcome ← caught (send client method path);
  mret (match outcome with
        | Return response => Some response
        | Throw _ => None
        end).

Definition tryGet (client : server) (path : string) : io (option Response) :=
  try_request client "GET" path.

Definition tryOptions (client : server) (path : string) : io (option Response) :=
  try_request client "OPTIONS" path.

(** [response && response.status < 400] *)
Definition found (response : option Response) : bool :=
  match response with
  | Some r => (status r <? 400)%Z
  | None => false
  end.

(** Whether the request number [n] gets an answer with a status below 400. *)
Definition reachable (client : server) (n : nat) (method path : string) : bool :=
  match client n method path with
  | Return response => (status response <? 400)%Z
  | Throw _ => false
  end.

(** The loop over [authCandidates], which stops at the first that is found. *)
Fixpoint auth_candidates (client : server) (candidates : list string)
    (endpoints : list (string * string)) : io (list (string * string)) :=
  match candidates with
  | [] => mret endpoints
  | candidate :: rest =>
      response ← tryGet client candidate;
      if found response then mret (assign endpoints "auth" candidate)
      else auth_candidates client rest endpoints
  end.

(** [discoverEndpoints(client)] *)
Definition discoverEndpoints (client : server) : io (list (string * string)) :=
  let endpoints := assign [] "health" "/health" in
  let endpoints := assign endpoints "mcp" "/mcp" in
  auth_candidates client [ "/auth"; "/api/auth" ] endpoints.

(** The loop over the candidates of [discoverOAuthEndpoints]. *)
Fixpoint oauth_candidates (client : server) (candidates : list (string * string))
    (endpoints : list (string * string)) : io (list (string * string)) :=
  match candidates with
  | [] => mret endpoints
  | (key, path) :: rest =>
      response ← tryOptions client path;
      oauth_candidates client rest
        (if found response then assign endpoints key path else endpoints)
  end.

Definition oauth_paths (oauthProvider baseAuthPath : string) : list (string * string) :=
  let basePath := baseAuthPath +:+ "/" +:+ oauthProvider in
  [ ("oauth_login", basePath);
    ("oauth_logout", basePath +:+ "/logout");
    ("oauth_callback", basePath +:+ "/callback");
    ("oauth_refresh", basePath +:+ "/refresh") ].

(** [discoverOAuthEndpoints(client, oauthProvider, baseAuthPath)] *)
Definition discoverOAuthEndpoints (client : server) (oauthProvider baseAuthPath : string)
  : io (list (string * string)) :=
  if negb (truthy (Some oauthProvider)) || negb (truthy (Some baseAuthPath))
  then mret []
  else oauth_candidates client (oauth_paths oauthProvider baseAuthPath) [].

(** [Array.isArray(v) && v.length > 0] *)
Definition nonempty_array (v : value) : bool :=
  match v with
  | VArray items => (0 <? Z.of_nat (length items))%Z
  | _ => false
  end.

Definition no_capabilities : ServerCapabilities :=
  {| hasAuth := false; hasLLM := false; oauthProvider := VUndefined;
     endpoints := record []; llmProviders := VArray [] |}.

(** [capabilities.endpoints = found] *)
Definition set_endpoints (capabilities : ServerCapabilities) (found : value)
  : ServerCapabilities :=
  {| hasAuth := hasAuth capabilities;
     hasLLM := hasLLM capabilities;
     oauthProvider := oauthProvider capabilities;
     endpoints := found;
     llmProviders := llmProviders capabilities |}.

(** The [try] block of [detectServerCapabilities]. *)
Definition detect (client : server) : io ServerCapabilities :=
  health ← send client "GET" "/health";
  let healthData := data health in
  auth ← lift (get healthData "auth");
  llm_providers ← lift (get healthData "llm_providers");
  oauth_provider ← lift (get healthData "oauth_provider");
  let capabilities :=
    {| hasAuth := object_is auth (VString "enabled");
       hasLLM := nonempty_array llm_providers;
       oauthProvider := oauth_provider;
       endpoints := record [];
       llmProviders := if value_truthy llm_providers then llm_providers else VArray [] |} in
  listed ← lift (get healthData "endpoints");
  if value_truthy listed then
    mret (set_endpoints capabilities listed)
  else
    discovered ← discoverEndpoints client;
    mret (set_endpoints capabilities (record discovered)).

(** The capabilities that [detect] reads off a health answer with a body,
    before it fills in the endpoints. *)
Definition read (health : Response) : ServerCapabilities :=
  let member key := default VUndefined (lookup_property (data health) key) in
  {| hasAuth := object_is (member "auth") (VString "enabled");
     hasLLM := nonempty_array (member "llm_providers");
     oauthProvider := member "oauth_provider";
     endpoints := record [];
     llmProviders := if value_truthy (member "llm_providers")
                     then member "llm_providers" else VArray [] |}.

(** [detectServerCapabilities(client)] *)
Definition detectServerCapabilities (client : server) : io ServerCapabilities :=
  outcome ← caught (detect client);
  match outcome with
  | Return capabilities => mret capabilities
  | Throw error =>
      emit (Warning "⚠️  Failed to detect server capabilities:" error);;
      mret no_capabilities
  end.

(** A health answer with no body. *)
Definition empty_answer : Response :=
  {| status := 200; headers := ∅; data := VUndefined |}.

(** A server for running the discovery: it serves its health and the
    GitHub login under [/api/auth], and nothing else. *)
Definition sample_client : server := fun _ method path =>
  if String.eqb path "/health" then Return Expect.healthy_answer
  else if bool_decide (path ∈ [ "/api/auth"; "/api/auth/github";
                                "/api/auth/github/callback" ])
       then Return {| status := 204; headers := ∅; data := VString "" |}
       else Return Expect.not_found_answer.

End Discovery.

(* ===================================================================== *)
(** ** test/interface-stability.test.ts : what the blocks ask of a package *)
(* ===================================================================== *)

Module Contract.
Import Js Value Dependency Vitest Stability.

(** What [describe('EnvironmentConfig class')] asks: a class of that name
    whose [get()] returns something with a [NODE_ENV], whose
    [getTransportMode()] returns one of the two modes, and whose
    [logConfiguration()] returns. *)
Definition config_contract {R M : Type} (d : dependency R M) : Prop :=
  exists C config mode logged,
    EnvironmentConfig d = Exported C /\
    config_class_name C = VString "EnvironmentConfig" /\
    config_get C = Held (Return config) /\
    config <> VUndefined /\
    has_property config "NODE_ENV" = true /\
    config_getTransportMode C = Held (Return mode) /\
    (mode = VString "stdio" \/ mode = VString "streamable_http") /\
    config_logConfiguration C = Held (Return logged).

(** The four tests of the block, in source order. *)
Definition config_block {R M : Type} (d : dependency R M) : list (test unit) :=
  [ EnvironmentConfig_exported d; EnvironmentConfig_get d;
    EnvironmentConfig_getTransportMode d; EnvironmentConfig_logConfiguration d ].

(** The four tests of [describe('defineTool function')]. *)
Definition defineTool_block {R M : Type} (d : dependency R M) : list (test unit) :=
  [ defineTool_exported d; defineTool_zod_schema d;
    defineTool_optional_fields d; defineTool_enum_fields d ].

(** A test passes when its body, run as the suite runs it, ends normally. *)
Definition passes (body : test unit) : Prop := verdict (body Throwing) = pass.

End Contract.

(* ===================================================================== *)
(** ** test/type-compatibility.test.ts under the test runner: the
       type annotations are erased, the statements run *)
(* ===================================================================== *)

Module TypeCompatRuntime.
Import Js Value Dependency Vitest Stability.

(** [expect(...)] inside a handler: it throws into the promise. *)
Definition expect_in_handler (m : test unit) : completion unit := Expect.expect m.

(** The handlers written in the file. *)

(** [async ({ required, optional }) =>
      ({ content: [{ type: 'text', text: `${required}${optional ?? ''}` }] })] *)
Definition required_optional (arg : value) : completion value :=
  required ← destructure arg "required";
  optional ← destructure arg "optional";
  mret (text_content (to_string required
                        +:+ match optional with
                            | VUndefined | VNull => ""
                            | _ => to_string optional
                            end)).

(** [async ({ format }) => ({ content: [{ type: 'text', text: format }] })] *)
Definition text_format (arg : value) : completion value :=
  format ← destructure arg "format";
  mret (VObject [ ("content",
                   VArray [ VObject [ ("type", VString "text"); ("text", format) ] ]) ]).

Definition undefined_or (type : string) (v : value) : bool :=
  is_undefined v || String.eqb (typeof v) type.

(** The handler of 'should infer input type from Zod schema'. *)
Definition inferred (arg : value) : completion value :=
  message ← destructure arg "message";
  count ← destructure arg "count";
  expect_in_handler (toBe (VString (typeof message)) (VString "string"));;
  expect_in_handler (toBe (VBool (undefined_or "number" count)) (VBool true));;
  mret (VObject [ ("content", VArray []) ]).

(** The handler of 'should infer complex nested types'. *)
Definition complex (arg : value) : completion value :=
  data ← destructure arg "data";
  optional ← destructure arg "optional";
  nested ← get data "nested";
  array ← get data "array";
  expect_in_handler (toBe (VString (typeof nested)) (VString "string"));;
  expect_in_handler (toBe (VBool (isArray array)) (VBool true));;
  expect_in_handler (toBe (VBool (undefined_or "boolean" optional)) (VBool true));;
  mret (VObject [ ("content", VArray []) ]).

(** The handler of 'should prevent registering tools with wrong input
    types'; the statement under the directive is [const str = count]. *)
Definition type_safe (arg : value) : completion value :=
  count ← destructure arg "count";
  let num := count in
  let str := count in
  expect_in_handler (toBe (VString (typeof num)) (VString "number"));;
  expect_in_handler (toBeDefined (negb (is_undefined str)));;
  mret (VObject [ ("content", VArray []) ]).

(** The handler of 'should prevent missing required fields'. *)
Definition required_fields (arg : value) : completion value :=
  required ← destructure arg "required";
  expect_in_handler (toBe (VString (typeof required)) (VString "string"));;
  mret (VObject [ ("content", VArray []) ]).

Definition hello (_ : value) : completion value := Return (text_content "Hello").

Definition error_occurred (_ : value) : completion value :=
  Return (VObject [ ("content",
                     VArray [ VObject [ ("type", VString "text");
                                        ("text", VString "Error occurred") ] ]);
                    ("isError", VBool true) ]).

Definition first_second (_ : value) : completion value :=
  Return (VObject [ ("content",
                     VArray [ VObject [ ("type", VString "text"); ("text", VString "First") ];
                              VObject [ ("type", VString "text"); ("text", VString "Second") ] ]) ]).

(** [expect(actual).toHaveProperty(key, expected)] *)
Definition toHaveProperty_value (actual : value) (key : string) (expected : value)
  : test unit :=
  assert (match lookup_property actual key with
          | Some v => object_is v expected
          | None => false
          end)
    ("expected " +:+ inspect actual +:+ " to have property '" +:+ key
       +:+ "' with value " +:+ inspect expected).

(** [expect(actual).toHaveLength(n)] *)
Definition toHaveLength (actual : value) (n : Z) : test unit :=
  assert (object_is (default VUndefined (lookup_property actual "length")) (VNumber n))
    ("expected " +:+ inspect actual +:+ " to have a length of " +:+ pretty n).

(** [await tool.handler(arg)] *)
Definition call_handler (tool : object) (arg : value) : completion value :=
  handler ← object_handler tool;
  match handler with
  | Held h => await (promise (h arg))
  | Plain _ => Throw (not_a_function "tool.handler")
  end.

Section Suite.
Context {R M : Type}.
Variable d : dependency R M.

(** *** describe('ToolDefinition type') : an annotated literal *)

Definition annotated (t : tool) : test unit :=
  toBeDefined (object_defined (Tool t)).

Definition valid_tool : test unit :=
  annotated (literal "test-tool" "Test tool" (ZObject [ ("input", ZString) ]) text_input).

Definition optional_tool : test unit :=
  annotated (literal "optional-tool" "Tool with optional field"
               (ZObject [ ("required", ZString); ("optional", ZOptional ZString) ])
               required_optional).

Definition format_tool : test unit :=
  annotated (literal "format-tool" "Tool with enum field"
               (ZObject [ ("format", ZEnum ["unix"; "iso"; "human"]) ]) text_format).

(** *** describe('defineTool type inference') and
        describe('Type safety regressions') :
        [const tool = defineTool({ ... }); expect(tool).toBeDefined()] *)

Definition defined_tool (t : tool) : test unit :=
  tool ← js (call_defineTool d t);
  toBeDefined (object_defined tool).

Definition inferred_literal : tool :=
  literal "inferred" "Type inference test"
    (ZObject [ ("message", ZString); ("count", ZOptional ZNumber) ]) inferred.

Definition complex_literal : tool :=
  literal "complex" "Complex type inference"
    (ZObject [ ("data", ZObject [ ("nested", ZString); ("array", ZArray ZNumber) ]);
               ("optional", ZOptional ZBoolean) ]) complex.

Definition type_safe_literal : tool :=
  literal "type-safe" "Type safety check" (ZObject [ ("count", ZNumber) ]) type_safe.

Definition required_fields_literal : tool :=
  literal "required-fields" "Required field check"
    (ZObject [ ("required", ZString) ]) required_fields.

(** *** describe('LLM type compatibility') : annotated constants *)

Definition LLMProvider_exported : test unit :=
  let providers := VArray [ VString "anthropic"; VString "openai"; VString "gemini" ] in
  length ← js (get providers "length");
  toBe length (VNumber 3).

Definition LLMRequest_exported : test unit :=
  let request :=
    VObject [ ("provider", VString "anthropic");
              ("model", VString "claude-3-5-sonnet-20241022");
              ("messages", VArray [ VObject [ ("role", VString "user");
                                              ("content", VString "test") ] ]);
              ("options", VObject [ ("max_tokens", VNumber 100) ]) ] in
  provider ← js (get request "provider");
  toBe provider (VString "anthropic").

Definition LLMResponse_exported : test unit :=
  let response :=
    VObject [ ("text", VString "response text");
              ("usage", VObject [ ("input_tokens", VNumber 10);
                                  ("output_tokens", VNumber 20);
                                  ("total_tokens", VNumber 30) ]) ] in
  text ← js (get response "text");
  toBe text (VString "response text");;
  usage ← js (get response "usage");
  total_tokens ← js (get usage "total_tokens");
  toBe total_tokens (VNumber 30).

Definition AnyModel_exported : test unit :=
  toBe (VString (typeof (VString "claude-3-5-sonnet-20241022"))) (VString "string");;
  toBe (VString (typeof (VString "gpt-4o"))) (VString "string");;
  toBe (VString (typeof (VString "gemini-2.0-flash"))) (VString "string").

(** *** describe('CallToolResult type compatibility') : the handler runs *)

Definition text_content_type : test unit :=
  tool ← js (call_defineTool d (literal "text-tool" "Text content test" (ZObject []) hello));
  result ← js (call_handler tool (VObject []));
  content ← js (get result "content");
  first ← js (index content 0);
  toHaveProperty_value first "type" (VString "text");;
  content ← js (get result "content");
  first ← js (index content 0);
  toHaveProperty first "text".

Definition error_flag : test unit :=
  tool ← js (call_defineTool d
               (literal "error-tool" "Error handling test" (ZObject []) error_occurred));
  result ← js (call_handler tool (VObject []));
  isError ← js (get result "isError");
  toBe isError (VBool true).

Definition multiple_content : test unit :=
  tool ← js (call_defineTool d
               (literal "multi-content" "Multiple content items" (ZObject []) first_second));
  result ← js (call_handler tool (VObject []));
  content ← js (get result "content");
  toHaveLength content 2.

(** The tests whose bodies use nothing of the package once the
    annotations are erased.  They are run, as every test of the file, only
    when the file has loaded. *)
Definition erased_tests : list (test unit) :=
  [ valid_tool; optional_tool; format_tool;
    LLMProvider_exported; LLMRequest_exported; LLMResponse_exported;
    AnyModel_exported ].

(** The tests that call [defineTool] and look at nothing but whether it
    returned something. *)
Definition defined_tests : list (test unit) :=
  [ defined_tool inferred_literal; defined_tool complex_literal;
    defined_tool type_safe_literal; defined_tool required_fields_literal ].

(** The tests that run a handler. *)
Definition result_tests : list (test unit) :=
  [ text_content_type; error_flag; multiple_content ].

(** Every [it] of the file, in source order. *)
Definition runtime_tests : list (test unit) :=
  [ valid_tool; optional_tool; format_tool;
    defined_tool inferred_literal; defined_tool complex_literal;
    LLMProvider_exported; LLMRequest_exported; LLMResponse_exported;
    AnyModel_exported;
    text_content_type; error_flag; multiple_content;
    defined_tool type_safe_literal; defined_tool required_fields_literal ].

(** The tests with their titles, in source order. *)
Definition units : list (string * test unit) :=
  [ ("Type System Compatibility > ToolDefinition type > should accept valid tool definitions",
     valid_tool);
    ("Type System Compatibility > ToolDefinition type > should support optional input fields in type",
     optional_tool);
    ("Type System Compatibility > ToolDefinition type > should support enum input fields in type",
     format_tool);
    ("Type System Compatibility > defineTool type inference > should infer input type from Zod schema",
     defined_tool inferred_literal);
    ("Type System Compatibility > defineTool type inference > should infer complex nested types",
     defined_tool complex_literal);
    ("Type System Compatibility > LLM type compatibility > should export LLMProvider type",
     LLMProvider_exported);
    ("Type System Compatibility > LLM type compatibility > should export LLMRequest type with required fields",
     LLMRequest_exported);
    ("Type System Compatibility > LLM type compatibility > should export LLMResponse type with required fields",
     LLMResponse_exported);
    ("Type System Compatibility > LLM type compatibility > should export AnyModel type",
     AnyModel_exported);
    ("Type System Compatibility > CallToolResult type compatibility > should support text content type",
     text_content_type);
    ("Type System Compatibility > CallToolResult type compatibility > should support error flag in result",
     error_flag);
    ("Type System Compatibility > CallToolResult type compatibility > should support multiple content items",
     multiple_content);
    ("Type System Compatibility > Type safety regressions > should prevent registering tools with wrong input types",
     defined_tool type_safe_literal);
    ("Type System Compatibility > Type safety regressions > should prevent missing required fields",
     defined_tool required_fields_literal) ].

End Suite.

(** The imports at the top of the file (lines 1 to 7) that are left once
    the types are stripped: [zod], and [defineTool] from the tools package.
    The two [import type] lines go with the annotations, so the LLM package
    is not loaded and no declaration is read.  The names that the file does
    not import are not bound in it. *)
Definition imports {R M : Type} (p : packages R M) : completion (dependency R M) :=
  zod_module p;;
  tools ← tools_module p;
  mret {| defineTool := fst tools; ToolRegistry := NotExported;
          EnvironmentConfig := NotExported; LLMManager := NotExported |}.

(** One run of the file under the test runner, which is how the
    repository runs it ([npm test -- test/type-compatibility.test.ts]): the
    loader's error when an import does not resolve, else the result of
    every [it].  The file has no [it.skip] and no condition around an [it];
    the statement under [// @ts-expect-error] sits in a handler, and the
    directive is a comment. *)
Definition run_file {R M : Type} (p : packages R M) : completion (list ProbeResult) :=
  d ← imports p;
  mret (map (fun u => report (fst u) (snd u Throwing)) (units d)).

(** The unit whose handler holds the statement under the directive. *)
Definition directive_unit : string :=
  "Type System Compatibility > Type safety regressions > should prevent registering tools with wrong input types".




(** A [defineTool] that keeps the name and throws the rest away, and an
    installation that has it. *)
Definition name_only (t : tool) : completion object :=
  Return (Data (VObject [ ("name", tool_name t) ])).

Definition installed_name_only (env : process_env)
  : dependency (list tool) (list string) :=
  {| defineTool := Exported name_only;
     ToolRegistry := Exported Sample.sample_registry;
     EnvironmentConfig := Exported (Sample.sample_config env);
     LLMManager := Exported (Sample.sample_manager env) |}.

End TypeCompatRuntime.

(* ===================================================================== *)
(** ** The global teardown of the system tests *)
(* ===================================================================== *)

Module Teardown.
Import Js TestEnv Kinds Effects.

(** The processes of the machine, as far as [process.kill] shows them:
    [os n pid signal] is [None] when the signal is delivered and the
    message of the [Error] that [process.kill] throws otherwise (no such
    process, no permission); [n] counts the signals sent before. *)
Definition processes : Type := nat -> Z -> string -> option string.

(** [process.kill(pid, signal)] *)
Definition kill (os : processes) (pid : Z) (signal : string) : io unit := fun t =>
  (match os (length (signals t)) pid signal with
   | None => Return tt
   | Some message => Throw (ErrorObject "Error" message)
   end,
   (t ++ [Signal pid signal])%list).

(** [spawn(command, args, { stdio: 'ignore' })]; the child is not waited
    for. *)
Definition spawn (command : string) (args : list string) : io unit :=
  emit (Spawn command args).

(** [(error as Error).message] *)
Definition message (e : thrown) : string :=
  match e with
  | ErrorObject _ m => m
  | _ => "undefined"
  end.

(** [if (serverPid)] on [global.__HTTP_SERVER_PID__], a number when it is
    set. *)
Definition pid_truthy (serverPid : option Z) : bool :=
  match serverPid with
  | Some pid => negb (pid =? 0)%Z
  | None => false
  end.

(** The outer [try] block of the teardown. *)
Definition stop_server (os : processes) (serverPid : Z) : io unit :=
  kill os serverPid "SIGTERM";;
  sleep 2000;;
  _ ← caught (kill os serverPid "0";;
              log "⚠️  Vitest Global Teardown: Force killing HTTP server...";;
              kill os serverPid "SIGKILL");
  log "✅ Vitest Global Teardown: HTTP server stopped";;
  spawn "pkill" [ "-f"; "tsx src/index.ts" ].

(** [globalTeardown()].  [serverPid] is [global.__HTTP_SERVER_PID__] before
    the call, the result is what it holds afterwards. *)
Definition globalTeardown (table : list (string * TestEnvironment))
    (env : process_env) (os : processes) (serverPid : option Z) : io (option Z) :=
  environment ← lift (getCurrentEnvironment table env);
  if bool_decide (returned_name environment = Some "express:ci")
     && negb (bool_decide (returned_name environment = Some "stdio"))
  then
    (if pid_truthy serverPid then
       log ("🛑 Vitest Global Teardown: Stopping HTTP server (PID: "
              +:+ pretty (default 0%Z serverPid) +:+ ")...");;
       outcome ← caught (stop_server os (default 0%Z serverPid));
       match outcome with
       | Return _ => mret tt
       | Throw error =>
           emit (Console "error"
                   ("⚠️  Vitest Global Teardown: Error stopping server: "
                      +:+ message error));;
           spawn "pkill" [ "-f"; "tsx src/index.ts" ]
       end
     else
       log "📋 Vitest Global Teardown: No server PID found, skipping cleanup");;
    mret None
  else
    log ("📋 Vitest Global Teardown: Skipping server cleanup for environment: "
           +:+ shown (returned_name environment));;
    mret serverPid.

(** Machines for running the teardown: one where the server ends on
    [SIGTERM] (the probe then finds no process), one where it does not. *)
Definition obedient : processes := fun n _ _ =>
  match n with
  | O => None
  | _ => Some "kill ESRCH"
  end.

Definition stubborn : processes := fun _ _ _ => None.

End Teardown.

(* ===================================================================== *)
(** ** The MCP protocol system tests : the set-up of the suite *)
(* ===================================================================== *)

Module McpSuite.
Import Js Value TestEnv Kinds Effects Polling.

(** The [try] block of [beforeAll]: the session is initialised once. *)
Definition initialize_session (client : server) : io bool :=
  response ← send client "POST" "/mcp";
  if (status response =? 200)%Z then
    log "✅ MCP session initialized for test suite";;
    mret true
  else
    emit (Logged "❌ MCP session initialization failed:"
            [ VNumber (status response); data response ]);;
    mret false.

(** The callback of [beforeAll]; [environment] is the constant of the
    [describe] block.  The result is [_mcpInitialized]. *)
Definition beforeAll (table : list (string * TestEnvironment)) (env : process_env)
    (client : server) (environment : TestEnvironment) : io bool :=
  _ ← lift (createHttpClient table env);
  (if isLocalEnvironment environment
      && negb (String.eqb (name environment) "express:ci")
   then
     isReady ← waitForServer table env client 10 1000;
     if isReady : bool then mret tt
     else lift (Throw (ErrorObject "Error"
                         ("Server not ready at " +:+ baseUrl environment)))
   else mret tt);;
  outcome ← caught (initialize_session client);
  match outcome with
  | Return initialized => mret initialized
  | Throw error =>
      emit (LoggedError "❌ MCP session initialization error:" error);;
      mret false
  end.

(** Whether the request number [n], the one that initialises the session,
    is answered with status 200. *)
Definition initialized (client : server) (n : nat) : bool :=
  match client n "POST" "/mcp" with
  | Return response => (status response =? 200)%Z
  | Throw _ => false
  end.

End McpSuite.

(* ===================================================================== *)
(** ** api/index.ts : the serverless entry point *)
(* ===================================================================== *)

Module Serverless.
Import Js Value Dependency Effects.

Section Function.
Context {R M S T : Type}.

(** The packages that the entry point uses besides the tools package:
    the global logger provider, the MCP [Server] class ([S] is the state
    of an instance), the registry of basic tools, the factory of LLM
    tools, the set-up of the server and the transport ([T]). *)
Record Framework : Type := {
  loggerProvider_toString : completion string;
  initializeLoggerProvider : completion unit;
  new_Server : completion S;
  basicTools : @registry R;
  createLLMTools : @manager M -> completion (@registry R);
  setupMCPServerWithRegistry : S -> @registry R -> completion S;
  createFromEnvironment : completion T;
  transport_initialize : T -> S -> @registry R -> completion T
}.

Variable d : dependency R M.
Variable F : Framework.
Variable currentTimestampTool : object.   (* the constant of src/tools *)

(** What the module keeps between two requests: [serverInstance],
    [transportInstance] and [toolRegistry], set together. *)
Definition instance : Type := (S * T * @registry R)%type.

(** [tools.list().length] *)
Definition count (tools : @registry R) : completion value :=
  '(_, listed) ← list_tools tools;
  get listed "length".

(** [createCanaryTools()]: the registry behind the reference it returns. *)
Definition canaryTools : completion (@registry R) :=
  '(this, h) ← Tools.createCanaryTools d currentTimestampTool ∅;
  match (h : gmap positive (@registry R)) !! this with
  | Some tools => Return tools
  | None => Throw (cannot_read "undefined" "list")
  end.

(** The statements before the [try]: logger, manager, server, and the
    registry with the basic and the canary tools. *)
Definition prepare : io (@manager M * S * @registry R) :=
  provider ← lift (loggerProvider_toString F);
  (if String.eqb provider "NoopLoggerProvider"
   then lift (initializeLoggerProvider F) else mret tt);;
  llmManager ← lift (new_LLMManager d);
  server ← lift (new_Server F);
  tools ← lift (new_ToolRegistry d);
  '(tools, _) ← lift (merge tools (basicTools F));
  basic ← lift (count (basicTools F));
  emit (Logger "info" "Basic tools loaded" [ ("count", basic) ]);;
  canary ← lift canaryTools;
  '(tools, _) ← lift (merge tools canary);
  canary_count ← lift (count canary);
  emit (Logger "info" "Canary tools loaded" [ ("count", canary_count) ]);;
  mret (llmManager, server, tools).

(** The [try] block: how it ends, and the registry it leaves (a merge
    that was done stays done when a later statement throws). *)
Definition load_llm (llmManager : @manager M) (tools : @registry R)
  : completion value * @registry R :=
  match initialize llmManager with
  | Throw e => (Throw e, tools)
  | Return (llmManager, pending) =>
      match await pending with
      | Throw e => (Throw e, tools)
      | Return _ =>
          match createLLMTools F llmManager with
          | Throw e => (Throw e, tools)
          | Return llmTools =>
              match merge tools llmTools with
              | Throw e => (Throw e, tools)
              | Return (tools, _) => (count llmTools, tools)
              end
          end
      end
  end.

(** The statements after the [catch]. *)
Definition finish (server : S) (tools : @registry R) : io instance :=
  server ← lift (setupMCPServerWithRegistry F server tools);
  transportManager ← lift (createFromEnvironment F);
  transportManager ← lift (transport_initialize F transportManager server tools);
  emit (Logger "info" "Vercel serverless function initialized" []);;
  mret (server, transportManager, tools).

(** [initializeServer()].  [cache] is the state of the module before the
    call; the result comes with the state afterwards.  When the function
    throws the state is as it was. *)
Definition initializeServer (cache : option instance)
  : io (instance * option instance) :=
  match cache with
  | Some cached => mret (cached, cache)
  | None =>
      '(llmManager, server, tools) ← prepare;
      let '(outcome, tools) := load_llm llmManager tools in
      match outcome with
      | Return llm_count => emit (Logger "info" "LLM tools loaded" [ ("count", llm_count) ])
      | Throw error =>
          emit (Logger "warn" "LLM initialization failed - LLM tools will be unavailable"
                  [ ("error", VString (error_message error)) ])
      end;;
      made ← finish server tools;
      mret (made, Some made)
  end.

(** What [res.status(code).json(body)] sends. *)
Record Answer : Type := {
  code : Z;
  body : value
}.

(** [handler(req, res)]: [url] is [req.url], [now] is
    [new Date().toISOString()]. *)
Definition handler (url : option string) (now : string) (cache : option instance)
  : io (Answer * option instance) :=
  outcome ← caught (initializeServer cache);
  match outcome with
  | Return (_, cache) =>
      if bool_decide (url = Some "/health") || bool_decide (url = Some "/api/health")
      then mret ({| code := 200;
                    body := VObject [ ("status", VString "healthy");
                                      ("timestamp", VString now);
                                      ("deployment", VString "vercel");
                                      ("mode", VString "serverless") ] |}, cache)
      else mret ({| code := 200;
                    body := VObject
                      [ ("message", VString "MCP Server on Vercel");
                        ("note", VString "Vercel serverless deployment requires additional configuration");
                        ("endpoints", VObject [ ("health", VString "/api/health") ]) ] |},
                 cache)
  | Throw error =>
      emit (LoggerError "Vercel handler error" error);;
      mret ({| code := 500;
               body := VObject [ ("error", VString "Internal server error");
                                 ("message", VString (error_message error)) ] |}, cache)
  end.

End Function.

(** A framework for running the entry point: a server and a transport
    without state, no basic tools, and LLM tools that cannot be made. *)
Definition sample_framework : @Framework (list tool) (list string) unit unit :=
  {| loggerProvider_toString := Return "NoopLoggerProvider";
     initializeLoggerProvider := Return tt;
     new_Server := Return tt;
     basicTools := (Sample.sample_registry, []);
     createLLMTools := fun _ => Throw (ErrorObject "Error" "LLM tools are not available");
     setupMCPServerWithRegistry := fun _ _ => Return tt;
     createFromEnvironment := Return tt;
     transport_initialize := fun _ _ _ => Return tt |}.

End Serverless.

(* ===================================================================== *)
(** * Properties *)
(* ===================================================================== *)

(** ** Truthiness *)

Module JsFacts.
Import Js.

Lemma truthy_Some (s : string) : truthy (Some s) = true <-> s <> "".
Proof.
  unfold truthy. destruct (String.eqb_spec s ""); simpl; split; congruence.
Qed.

Lemma or_else_truthy (v : option string) (dflt s : string) :
  v = Some s -> s <> "" -> or_else v dflt = s.
Proof.
  intros -> Hs. unfold or_else.
  destruct (String.eqb_spec s ""); congruence.
Qed.

Lemma or_else_falsy (v : option string) (dflt : string) :
  truthy v = false -> or_else v dflt = dflt.
Proof.
  destruct v as [s|]; simpl; [|reflexivity].
  destruct (String.eqb s ""); simpl; congruence.
Qed.

End JsFacts.

(** ** getCurrentEnvironment *)

Module TestEnvFacts.
Import Js TestEnv.


(** The spread keeps [name] and [description]. *)
Lemma with_baseUrl_frame (e : TestEnvironment) (url : string) :
  name (with_baseUrl e url) = name e /\
  description (with_baseUrl e url) = description e /\
  baseUrl (with_baseUrl e url) = url.
Proof. repeat split. Qed.

(** Every own entry of the catalog is filed under its own name. *)
Lemma own_property_key (table : list (string * TestEnvironment))
    (key : string) (e : TestEnvironment) :
  Forall (fun kv => name (snd kv) = fst kv) table ->
  own_property table key = Some e -> name e = key.
Proof.
  induction 1 as [|[k e'] rest Hk _ IH]; cbn [own_property]; [discriminate|].
  destruct (String.eqb_spec k key) as [<-|_]; [|exact IH].
  intros [= <-]. exact Hk.
Qed.

Lemma own_property_name (env0 : process_env) (key : string) (e : TestEnvironment) :
  own_property (TEST_ENVIRONMENTS env0) key = Some e -> name e = key.
Proof.
  apply own_property_key. unfold TEST_ENVIRONMENTS.
  repeat constructor.
Qed.


(** C10, counterexample: with [TEST_ENV=express] and [TEST_BASE_URL] set to
    the empty string the entry comes back unmodified, its [baseUrl] is not
    the value of [TEST_BASE_URL]. *)
Lemma getCurrentEnvironment_empty_override :
  ~ environment_claim ∅ {[ "TEST_ENV" := "express"; "TEST_BASE_URL" := "" ]}.
Proof.
  intros [Hoverride _].
  specialize (Hoverride "express"
    {| name := "express"; baseUrl := "http://localhost:3020";
       description := "Express HTTP server (npm run dev:http)" |}
    eq_refl eq_refl).
  vm_compute in Hoverride. discriminate Hoverride.
Qed.

(** C10, amended: the name looked up is [TEST_ENV], or [vercel:local] when
    that is unset or empty.  For a defined environment a non-empty
    [TEST_BASE_URL] replaces [baseUrl] and nothing else; an unset or empty
    one leaves the entry as it is.  A name that is neither a defined
    environment nor a member inherited from [Object.prototype] makes the
    function throw. *)
Theorem getCurrentEnvironment_spec (env0 env : process_env) :
  let table := TEST_ENVIRONMENTS env0 in
  let envName := or_else (env !! "TEST_ENV") "vercel:local" in
  (forall e url,
      own_property table envName = Some e ->
      env !! "TEST_BASE_URL" = Some url -> url <> "" ->
      getCurrentEnvironment table env = Return (Environment (with_baseUrl e url)) /\
      name (with_baseUrl e url) = name e /\
      description (with_baseUrl e url) = description e /\
      baseUrl (with_baseUrl e url) = url) /\
  (forall e,
      own_property table envName = Some e ->
      env !! "TEST_BASE_URL" = None \/ env !! "TEST_BASE_URL" = Some "" ->
      getCurrentEnvironment table env = Return (Environment e)) /\
  (own_property table envName = None -> inherited envName = false ->
   getCurrentEnvironment table env = Throw (unknown_environment table envName)).
Proof.
  intros table envName. unfold getCurrentEnvironment, get_property.
  fold envName. split; [|split].
  - intros e url He Hurl Hne. rewrite He, Hurl. simpl.
    destruct (String.eqb_spec url ""); [congruence|].
    split; [reflexivity|apply with_baseUrl_frame].
  - intros e He [Hurl|Hurl]; rewrite He, Hurl; reflexivity.
  - intros Hnone Hinh. rewrite Hnone, Hinh. reflexivity.
Qed.

(** The theorem at work: [docker] on another port, [stdio] left alone, and
    an unknown name. *)
Lemma getCurrentEnvironment_spec_witness :
  getCurrentEnvironment (TEST_ENVIRONMENTS ∅)
    {[ "TEST_ENV" := "docker"; "TEST_BASE_URL" := "http://localhost:8080" ]}
  = Return (Environment {| name := "docker"; baseUrl := "http://localhost:8080";
                           description := "Docker container (docker run with exposed port)" |})
  /\ getCurrentEnvironment (TEST_ENVIRONMENTS ∅) {[ "TEST_ENV" := "stdio" ]}
     = Return (Environment {| name := "stdio"; baseUrl := "stdio://localhost";
                              description := "STDIO transport mode (npm run dev:stdio)" |})
  /\ exists e, getCurrentEnvironment (TEST_ENVIRONMENTS ∅) {[ "TEST_ENV" := "staging" ]}
               = Throw e.
Proof.
  split; [|split].
  - refine (proj1 (proj1 (getCurrentEnvironment_spec ∅
      {[ "TEST_ENV" := "docker"; "TEST_BASE_URL" := "http://localhost:8080" ]})
      {| name := "docker"; baseUrl := "http://localhost:3020";
         description := "Docker container (docker run with exposed port)" |}
      "http://localhost:8080" _ _ _)).
    + vm_compute. reflexivity.
    + vm_compute. reflexivity.
    + discriminate.
  - refine (proj1 (proj2 (getCurrentEnvironment_spec ∅ {[ "TEST_ENV" := "stdio" ]})) _ _ _).
    + vm_compute. reflexivity.
    + left. vm_compute. reflexivity.
  - eexists.
    refine (proj2 (proj2 (getCurrentEnvironment_spec ∅ {[ "TEST_ENV" := "staging" ]})) _ _).
    + vm_compute. reflexivity.
    + vm_compute. reflexivity.
Defined.

(** The missed case, for the record: a name inherited from
    [Object.prototype] is not reported as unknown. *)
Example getCurrentEnvironment_toString :
  getCurrentEnvironment (TEST_ENVIRONMENTS ∅) {[ "TEST_ENV" := "toString" ]}
  = Return (PrototypeMember "toString").
Proof. vm_compute. reflexivity. Qed.

End TestEnvFacts.

(** ** The [current-timestamp] handler *)

Module TimestampFacts.
Import Js Timestamp.

Lemma respond_content (P : Platform) (now : Z)
    (timezone format displayTimezone : option string) (r : CallToolResult) :
  respond P now timezone format displayTimezone = Return r ->
  exists s, content r = [ text_item s ] /\ isError r = None.
Proof.
  unfold respond. destruct (render P now timezone format) as [result|e]; simpl.
  - intros [= <-]. eexists. split; reflexivity.
  - discriminate.
Qed.

Lemma attempt_content (P : Platform) (timezone format : option string)
    (r : CallToolResult) :
  attempt P timezone format = Return r -> exists s, content r = [ text_item s ].
Proof.
  unfold attempt. destruct (truthy timezone).
  - destruct (DateTimeFormat P (default "" timezone)).
    + intros H. apply respond_content in H as (s & Hs & _). eauto.
    + intros [= <-]. eexists. reflexivity.
  - intros H. apply respond_content in H as (s & Hs & _). eauto.
Qed.

(** An empty time zone string is read as no time zone at all. *)
Lemma handler_empty_timezone (P : Platform) (format : option string) :
  handler P (Some "") format = handler P None format.
Proof.
  unfold handler, attempt, respond, render. simpl.
  destruct format as [f|]; reflexivity.
Qed.


(** C8, counterexample: the empty string is no time zone the platform
    knows, yet the handler answers with a plain timestamp and no [isError]. *)
Lemma handler_accepts_empty_timezone :
  ~ handler_claim sample_platform (Some "") (Some "unix").
Proof.
  intros (_ & Hinvalid & _).
  destruct (Hinvalid "" eq_refl eq_refl) as (r & rest & Hr & Herr & _).
  vm_compute in Hr. injection Hr as <-. discriminate Herr.
Qed.

(** C8, amended: the handler never throws and its result always has one
    content item.  A non-empty time zone that the platform does not know
    gives an [isError] result whose text is [Invalid timezone: ] followed
    by the zone; an empty time zone string is treated as no time zone; any
    error thrown inside comes back as an [isError] result carrying its
    message. *)
Theorem handler_never_throws (P : Platform) (timezone format : option string) :
  (exists r s, handler P timezone format = Return r /\ content r = [ text_item s ]) /\
  (forall tz, timezone = Some tz -> tz <> "" -> timeZone_supported P tz = false ->
     handler P timezone format = Return (invalid_timezone tz) /\
     isError (invalid_timezone tz) = Some true /\
     exists rest, texts (invalid_timezone tz) = [ "Invalid timezone: " +:+ tz +:+ rest ]) /\
  (timezone = Some "" -> handler P timezone format = handler P None format) /\
  (forall e, attempt P timezone format = Throw e ->
     handler P timezone format = Return (failure e) /\
     isError (failure e) = Some true /\
     texts (failure e) = [ "Error getting timestamp: " +:+ error_message e ]).
Proof.
  split; [|split; [|split]].
  - unfold handler, try_catch.
    destruct (attempt P timezone format) as [r|e] eqn:Hrun.
    + apply attempt_content in Hrun as [s Hs]. eauto.
    + exists (failure e). eexists. split; reflexivity.
  - intros tz -> Hne Hunknown. split; [|split].
    + unfold handler, attempt, DateTimeFormat.
      apply JsFacts.truthy_Some in Hne. rewrite Hne. simpl.
      rewrite Hunknown. reflexivity.
    + reflexivity.
    + eexists. reflexivity.
  - intros ->. apply handler_empty_timezone.
  - intros e Hthrow. split; [|split; reflexivity].
    unfold handler. rewrite Hthrow. reflexivity.
Qed.

(** The theorem at work on the sample platform. *)
Lemma handler_never_throws_witness :
  handler sample_platform (Some "Mars/Phobos") (Some "iso")
  = Return (invalid_timezone "Mars/Phobos")
  /\ handler sample_platform (Some "") (Some "unix")
     = handler sample_platform None (Some "unix").
Proof.
  split.
  - refine (proj1 (proj1 (proj2 (handler_never_throws sample_platform
              (Some "Mars/Phobos") (Some "iso"))) "Mars/Phobos" eq_refl _ _)).
    + discriminate.
    + vm_compute. reflexivity.
  - exact (proj1 (proj2 (proj2 (handler_never_throws sample_platform
              (Some "") (Some "unix")))) eq_refl).
Defined.

(** A platform whose ISO rendering throws: the error is reported, not
    propagated. *)
Example handler_reports_inner_error :
  handler {| getTime := 0;
             timeZone_supported := fun _ => true;
             format_iso_zone := fun _ _ => Throw (ErrorObject "RangeError" "Invalid time value");
             format_human_zone := fun _ _ => Return "";
             toISOString := fun _ => Throw (ErrorObject "RangeError" "Invalid time value");
             toString := fun _ => Return "" |} None (Some "iso")
  = Return {| content := [ text_item "Error getting timestamp: Invalid time value" ];
              isError := Some true |}.
Proof. reflexivity. Qed.

End TimestampFacts.

(** ** The interface stability suite *)

Module StabilityFacts.
Import Js Value Dependency Vitest Stability Conformance Sample.

(** *** The suite on the sample installation *)

Example sample_run_passes :
  map result_status (run_catalog (installed ∅)) = replicate 19 pass.
Proof. reflexivity. Qed.

(** With an API key the sample manager starts, and the [initialize()]
    entry, which expects a rejection, fails. *)
Example sample_run_with_key :
  result_failures (probe (installed {[ "OPENAI_API_KEY" := "sk-test" ]}) initialize_entry)
  = [ "promise resolved 'undefined' instead of rejecting" ].
Proof. reflexivity. Qed.

Example sample_run_without_defineTool :
  map result_status (run_catalog (without sym_defineTool (installed ∅)))
  = [ fail; fail; fail; fail;
      pass; fail; fail; pass; fail; fail; fail;
      pass; pass; pass; pass;
      pass; pass; pass; pass ].
Proof. reflexivity. Qed.

(** *** How a throwing run sits inside the collecting one *)

Lemma respects_ret {A : Type} (a : A) : respects_modes (mret a : test A).
Proof. split; reflexivity. Qed.

Lemma respects_js {A : Type} (c : completion A) : respects_modes (js c).
Proof.
  unfold respects_modes, js. destruct c; simpl.
  - split; reflexivity.
  - split; [reflexivity|]. exists []. reflexivity.
Qed.

Lemma respects_assert (ok : bool) (message : string) :
  respects_modes (assert ok message).
Proof.
  unfold respects_modes, assert. destruct ok; simpl.
  - split; reflexivity.
  - split; [reflexivity|]. exists []. reflexivity.
Qed.

Lemma respects_bind {A B : Type} (m : test A) (k : A -> test B) :
  respects_modes m -> (forall a, respects_modes (k a)) ->
  respects_modes (m ≫= k).
Proof.
  unfold respects_modes, mbind, test_bind. intros Hm Hk.
  destruct (m Throwing) as [a l|l e].
  - destruct Hm as [-> ->]. specialize (Hk a).
    destruct (k a Throwing) as [b l'|l' e'].
    + destruct Hk as [-> ->]. split; reflexivity.
    + destruct Hk as [-> [rest Hrest]]. split; [reflexivity|].
      exists rest. destruct (k a Collecting); simpl in *; exact Hrest.
  - destruct Hm as [-> [rest Hrest]]. split; [reflexivity|].
    destruct (m Collecting) as [a l|l e']; simpl in Hrest.
    + subst l. destruct (k a Collecting) as [b l'|l' e']; simpl; eauto.
    + exists rest. exact Hrest.
Qed.

Lemma respects_rejects_toThrow (actual : value) (expected : string) :
  respects_modes (rejects_toThrow actual expected).
Proof.
  destruct actual; simpl; first [apply respects_assert | apply respects_js].
Qed.

Ltac respects :=
  repeat first
    [ apply respects_ret
    | apply respects_js
    | apply respects_assert
    | apply respects_rejects_toThrow
    | apply respects_bind
    | match goal with
      | |- forall _ : _ * _, _ => intros [? ?]
      | |- forall _, _ => intro
      end ].

Ltac unfold_suite :=
  unfold defineTool_exported, defineTool_zod_schema, defineTool_optional_fields,
    defineTool_enum_fields, ToolRegistry_exported, ToolRegistry_add,
    ToolRegistry_get, ToolRegistry_has, ToolRegistry_list, ToolRegistry_merge,
    ToolRegistry_call, EnvironmentConfig_exported, EnvironmentConfig_get,
    EnvironmentConfig_getTransportMode, EnvironmentConfig_logConfiguration,
    LLMManager_exported, LLMManager_initialize, LLMManager_getAvailableProviders,
    LLMManager_isProviderAvailable, is_function, toBe, toBeDefined,
    toHaveProperty, toContain.

Lemma catalog_respects_modes {R M : Type} (d : dependency R M) :
  Forall (fun e => respects_modes (body e d)) catalog.
Proof.
  unfold catalog, registry_entries. cbn [app].
  repeat first [ apply List.Forall_nil | apply List.Forall_cons ]; cbn [body];
    unfold_suite; respects.
Qed.

Lemma verdict_pass_iff {A : Type} (r : run A) :
  verdict r = pass <-> failures r = [].
Proof.
  destruct r as [a [|f l]|l e]; simpl; split; try congruence.
  intros H. destruct l; discriminate H.
Qed.


Lemma report_pass_iff {A : Type} (entry : string) (r : run A) :
  result_status (report entry r) = pass <-> result_failures (report entry r) = [].
Proof.
  unfold report. cbn [result_status result_failures].
  rewrite verdict_pass_iff. split.
  - intros ->. reflexivity.
  - destruct (failures r); [reflexivity|discriminate].
Qed.

(** *** C5 *)


(** C5, counterexample: against a registry whose [list()] gives objects
    with a [name] only, the [list()] entry violates two assertions
    ([description] and [inputSchema]) and its result keeps one. *)
Lemma probe_drops_later_failures :
  ~ keeps_every_diagnostic (installed_bare_list ∅).
Proof.
  intros H.
  destruct (Forall_lookup_1 _ _ 8 _ H eq_refl) as [_ Hsame].
  vm_compute in Hsame. discriminate Hsame.
Qed.

(** C5, amended: an entry passes exactly when it produced no diagnostic;
    otherwise it fails, and its failures list holds one diagnostic only,
    that of the first violated assertion: [expect] throws, so the body
    stops there and the assertions after it are not evaluated. *)
Theorem probe_keeps_first_failure {R M : Type} (d : dependency R M) (e : entry R M) :
  e ∈ catalog ->
  (result_status (probe d e) = pass <-> result_failures (probe d e) = []) /\
  (result_status (probe d e) <> pass ->
     result_status (probe d e) = fail /\
     exists f, result_failures (probe d e) = [f]) /\
  result_failures (probe d e) = take 1 (result_failures (probe_collecting d e)).
Proof.
  intros Hin.
  pose proof (proj1 (Forall_forall _ _) (catalog_respects_modes d) e Hin) as Hmodes.
  split; [apply report_pass_iff|].
  unfold probe, probe_collecting, report, respects_modes in *.
  cbn [result_status result_failures].
  destruct (body e d Throwing) as [a l|l f].
  - destruct Hmodes as [-> ->]. simpl. split; [congruence|reflexivity].
  - destruct Hmodes as [-> [rest Hrest]]. rewrite Hrest. simpl.
    split; [|reflexivity]. intros _. split; [reflexivity|]. eauto.
Qed.

(** The theorem on the [list()] entry and the registry above. *)
Lemma probe_keeps_first_failure_witness :
  exists e : entry (list tool) (list string),
    catalog !! 8%nat = Some e /\
    result_failures (probe (installed_bare_list ∅) e)
    = take 1 [ "expected { name: 'tool1' } to have property 'description'";
               "expected { name: 'tool1' } to have property 'inputSchema'" ].
Proof.
  eexists. split; [reflexivity|].
  refine (proj2 (proj2 (probe_keeps_first_failure (installed_bare_list ∅) _ _))).
  apply list_elem_of_lookup. exists 8%nat. reflexivity.
Defined.

(** *** C2 *)


Ltac run_body :=
  cbn;
  unfold mbind, mret, fmap, test_bind, test_ret, completion_bind, completion_ret,
    completion_fmap, Js.bind, js, assert;
  cbn.

Ltac case_on_dependency :=
  repeat (run_body;
          match goal with
          | |- context [match ?x with _ => _ end] =>
              lazymatch x with
              | context [match _ with _ => _ end] => fail
              | _ => destruct x eqn:?
              end
          end);
  run_body; eauto.

(** With [s] gone, an entry that mentions [s] is cut short by a throw and
    any other entry runs as before. *)
Lemma removal_by_entry {R M : Type} (d : dependency R M) (s : symbol) :
  Forall (fun e =>
            if mentions e s
            then exists f, body e (without s d) Throwing = Aborted [] f
            else body e (without s d) Throwing = body e d Throwing)
         catalog.
Proof.
  unfold catalog, registry_entries. cbn [app].
  repeat first [ apply List.Forall_nil | apply List.Forall_cons ];
    destruct s; cbn [mentions symbols];
    (let b := fresh "b" in
     match goal with
     | |- if mentions ?e ?s then _ else _ =>
         let v := eval vm_compute in (mentions e s) in
         change (mentions e s) with v
     end);
    cbv iota; cbn [body];
    first [ reflexivity
          | destruct d as [dt tr ec lm]; unfold_suite;
            unfold new_ToolRegistry, new_LLMManager, call_defineTool, static;
            case_on_dependency ].
Qed.


(** C2, counterexample: without [ToolRegistry], the entry that checks the
    export fails with the matcher's own message, which does not speak of
    an export. *)
Lemma missing_export_diagnostic :
  ~ removal_claim (installed ∅) sym_ToolRegistry.
Proof.
  intros H.
  destruct (H _ (list_elem_of_lookup_2 catalog 4 _ eq_refl)) as [Hfail _].
  destruct Hfail as (_ & message & Hin & Hincl).
  { apply list_elem_of_here. }
  vm_compute in Hin. apply list_elem_of_singleton in Hin. subst message.
  vm_compute in Hincl. discriminate Hincl.
Qed.

(** With [s] gone, an entry that mentions [s] and passed with it is cut
    short where it first uses [s], by an error that says nothing of
    exports. *)
Lemma removal_text {R M : Type} (d : dependency R M) (s : symbol) :
  Forall (fun e =>
            mentions e s = true ->
            verdict (body e d Throwing) = pass ->
            exists f, body e (without s d) Throwing = Aborted [] f /\
                      includes "not exported" (error_message f) = false)
         catalog.
Proof.
  unfold catalog, registry_entries. cbn [app].
  repeat first [ apply List.Forall_nil | apply List.Forall_cons ];
    destruct s; cbn [mentions symbols];
    (match goal with
     | |- mentions ?e ?s = true -> _ =>
         let v := eval vm_compute in (mentions e s) in
         change (mentions e s) with v
     end);
    intros Hmentions; try discriminate Hmentions; clear Hmentions;
    cbn [body];
    destruct d as [dt tr ec lm]; unfold_suite;
    unfold new_ToolRegistry, new_LLMManager, call_defineTool, static;
    case_on_dependency;
    intros; try discriminate; eexists; (split; [reflexivity|vm_compute; reflexivity]).
Qed.

Lemma imports_without {R M : Type} (s : symbol) (p : packages R M) :
  imports (without_export s p) = without s <$> imports p.
Proof.
  unfold imports, without_export.
  destruct s; cbn [zod_module tools_module config_module tools_llm_module];
    destruct (zod_module p) as [[]|]; try reflexivity;
    destruct (tools_module p) as [[dt tr]|]; try reflexivity;
    destruct (config_module p) as [ec|]; try reflexivity;
    destruct (tools_llm_module p) as [lm|]; reflexivity.
Qed.

Lemma imports_unresolved {R M : Type} (p : packages R M) :
  (exists err, zod_module p = Throw err) \/
  (exists err, tools_module p = Throw err) \/
  (exists err, config_module p = Throw err) \/
  (exists err, tools_llm_module p = Throw err) ->
  exists err, imports p = Throw err.
Proof.
  unfold imports. intros H.
  destruct (zod_module p) as [[]|e0]; [|eauto].
  destruct (tools_module p) as [tools|e1]; [|eauto].
  destruct (config_module p) as [config|e2]; [|eauto].
  destruct (tools_llm_module p) as [llm|e3]; [|eauto].
  destruct H as [[err H]|[[err H]|[[err H]|[err H]]]]; discriminate H.
Qed.

(** C2, amended: when an export is deleted from packages that still
    resolve, all nineteen entries are reported; every entry whose body
    mentions the missing name fails, with one diagnostic, which for an
    entry that passed before the deletion says nothing of an export not
    being there (it is what the runner or the engine raises where the name
    is first used); and every entry that does not mention the name has the
    result it had.  When one of the imported packages does not resolve,
    the file fails as a whole and no entry is reported, the export deleted
    or not. *)
Theorem missing_symbol_is_isolated {R M : Type} (p : packages R M) (s : symbol) :
  ((exists err, zod_module p = Throw err) \/
   (exists err, tools_module p = Throw err) \/
   (exists err, config_module p = Throw err) \/
   (exists err, tools_llm_module p = Throw err) ->
   exists err, run_file p = Throw err /\ run_file (without_export s p) = Throw err) /\
  (forall d, imports p = Return d ->
     run_file p = Return (run_catalog d) /\
     run_file (without_export s p) = Return (run_catalog (without s d)) /\
     map result_entry (run_catalog (without s d)) = map path (@catalog R M) /\
     length (run_catalog (without s d)) = 19%nat /\
     forall (i : nat) (e : entry R M), catalog !! i = Some e ->
       exists after before,
         run_catalog (without s d) !! i = Some after /\
         run_catalog d !! i = Some before /\
         result_entry after = path e /\
         (s ∈ symbols e ->
            result_status after = fail /\
            exists message,
              result_failures after = [message] /\
              (result_status before = pass ->
               includes "not exported" message = false)) /\
         (s ∉ symbols e -> after = before)).
Proof.
  split.
  - intros Hmissing. destruct (imports_unresolved p Hmissing) as [err Herr].
    exists err. unfold run_file. rewrite imports_without, Herr. split; reflexivity.
  - intros d Hd. unfold run_file. rewrite imports_without, Hd.
    split; [reflexivity|]. split; [reflexivity|].
    split; [unfold run_catalog; rewrite map_map; reflexivity|].
    split; [unfold run_catalog; rewrite length_map; reflexivity|].
    intros i e Hi.
    assert (e ∈ catalog) as Hin by (apply list_elem_of_lookup; eauto).
    exists (probe (without s d) e), (probe d e).
    split; [unfold run_catalog; rewrite list_lookup_fmap, Hi; reflexivity|].
    split; [unfold run_catalog; rewrite list_lookup_fmap, Hi; reflexivity|].
    split; [reflexivity|].
    pose proof (proj1 (Forall_forall _ _) (removal_by_entry d s) e Hin) as He.
    pose proof (proj1 (Forall_forall _ _) (removal_text d s) e Hin) as Htext.
    unfold mentions in He, Htext. cbv beta in He, Htext.
    split.
    + intros Hs. rewrite bool_decide_eq_true_2 in He, Htext by exact Hs.
      destruct He as [f Hf]. unfold probe at 1 2, report. rewrite Hf.
      cbn [result_status result_failures verdict failures app map].
      split; [reflexivity|]. eexists. split; [reflexivity|].
      intros Hpass. destruct (Htext eq_refl Hpass) as (f' & Hf' & Hnone).
      rewrite Hf in Hf'. injection Hf' as <-. exact Hnone.
    + intros Hs. rewrite bool_decide_eq_false_2 in He by exact Hs.
      unfold probe. rewrite He. reflexivity.
Qed.

(** The theorem on the sample installation: with the tools package gone
    the file fails to load; with [defineTool] deleted from it, the [add()]
    entry fails and the [has()] entry is untouched. *)
Lemma missing_symbol_is_isolated_witness :
  (exists err, run_file (tools_missing ∅) = Throw err) /\
  (exists after,
     run_catalog (without sym_defineTool (installed ∅)) !! 5%nat = Some after /\
     result_status after = fail) /\
  (exists after,
     run_catalog (without sym_defineTool (installed ∅)) !! 7%nat = Some after /\
     run_catalog (installed ∅) !! 7%nat = Some after).
Proof.
  split; [|split].
  - destruct (proj1 (missing_symbol_is_isolated (tools_missing ∅) sym_defineTool))
      as (err & Hrun & _).
    + right. left. eexists. reflexivity.
    + exists err. exact Hrun.
  - destruct (proj2 (missing_symbol_is_isolated (packaged (installed ∅) None)
                       sym_defineTool) (installed ∅) eq_refl)
      as (_ & _ & _ & _ & Hentries).
    destruct (Hentries 5%nat _ eq_refl) as (after & before & Hafter & _ & _ & Hfails & _).
    exists after. split; [exact Hafter|]. apply Hfails.
    vm_compute. apply list_elem_of_further, list_elem_of_here.
  - destruct (proj2 (missing_symbol_is_isolated (packaged (installed ∅) None)
                       sym_defineTool) (installed ∅) eq_refl)
      as (_ & _ & _ & _ & Hentries).
    destruct (Hentries 7%nat _ eq_refl) as (after & before & Hafter & Hbefore & _ & _ & Hsame).
    exists after. split; [exact Hafter|]. rewrite Hbefore. f_equal. symmetry. apply Hsame.
    vm_compute. intros Hin. apply list_elem_of_singleton in Hin. discriminate Hin.
Defined.

(** *** C1 *)


(** C1, counterexample: with no API key the sample manager rejects with
    [No LLM clients could be initialized]; the probe passes, and that
    message does not contain [could not be initialized]. *)
Lemma initialize_message_differs :
  ~ initialize_claim (installed ∅).
Proof.
  intros [Hpass _].
  destruct (Hpass eq_refl) as (C & m & f & m' & e & message & HC & Hm & Hf & Hrun & Htext & Hincl).
  injection HC as <-. injection Hm as <-. injection Hf as <-.
  vm_compute in Hrun. injection Hrun as _ <-.
  injection Htext as <-. vm_compute in Hincl. discriminate Hincl.
Qed.

(** C1, amended: the probe of the [initialize()] entry passes exactly when
    [new LLMManager()] succeeds, [initialize] is a method, and the promise
    it returns rejects with a message containing
    [No LLM clients could be initialized]. *)
Theorem initialize_probe_passes_iff {R M : Type} (d : dependency R M) :
  result_status (probe d initialize_entry) = pass
  <-> rejects_with d "No LLM clients could be initialized".
Proof.
  unfold probe, report, initialize_entry, rejects_with.
  cbn [result_status body path]. unfold LLMManager_initialize.
  unfold new_LLMManager, initialize, invoke, is_function, toBe, rejects_toThrow,
    matches_message.
  split.
  - destruct (LLMManager d) as [C| |]; [|discriminate..].
    run_body.
    destruct (manager_new C) as [m|] eqn:Hm; [|discriminate]. run_body.
    destruct (manager_initialize C) as [f|v] eqn:Hf; run_body.
    2:{ destruct v; discriminate. }
    destruct (f m) as [[m' pending]|] eqn:Hrun; [|discriminate]. run_body.
    destruct pending; try discriminate. run_body.
    destruct (thrown_text e) as [message|] eqn:Htext; [|discriminate].
    destruct (includes _ message) eqn:Hincl; [|discriminate].
    intros _. exists C, m, f, m', e, message. repeat split; assumption.
  - intros (C & m & f & m' & e & message & -> & Hm & Hf & Hrun & Htext & Hincl).
    run_body. rewrite Hm. run_body. rewrite Hf. run_body. rewrite Hrun. run_body.
    rewrite Htext, Hincl. reflexivity.
Qed.

(** The theorem on the sample installation with no API key. *)
Lemma initialize_probe_passes_iff_witness :
  result_status (probe (installed ∅) initialize_entry) = pass.
Proof.
  apply (proj2 (initialize_probe_passes_iff (installed ∅))).
  unfold rejects_with. do 6 eexists.
  split; [reflexivity|]. split; [reflexivity|]. split; [reflexivity|].
  split; [reflexivity|]. split; reflexivity.
Defined.

(** *** C3 *)

(** Running a body in the mode of the suite, one statement at a time. *)
Lemma run_js_return {A B : Type} (a : A) (k : A -> test B) (md : mode) :
  (js (Return a) ≫= k) md = k a md.
Proof.
  unfold mbind, test_bind, js. destruct (k a md); reflexivity.
Qed.

Lemma run_assert_true {B : Type} (message : string) (k : unit -> test B) (md : mode) :
  (assert true message ≫= k) md = k tt md.
Proof.
  unfold mbind, test_bind, assert. destruct (k tt md); reflexivity.
Qed.

Section Conforming.
Context {R M : Type}.
Variable d : dependency R M.
Variable define : tool -> completion object.
Variable C : RegistryClass R.
Variable tools_of : R -> list tool.
Hypothesis Hdefine : defineTool d = Exported define.
Hypothesis Hconforms_define : conforming_defineTool define.
Hypothesis Hregistry : ToolRegistry d = Exported C.
Hypothesis Hconforms : conforming_registry C tools_of.

Lemma new_conforming :
  exists r, new_ToolRegistry d = Return (C, r) /\ tools_of r = [].
Proof.
  destruct (conforms_new _ _ Hconforms) as (r & Hr & Hempty).
  exists r. unfold new_ToolRegistry. rewrite Hregistry, Hr. split; [reflexivity|assumption].
Qed.

Lemma defineTool_conforming (n description : string) (z : zod)
    (h : value -> completion value) :
  exists t h',
    call_defineTool d (literal n description z h) = Return (Tool t) /\
    tool_name t = VString n /\
    tool_inputSchema t = Held z /\
    tool_handler t = Held h' /\
    (forall arg, h' arg = h arg).
Proof.
  destruct (Hconforms_define (literal n description z h) z h eq_refl eq_refl)
    as (t & h' & Hcall & Hname & _ & Hschema & Hhandler & Hsame).
  exists t, h'. unfold call_defineTool. rewrite Hdefine. auto.
Qed.

Lemma add_conforming (r : R) (t : tool) (n : string) :
  tool_name t = VString n -> registered n (tools_of r) = false ->
  exists r' v, add (C, r) (Tool t) = Return ((C, r'), v) /\
               tools_of r' = (tools_of r ++ [t])%list.
Proof.
  intros Hname Hfresh.
  destruct (conforms_add _ _ Hconforms) as (f & Hf & Hspec).
  destruct (Hspec r t n Hname Hfresh) as (r' & v & Hrun & Htools).
  exists r', v. unfold add, invoke. cbn [fst snd]. rewrite Hf, Hrun.
  split; [reflexivity|assumption].
Qed.

Lemma has_conforming (r : R) (n : string) :
  exists r', has (C, r) (VString n) = Return ((C, r'), VBool (registered n (tools_of r))) /\
             tools_of r' = tools_of r.
Proof.
  destruct (conforms_has _ _ Hconforms) as (f & Hf & Hspec).
  destruct (Hspec r n) as (r' & Hrun & Htools).
  exists r'. unfold has, invoke. cbn [fst snd]. rewrite Hf, Hrun.
  split; [reflexivity|assumption].
Qed.

Lemma get_conforming (r : R) (n : string) :
  registered n (tools_of r) = true ->
  exists r' o, get_tool (C, r) (VString n) = Return ((C, r'), o) /\
               object_defined o = true /\ object_name_optional o = VString n.
Proof.
  intros Hin.
  destruct (conforms_get _ _ Hconforms) as (f & Hf & Hspec).
  destruct (Hspec r n Hin) as (r' & o & Hrun & Hdef & Hname & _).
  exists r', o. unfold get_tool, invoke. cbn [fst snd]. rewrite Hf, Hrun. auto.
Qed.

Lemma list_conforming (r : R) :
  exists r' items, list_tools (C, r) = Return ((C, r'), VArray items) /\
                   length items = length (tools_of r) /\
                   Forall descriptor_shaped items.
Proof.
  destruct (conforms_list _ _ Hconforms) as (f & Hf & Hspec).
  destruct (Hspec r) as (r' & items & Hrun & Hlen & Hshape & _).
  exists r', items. unfold list_tools, invoke. cbn [fst snd]. rewrite Hf, Hrun. auto.
Qed.

Lemma merge_conforming (r other : R) :
  (forall n, registered n (tools_of r) && registered n (tools_of other) = false) ->
  exists r' v, merge (C, r) (C, other) = Return ((C, r'), v) /\
               tools_of r' = (tools_of r ++ tools_of other)%list.
Proof.
  intros Hdisjoint.
  destruct (conforms_merge _ _ Hconforms) as (f & Hf & Hspec).
  destruct (Hspec r other Hdisjoint) as (r' & v & Hrun & Htools).
  exists r', v. unfold merge, invoke. cbn [fst snd]. rewrite Hf, Hrun. auto.
Qed.

Lemma call_conforming (r : R) (n : string) (t : tool) (z : zod)
    (h : value -> completion value) (args parsed : value) :
  find (named n) (tools_of r) = Some t ->
  tool_inputSchema t = Held z -> tool_handler t = Held h ->
  parse z args = Some parsed ->
  exists r', call (C, r) (VString n) args = Return ((C, r'), promise (h parsed)).
Proof.
  intros Hfind Hz Hh Hparse.
  destruct (conforms_call _ _ Hconforms) as (f & Hf & Hspec).
  destruct (Hspec r n t z h args parsed Hfind Hz Hh Hparse) as (r' & Hrun & _).
  exists r'. unfold call, invoke. cbn [fst snd]. rewrite Hf, Hrun. reflexivity.
Qed.

Lemma method_is_function {F : Type} (p : slot F) (f : F) :
  p = Held f -> object_is (VString (typeof_method p)) (VString "function") = true.
Proof. intros ->. reflexivity. Qed.

Lemma registered_single (n : string) (t : tool) :
  tool_name t = VString n -> registered n [t] = true.
Proof.
  intros Hname. unfold registered, named. cbn [existsb]. rewrite Hname.
  cbn [object_is]. rewrite String.eqb_refl. reflexivity.
Qed.

Lemma registered_other (n n' : string) (t : tool) :
  tool_name t = VString n' -> n' <> n -> registered n [t] = false.
Proof.
  intros Hname Hne. unfold registered, named. cbn [existsb]. rewrite Hname.
  cbn [object_is]. destruct (String.eqb_spec n' n); [contradiction|reflexivity].
Qed.

Ltac next := first [ rewrite run_js_return | rewrite run_assert_true ].

Lemma ToolRegistry_exported_passes : ToolRegistry_exported d Throwing = Finished tt [].
Proof.
  unfold ToolRegistry_exported, is_function, toBe, binding_name.
  rewrite Hregistry, (conforms_name _ _ Hconforms). reflexivity.
Qed.

Lemma ToolRegistry_add_passes : ToolRegistry_add d Throwing = Finished tt [].
Proof.
  unfold ToolRegistry_add, is_function, toBe.
  destruct new_conforming as (r0 & -> & Hr0). next.
  destruct (defineTool_conforming "test" "Test" (ZObject [ ("input", ZString) ]) text_input)
    as (t & h' & -> & Hname & _). next.
  destruct (conforms_add _ _ Hconforms) as (f & Hf & _).
  cbn [fst]. rewrite (method_is_function _ _ Hf). next.
  destruct (add_conforming r0 t "test" Hname) as (r1 & v & -> & Hr1).
  { rewrite Hr0. reflexivity. }
  next.
  destruct (has_conforming r1 "test") as (r2 & -> & _). next.
  rewrite Hr1, Hr0. cbn [app]. rewrite (registered_single _ _ Hname). reflexivity.
Qed.

Lemma ToolRegistry_get_passes : ToolRegistry_get d Throwing = Finished tt [].
Proof.
  unfold ToolRegistry_get, toBe, toBeDefined.
  destruct new_conforming as (r0 & -> & Hr0). next.
  destruct (defineTool_conforming "lookup-test" "Lookup test" (ZObject []) empty_content)
    as (t & h' & -> & Hname & _). next.
  destruct (add_conforming r0 t "lookup-test" Hname) as (r1 & v & -> & Hr1).
  { rewrite Hr0. reflexivity. }
  next.
  destruct (get_conforming r1 "lookup-test") as (r2 & o & -> & Hdef & Honame).
  { rewrite Hr1, Hr0. apply registered_single, Hname. }
  next. rewrite Hdef. next. rewrite Honame. reflexivity.
Qed.

Lemma ToolRegistry_has_passes : ToolRegistry_has d Throwing = Finished tt [].
Proof.
  unfold ToolRegistry_has, is_function, toBe.
  destruct new_conforming as (r0 & -> & Hr0). next.
  destruct (conforms_has _ _ Hconforms) as (f & Hf & _).
  cbn [fst]. rewrite (method_is_function _ _ Hf). next.
  destruct (has_conforming r0 "nonexistent") as (r1 & -> & _). next.
  rewrite Hr0. reflexivity.
Qed.

Lemma ToolRegistry_list_passes : ToolRegistry_list d Throwing = Finished tt [].
Proof.
  unfold ToolRegistry_list, toBe, toHaveProperty.
  destruct new_conforming as (r0 & -> & Hr0). next.
  destruct (defineTool_conforming "tool1" "Tool 1" (ZObject []) empty_content)
    as (t1 & h1 & -> & Hname1 & _). next.
  destruct (defineTool_conforming "tool2" "Tool 2" (ZObject []) empty_content)
    as (t2 & h2 & -> & Hname2 & _). next.
  destruct (add_conforming r0 t1 "tool1" Hname1) as (r1 & v1 & -> & Hr1).
  { rewrite Hr0. reflexivity. }
  next.
  destruct (add_conforming r1 t2 "tool2" Hname2) as (r2 & v2 & -> & Hr2).
  { rewrite Hr1, Hr0. apply (registered_other _ _ _ Hname1). discriminate. }
  next.
  destruct (list_conforming r2) as (r3 & items & -> & Hlen & Hshape). next.
  rewrite Hr2, Hr1, Hr0 in Hlen. cbn in Hlen.
  destruct items as [|first [|second [|third rest]]]; try discriminate Hlen.
  apply Forall_cons in Hshape as [(Hn & Hd & Hs) _].
  cbn [isArray object_is Bool.eqb]. next.
  cbn [get lookup_property String.eqb Ascii.eqb Bool.eqb length default Z.of_nat
       Pos.of_succ_nat Pos.succ from_option id].
  next. change (object_is (VNumber 2) (VNumber 2)) with true. next.
  cbn [index lookup list_lookup default from_option id]. next.
  rewrite Hn. next. next. rewrite Hd. next. next. rewrite Hs. reflexivity.
Qed.

Lemma ToolRegistry_merge_passes : ToolRegistry_merge d Throwing = Finished tt [].
Proof.
  unfold ToolRegistry_merge, is_function, toBe.
  destruct new_conforming as (r0 & -> & Hr0). next. next.
  destruct (defineTool_conforming "tool1" "Tool 1" (ZObject []) empty_content)
    as (t1 & h1 & -> & Hname1 & _). next.
  destruct (add_conforming r0 t1 "tool1" Hname1) as (r1 & v1 & -> & Hr1).
  { rewrite Hr0. reflexivity. }
  next.
  destruct (defineTool_conforming "tool2" "Tool 2" (ZObject []) empty_content)
    as (t2 & h2 & -> & Hname2 & _). next.
  destruct (add_conforming r0 t2 "tool2" Hname2) as (r2 & v2 & -> & Hr2).
  { rewrite Hr0. reflexivity. }
  next.
  destruct (conforms_merge _ _ Hconforms) as (f & Hf & _).
  cbn [fst]. rewrite (method_is_function _ _ Hf). next.
  destruct (merge_conforming r1 r2) as (r3 & v3 & -> & Hr3).
  { intros n. rewrite Hr1, Hr2, Hr0. cbn [app].
    destruct (String.eqb_spec "tool1" n) as [<-|Hne].
    - rewrite (registered_other _ _ _ Hname2) by discriminate.
      apply andb_false_r.
    - rewrite (registered_other _ _ _ Hname1) by exact Hne. reflexivity. }
  next.
  rewrite Hr1, Hr2, Hr0 in Hr3. cbn [app] in Hr3.
  destruct (has_conforming r3 "tool1") as (r4 & -> & Hr4). next.
  rewrite Hr3. unfold registered at 1. cbn [existsb]. unfold named at 1.
  rewrite Hname1. cbn [object_is]. rewrite String.eqb_refl. cbn [orb]. next.
  destruct (has_conforming r4 "tool2") as (r5 & -> & _). next.
  rewrite Hr4, Hr3. unfold registered, named. cbn [existsb].
  rewrite Hname1, Hname2. reflexivity.
Qed.

Lemma ToolRegistry_call_passes : ToolRegistry_call d Throwing = Finished tt [].
Proof.
  unfold ToolRegistry_call, is_function, toBe, toHaveProperty.
  destruct new_conforming as (r0 & -> & Hr0). next.
  destruct (defineTool_conforming "invoke-test" "Invocation test"
              (ZObject [ ("message", ZString) ]) echo_message)
    as (t & h' & -> & Hname & Hschema & Hhandler & Hsame). next.
  destruct (add_conforming r0 t "invoke-test" Hname) as (r1 & v & -> & Hr1).
  { rewrite Hr0. reflexivity. }
  next.
  destruct (conforms_call _ _ Hconforms) as (f & Hf & _).
  cbn [fst]. rewrite (method_is_function _ _ Hf). next.
  destruct (call_conforming r1 "invoke-test" t (ZObject [ ("message", ZString) ]) h'
              (VObject [ ("message", VString "hello") ])
              (VObject [ ("message", VString "hello") ])) as (r2 & ->);
    [|exact Hschema|exact Hhandler|reflexivity|].
  { rewrite Hr1, Hr0. cbn [app find]. unfold named. rewrite Hname.
    cbn [object_is]. rewrite String.eqb_refl. reflexivity. }
  next. rewrite Hsame. reflexivity.
Qed.

End Conforming.

Lemma suite_of_passes (name : string) (tests : list ProbeResult) :
  Forall (fun r => result_status r = pass /\ result_failures r = []) tests ->
  suite name tests = {| result_entry := name; result_status := pass;
                        result_failures := [] |}.
Proof.
  intros Hall. unfold suite. f_equal.
  - induction Hall as [|r rest [Hr _] _ IH]; [reflexivity|].
    cbn [existsb]. unfold failed at 1. rewrite Hr.
    rewrite bool_decide_eq_false_2 by discriminate. exact IH.
  - induction Hall as [|r rest [_ Hr] _ IH]; [reflexivity|].
    cbn [map concat]. rewrite Hr. exact IH.
Qed.

(** An entry whose method is missing from the class cannot pass. *)
Lemma missing_method_fails {R M : Type} (d : dependency R M) (C : RegistryClass R) :
  ToolRegistry d = Exported C ->
  (forall v, registry_add C = Plain v -> verdict (ToolRegistry_add d Throwing) = fail) /\
  (forall v, registry_get C = Plain v -> verdict (ToolRegistry_get d Throwing) = fail) /\
  (forall v, registry_has C = Plain v -> verdict (ToolRegistry_has d Throwing) = fail) /\
  (forall v, registry_list C = Plain v -> verdict (ToolRegistry_list d Throwing) = fail) /\
  (forall v, registry_merge C = Plain v -> verdict (ToolRegistry_merge d Throwing) = fail) /\
  (forall v, registry_call C = Plain v -> verdict (ToolRegistry_call d Throwing) = fail).
Proof.
  intros HC.
  repeat split; intros v Hv; unfold_suite;
    unfold new_ToolRegistry, call_defineTool, add, get_tool, has, list_tools, merge,
      call, invoke; rewrite HC.
  all: destruct d as [dt tr ec lm]; cbn in HC; subst tr.
  all: case_on_dependency.
all: congruence.
Qed.

(** The status found under the title of an entry is that of its probe. *)
Lemma status_of_probe {R M : Type} (d : dependency R M) (entries : list (entry R M))
    (e : entry R M) :
  NoDup (map path entries) -> e ∈ entries ->
  status_of (map (probe d) entries) (path e) = Some (result_status (probe d e)).
Proof.
  unfold status_of. induction entries as [|a rest IH]; intros Hnodup Hin.
  - apply elem_of_nil in Hin. destruct Hin.
  - cbn [map] in Hnodup. apply NoDup_cons in Hnodup as [Hfresh Hnodup].
    cbn [map find]. cbn [probe report result_entry].
    destruct (String.eqb_spec (path a) (path e)) as [Hsame|Hother].
    + apply elem_of_cons in Hin as [->|Hin]; [reflexivity|].
      destruct Hfresh. rewrite Hsame. apply list_elem_of_fmap_2. exact Hin.
    + apply elem_of_cons in Hin as [->|Hin]; [congruence|]. apply IH; assumption.
Qed.

Lemma catalog_paths_differ {R M : Type} : NoDup (map path (@catalog R M)).
Proof. apply (bool_decide_unpack _). vm_compute. exact I. Qed.

Lemma status_of_catalog {R M : Type} (d : dependency R M) (i : nat) (e : entry R M) :
  catalog !! i = Some e ->
  status_of (run_catalog d) (path e) = Some (result_status (probe d e)).
Proof.
  intros Hi. apply status_of_probe; [apply catalog_paths_differ|].
  apply list_elem_of_lookup. eauto.
Qed.

Lemma not_function {F : Type} (p : slot F) :
  typeof_method p <> "function" -> exists v, p = Plain v.
Proof. destruct p as [f|v]; [intros H; destruct (H eq_refl)|eauto]. Qed.

(** C3: the catalog has one [describe('ToolRegistry class')] block, of
    seven entries with the titles below, which expect [add], [get], [has],
    [list], [merge] and [call] of the class: against an installation whose
    [defineTool] and [ToolRegistry] behave as expected every entry of the
    block passes with no diagnostic, and so does the block as a whole;
    against an installation whose class lacks one of the six methods, the
    entry named after that method fails. *)
Theorem conforming_registry_passes {R M : Type} (d : dependency R M) :
  conforming d ->
  map (probe d) registry_entries
  = map (fun title => {| result_entry := registry_block +:+ title;
                         result_status := pass;
                         result_failures := [] |})
      [ "should export ToolRegistry class";
        "should support tool registration via add() method";
        "should support tool lookup via get() method";
        "should support tool existence check via has() method";
        "should support tool listing via list() method";
        "should support registry merging via merge() method";
        "should support async tool invocation via call() method" ] /\
  suite "ToolRegistry class" (map (probe d) registry_entries)
  = {| result_entry := "ToolRegistry class"; result_status := pass;
       result_failures := [] |} /\
  registry_entries ⊆ @catalog R M /\
  Forall (fun title =>
            status_of (run_catalog d) (registry_block +:+ title) = Some pass)
    [ "should export ToolRegistry class";
      "should support tool registration via add() method";
      "should support tool lookup via get() method";
      "should support tool existence check via has() method";
      "should support tool listing via list() method";
      "should support registry merging via merge() method";
      "should support async tool invocation via call() method" ] /\
  forall (d' : dependency R M) (C : RegistryClass R),
    ToolRegistry d' = Exported C ->
    Forall (fun check =>
              fst check <> "function" ->
              status_of (run_catalog d') (registry_block +:+ snd check) = Some fail)
      [ (typeof_method (registry_add C),
         "should support tool registration via add() method");
        (typeof_method (registry_get C),
         "should support tool lookup via get() method");
        (typeof_method (registry_has C),
         "should support tool existence check via has() method");
        (typeof_method (registry_list C),
         "should support tool listing via list() method");
        (typeof_method (registry_merge C),
         "should support registry merging via merge() method");
        (typeof_method (registry_call C),
         "should support async tool invocation via call() method") ].
Proof.
  intros [(define & Hdefine & Hconf_define) (C & tools_of & Hregistry & Hconf)].
  assert (map (probe d) registry_entries
          = map (fun title => {| result_entry := registry_block +:+ title;
                                 result_status := pass;
                                 result_failures := [] |})
              [ "should export ToolRegistry class";
                "should support tool registration via add() method";
                "should support tool lookup via get() method";
                "should support tool existence check via has() method";
                "should support tool listing via list() method";
                "should support registry merging via merge() method";
                "should support async tool invocation via call() method" ]) as Hall.
  { unfold registry_entries, probe, report. cbn [map body path].
    rewrite (ToolRegistry_exported_passes d C tools_of),
      (ToolRegistry_add_passes d define C tools_of),
      (ToolRegistry_get_passes d define C tools_of),
      (ToolRegistry_has_passes d C tools_of),
      (ToolRegistry_list_passes d define C tools_of),
      (ToolRegistry_merge_passes d define C tools_of),
      (ToolRegistry_call_passes d define C tools_of); auto. }
  split; [exact Hall|]. split; [|split; [|split]].
  - rewrite Hall. apply suite_of_passes. apply Forall_map.
    apply Forall_forall. intros title _. split; reflexivity.
  - intros e He. unfold catalog.
    apply elem_of_app. right. apply elem_of_app. left. exact He.
  - repeat apply List.Forall_cons; try apply List.Forall_nil.
    + pose proof (status_of_catalog d 4 _ eq_refl) as Hstatus.
      cbn [path] in Hstatus. rewrite Hstatus. unfold probe, report.
      cbn [body result_status]. rewrite (ToolRegistry_exported_passes d C tools_of); auto.
    + pose proof (status_of_catalog d 5 _ eq_refl) as Hstatus.
      cbn [path] in Hstatus. rewrite Hstatus. unfold probe, report.
      cbn [body result_status]. rewrite (ToolRegistry_add_passes d define C tools_of); auto.
    + pose proof (status_of_catalog d 6 _ eq_refl) as Hstatus.
      cbn [path] in Hstatus. rewrite Hstatus. unfold probe, report.
      cbn [body result_status]. rewrite (ToolRegistry_get_passes d define C tools_of); auto.
    + pose proof (status_of_catalog d 7 _ eq_refl) as Hstatus.
      cbn [path] in Hstatus. rewrite Hstatus. unfold probe, report.
      cbn [body result_status]. rewrite (ToolRegistry_has_passes d C tools_of); auto.
    + pose proof (status_of_catalog d 8 _ eq_refl) as Hstatus.
      cbn [path] in Hstatus. rewrite Hstatus. unfold probe, report.
      cbn [body result_status]. rewrite (ToolRegistry_list_passes d define C tools_of); auto.
    + pose proof (status_of_catalog d 9 _ eq_refl) as Hstatus.
      cbn [path] in Hstatus. rewrite Hstatus. unfold probe, report.
      cbn [body result_status]. rewrite (ToolRegistry_merge_passes d define C tools_of); auto.
    + pose proof (status_of_catalog d 10 _ eq_refl) as Hstatus.
      cbn [path] in Hstatus. rewrite Hstatus. unfold probe, report.
      cbn [body result_status]. rewrite (ToolRegistry_call_passes d define C tools_of); auto.
  - intros d' C' HC'.
    destruct (missing_method_fails d' C' HC')
      as (Hadd & Hget & Hhas & Hlist & Hmerge & Hcall).
    repeat apply List.Forall_cons; try apply List.Forall_nil; cbn [fst snd];
      intros Hmissing; apply not_function in Hmissing as [v Hv].
    + pose proof (status_of_catalog d' 5 _ eq_refl) as Hstatus.
      cbn [path] in Hstatus. rewrite Hstatus. exact (f_equal Some (Hadd v Hv)).
    + pose proof (status_of_catalog d' 6 _ eq_refl) as Hstatus.
      cbn [path] in Hstatus. rewrite Hstatus. exact (f_equal Some (Hget v Hv)).
    + pose proof (status_of_catalog d' 7 _ eq_refl) as Hstatus.
      cbn [path] in Hstatus. rewrite Hstatus. exact (f_equal Some (Hhas v Hv)).
    + pose proof (status_of_catalog d' 8 _ eq_refl) as Hstatus.
      cbn [path] in Hstatus. rewrite Hstatus. exact (f_equal Some (Hlist v Hv)).
    + pose proof (status_of_catalog d' 9 _ eq_refl) as Hstatus.
      cbn [path] in Hstatus. rewrite Hstatus. exact (f_equal Some (Hmerge v Hv)).
    + pose proof (status_of_catalog d' 10 _ eq_refl) as Hstatus.
      cbn [path] in Hstatus. rewrite Hstatus. exact (f_equal Some (Hcall v Hv)).
Qed.

(** The sample registry keeps its promises. *)
Lemma find_registered (n : string) (tools : list tool) (t : tool) :
  find (named n) tools = Some t ->
  registered n tools = true /\ tool_name t = VString n.
Proof.
  unfold registered. induction tools as [|t' rest IH]; cbn [find existsb]; [discriminate|].
  destruct (named n t') eqn:Hnamed.
  - intros [= <-]. split; [reflexivity|].
    unfold named in Hnamed. destruct (tool_name t'); try discriminate Hnamed.
    cbn [object_is] in Hnamed. apply String.eqb_eq in Hnamed. congruence.
  - intros H. destruct (IH H) as [-> ?]. auto.
Qed.

Lemma registered_find (n : string) (tools : list tool) :
  registered n tools = true -> exists t, find (named n) tools = Some t.
Proof.
  unfold registered. induction tools as [|t' rest IH]; cbn [find existsb]; [discriminate|].
  destruct (named n t'); [eauto|exact IH].
Qed.

Lemma sample_registry_conforms : conforming_registry sample_registry id.
Proof.
  split; cbn [registry_class_name registry_new registry_add registry_get registry_has
              registry_list registry_merge registry_call sample_registry].
  - reflexivity.
  - exists []. split; reflexivity.
  - eexists. split; [reflexivity|]. intros r t n Hname Hfresh.
    unfold sample_add, id in *. rewrite Hname, Hfresh. eauto.
  - eexists. split; [reflexivity|]. intros r n. exists r. split; reflexivity.
  - eexists. split; [reflexivity|]. intros r n Hin. unfold id in *.
    destruct (registered_find _ _ Hin) as [t Ht].
    exists r, (Tool t). unfold sample_get. rewrite Ht.
    apply find_registered in Ht as [_ Hname]. cbn. rewrite Hname. auto.
  - eexists. split; [reflexivity|]. intros r. exists r, (map descriptor r).
    unfold sample_list, id. repeat split.
    + apply length_map.
    + apply Forall_map. apply Forall_forall. intros t _. repeat split.
  - eexists. split; [reflexivity|]. intros r other _. eexists _, _. split; reflexivity.
  - eexists. split; [reflexivity|]. intros r n t z h args parsed Hfind Hz Hh Hparse.
    exists r. unfold sample_call, id in *. rewrite Hfind, Hz, Hh, Hparse. auto.
Qed.

Lemma sample_defineTool_conforms :
  conforming_defineTool (fun t => Return (Tool t)).
Proof. intros t z h Hz Hh. exists t, h. repeat split; auto. Qed.

Lemma installed_conforms (env : process_env) : conforming (installed env).
Proof.
  split.
  - eexists. split; [reflexivity|]. apply sample_defineTool_conforms.
  - exists sample_registry, id. split; [reflexivity|apply sample_registry_conforms].
Qed.

(** The theorem on the sample installation. *)
Lemma conforming_registry_passes_witness :
  suite "ToolRegistry class" (map (probe (installed ∅)) registry_entries)
  = {| result_entry := "ToolRegistry class"; result_status := pass;
       result_failures := [] |}.
Proof.
  exact (proj1 (proj2 (conforming_registry_passes (installed ∅)
                         (installed_conforms ∅)))).
Defined.

End StabilityFacts.

(** ** Two runs of the interface stability suite *)

Module UnchangedFacts.
Import Js Value Dependency Vitest Stability Unchanged Sample.

Lemma similar_verdict {A1 A2 : Type} (same : A1 -> A2 -> Prop)
    (r1 : run A1) (r2 : run A2) :
  similar same r1 r2 -> verdict r1 = verdict r2.
Proof.
  destruct r1 as [a1 l1|l1 e1], r2 as [a2 l2|l2 e2]; cbn; try tauto.
  intros [_ ->]. reflexivity.
Qed.

Lemma similar_bind {A1 A2 B1 B2 : Type} (same : A1 -> A2 -> Prop)
    (same' : B1 -> B2 -> Prop) (m1 : test A1) (m2 : test A2)
    (k1 : A1 -> test B1) (k2 : A2 -> test B2) (md : mode) :
  similar same (m1 md) (m2 md) ->
  (forall a1 a2, same a1 a2 -> similar same' (k1 a1 md) (k2 a2 md)) ->
  similar same' ((m1 ≫= k1) md) ((m2 ≫= k2) md).
Proof.
  unfold mbind, test_bind. intros Hm Hk.
  destruct (m1 md) as [a1 l1|l1 e1], (m2 md) as [a2 l2|l2 e2]; cbn in Hm; try tauto.
  destruct Hm as [Ha ->]. specialize (Hk a1 a2 Ha).
  destruct (k1 a1 md) as [b1 l1'|l1' e1], (k2 a2 md) as [b2 l2'|l2' e2];
    cbn in *; try tauto.
  destruct Hk as [Hb ->]. auto.
Qed.

Lemma similar_js {A1 A2 : Type} (same : A1 -> A2 -> Prop)
    (c1 : completion A1) (c2 : completion A2) (md : mode) :
  alike same c1 c2 -> similar same (js c1 md) (js c2 md).
Proof. destruct c1, c2; cbn; tauto. Qed.

Lemma similar_same {A : Type} (m : test A) (md : mode) :
  similar eq (m md) (m md).
Proof. destruct (m md); cbn; auto. Qed.

Lemma similar_end {A : Type} (m : test A) (md : mode) :
  similar (fun _ _ => True) (m md) (m md).
Proof. destruct (m md); cbn; auto. Qed.

Lemma alike_same {A : Type} (c : completion A) : alike eq c c.
Proof. destruct c; cbn; auto. Qed.

Lemma same_slot_typeof {F1 F2 : Type} (same : F1 -> F2 -> Prop)
    (p1 : slot F1) (p2 : slot F2) :
  same_slot same p1 p2 -> typeof_method p1 = typeof_method p2.
Proof. destruct p1, p2; cbn; try tauto. intros ->. reflexivity. Qed.

Lemma same_binding_typeof {A1 A2 : Type} (same : A1 -> A2 -> Prop)
    (b1 : binding A1) (b2 : binding A2) :
  same_binding same b1 b2 -> typeof_binding b1 = typeof_binding b2.
Proof. destruct b1, b2; cbn; try tauto. intros ->. reflexivity. Qed.

Lemma same_binding_name {A1 A2 : Type} (same : A1 -> A2 -> Prop)
    (name1 : A1 -> value) (name2 : A2 -> value) (b1 : binding A1) (b2 : binding A2) :
  (forall a1 a2, same a1 a2 -> name1 a1 = name2 a2) ->
  same_binding same b1 b2 ->
  alike eq (binding_name name1 b1) (binding_name name2 b2).
Proof.
  intros Hname. destruct b1, b2; cbn; try tauto.
  - apply Hname.
  - intros ->. apply alike_same.
Qed.

(** A method called on two instances that stand for each other. *)
Lemma invoke_alike {C1 S1 F1 C2 S2 F2 B : Type} (what : string)
    (method1 : C1 -> slot F1) (method2 : C2 -> slot F2)
    (apply1 : F1 -> S1 -> completion (S1 * B)) (apply2 : F2 -> S2 -> completion (S2 * B))
    (sameC : C1 -> C2 -> Prop) (sameS : S1 -> S2 -> Prop) (sameF : F1 -> F2 -> Prop)
    (this1 : C1 * S1) (this2 : C2 * S2) :
  sameC (fst this1) (fst this2) ->
  same_slot sameF (method1 (fst this1)) (method2 (fst this2)) ->
  (forall f1 f2, sameF f1 f2 ->
     answers sameS (apply1 f1 (snd this1)) (apply2 f2 (snd this2))) ->
  alike (fun x y => (sameC (fst (fst x)) (fst (fst y)) /\
                     sameS (snd (fst x)) (snd (fst y))) /\ snd x = snd y)
    (invoke what method1 apply1 this1) (invoke what method2 apply2 this2).
Proof.
  intros HC Hslot Happly. unfold invoke.
  destruct (method1 (fst this1)) as [f1|v1], (method2 (fst this2)) as [f2|v2];
    cbn in Hslot; try tauto; [|exact I].
  specialize (Happly f1 f2 Hslot). unfold answers in Happly.
  destruct (apply1 f1 (snd this1)) as [[s1 b1]|], (apply2 f2 (snd this2)) as [[s2 b2]|];
    cbn in *; tauto.
Qed.

Section Runs.
Context {R1 M1 R2 M2 : Type}.
Variable same_registry : R1 -> R2 -> Prop.
Variable same_manager : M1 -> M2 -> Prop.
Variable d1 : dependency R1 M1.
Variable d2 : dependency R2 M2.
Hypothesis Hunchanged : unchanged same_registry same_manager d1 d2.

Local Abbreviation registries := (same_registry_instance same_registry).
Local Abbreviation managers := (same_manager_instance same_manager).

Lemma call_defineTool_alike (t : tool) :
  alike eq (call_defineTool d1 t) (call_defineTool d2 t).
Proof.
  unfold call_defineTool.
  pose proof (unchanged_defineTool _ _ _ _ Hunchanged) as H.
  destruct (defineTool d1), (defineTool d2); cbn in *; try tauto. apply H.
Qed.

Lemma new_ToolRegistry_alike :
  alike registries (new_ToolRegistry d1) (new_ToolRegistry d2).
Proof.
  unfold new_ToolRegistry.
  pose proof (unchanged_ToolRegistry _ _ _ _ Hunchanged) as H.
  destruct (ToolRegistry d1) as [C1| |], (ToolRegistry d2) as [C2| |];
    cbn in *; try tauto.
  pose proof (same_registry_new _ _ _ H) as Hnew.
  destruct (registry_new C1), (registry_new C2); cbn in *; try tauto.
  split; assumption.
Qed.

Lemma new_LLMManager_alike :
  alike managers (new_LLMManager d1) (new_LLMManager d2).
Proof.
  unfold new_LLMManager.
  pose proof (unchanged_LLMManager _ _ _ _ Hunchanged) as H.
  destruct (LLMManager d1) as [C1| |], (LLMManager d2) as [C2| |];
    cbn in *; try tauto.
  pose proof (same_manager_new _ _ _ H) as Hnew.
  destruct (manager_new C1), (manager_new C2); cbn in *; try tauto.
  split; assumption.
Qed.

Ltac call_step lemma := eapply similar_bind; [apply similar_js; lemma|].
Ltac same_step := eapply similar_bind; [apply similar_same|intros ? ? _].

Lemma add_alike (x : registry) (y : registry) (o : object) :
  registries x y ->
  alike (fun a b => registries (fst a) (fst b) /\ snd a = snd b) (add x o) (add y o).
Proof.
  intros [HC Hr]. unfold add.
  eapply invoke_alike; [exact HC|apply (same_add _ _ _ HC)|].
  intros f1 f2 Hf. apply Hf. exact Hr.
Qed.

Lemma get_tool_alike (x : registry) (y : registry) (name : value) :
  registries x y ->
  alike (fun a b => registries (fst a) (fst b) /\ snd a = snd b)
    (get_tool x name) (get_tool y name).
Proof.
  intros [HC Hr]. unfold get_tool.
  eapply invoke_alike; [exact HC|apply (same_get _ _ _ HC)|].
  intros f1 f2 Hf. apply Hf. exact Hr.
Qed.

Lemma has_alike (x : registry) (y : registry) (name : value) :
  registries x y ->
  alike (fun a b => registries (fst a) (fst b) /\ snd a = snd b) (has x name) (has y name).
Proof.
  intros [HC Hr]. unfold has.
  eapply invoke_alike; [exact HC|apply (same_has _ _ _ HC)|].
  intros f1 f2 Hf. apply Hf. exact Hr.
Qed.

Lemma list_tools_alike (x : registry) (y : registry) :
  registries x y ->
  alike (fun a b => registries (fst a) (fst b) /\ snd a = snd b)
    (list_tools x) (list_tools y).
Proof.
  intros [HC Hr]. unfold list_tools.
  eapply invoke_alike; [exact HC|apply (same_list _ _ _ HC)|].
  intros f1 f2 Hf. apply Hf. exact Hr.
Qed.

Lemma merge_alike (x other : registry) (y other' : registry) :
  registries x y -> registries other other' ->
  alike (fun a b => registries (fst a) (fst b) /\ snd a = snd b)
    (merge x other) (merge y other').
Proof.
  intros [HC Hr] [_ Hother]. unfold merge.
  eapply invoke_alike; [exact HC|apply (same_merge _ _ _ HC)|].
  intros f1 f2 Hf. apply Hf; assumption.
Qed.

Lemma call_alike (x : registry) (y : registry) (name args : value) :
  registries x y ->
  alike (fun a b => registries (fst a) (fst b) /\ snd a = snd b)
    (call x name args) (call y name args).
Proof.
  intros [HC Hr]. unfold call.
  eapply invoke_alike; [exact HC|apply (same_call _ _ _ HC)|].
  intros f1 f2 Hf. apply Hf. exact Hr.
Qed.

Lemma initialize_alike (x : manager) (y : manager) :
  managers x y ->
  alike (fun a b => managers (fst a) (fst b) /\ snd a = snd b)
    (initialize x) (initialize y).
Proof.
  intros [HC Hm]. unfold initialize.
  eapply invoke_alike; [exact HC|apply (same_initialize _ _ _ HC)|].
  intros f1 f2 Hf. apply Hf. exact Hm.
Qed.

Lemma getAvailableProviders_alike (x : manager) (y : manager) :
  managers x y ->
  alike (fun a b => managers (fst a) (fst b) /\ snd a = snd b)
    (getAvailableProviders x) (getAvailableProviders y).
Proof.
  intros [HC Hm]. unfold getAvailableProviders.
  eapply invoke_alike; [exact HC|apply (same_getAvailableProviders _ _ _ HC)|].
  intros f1 f2 Hf. apply Hf. exact Hm.
Qed.

Lemma isProviderAvailable_alike (x : manager) (y : manager) (provider : value) :
  managers x y ->
  alike (fun a b => managers (fst a) (fst b) /\ snd a = snd b)
    (isProviderAvailable x provider) (isProviderAvailable y provider).
Proof.
  intros [HC Hm]. unfold isProviderAvailable.
  eapply invoke_alike; [exact HC|apply (same_isProviderAvailable _ _ _ HC)|].
  intros f1 f2 Hf. apply Hf. exact Hm.
Qed.

Lemma static_alike (key : string) (member : ConfigClass -> slot (completion value)) :
  (forall C1 C2, same_ConfigClass C1 C2 -> same_slot (alike eq) (member C1) (member C2)) ->
  alike (same_slot (alike eq)) (static d1 key member) (static d2 key member).
Proof.
  intros Hmember. unfold static.
  pose proof (unchanged_EnvironmentConfig _ _ _ _ Hunchanged) as H.
  destruct (EnvironmentConfig d1) as [C1|v1|], (EnvironmentConfig d2) as [C2|v2|];
    cbn in H; try contradiction.
  - cbn. apply Hmember, H.
  - subst v2. destruct (get v1 key); cbn; auto.
  - cbn. exact I.
Qed.

Lemma call_static_alike (what : string) (p1 p2 : slot (completion value)) :
  same_slot (alike eq) p1 p2 -> alike eq (call_static what p1) (call_static what p2).
Proof. destruct p1, p2; cbn; tauto. Qed.

Variable md : mode.

Local Abbreviation ends_alike := (similar (fun _ _ : unit => True)).

Lemma defineTool_exported_similar :
  ends_alike (defineTool_exported d1 md) (defineTool_exported d2 md).
Proof.
  unfold defineTool_exported.
  rewrite (same_binding_typeof _ _ _ (unchanged_defineTool _ _ _ _ Hunchanged)).
  apply similar_end.
Qed.

Lemma defineTool_zod_schema_similar :
  ends_alike (defineTool_zod_schema d1 md) (defineTool_zod_schema d2 md).
Proof.
  unfold defineTool_zod_schema.
  call_step ltac:(apply call_defineTool_alike). intros tool ? <-. apply similar_end.
Qed.

Lemma defineTool_optional_fields_similar :
  ends_alike (defineTool_optional_fields d1 md) (defineTool_optional_fields d2 md).
Proof.
  unfold defineTool_optional_fields.
  call_step ltac:(apply call_defineTool_alike). intros tool ? <-. apply similar_end.
Qed.

Lemma defineTool_enum_fields_similar :
  ends_alike (defineTool_enum_fields d1 md) (defineTool_enum_fields d2 md).
Proof.
  unfold defineTool_enum_fields.
  call_step ltac:(apply call_defineTool_alike). intros tool ? <-. apply similar_end.
Qed.

Lemma ToolRegistry_exported_similar :
  ends_alike (ToolRegistry_exported d1 md) (ToolRegistry_exported d2 md).
Proof.
  unfold ToolRegistry_exported.
  rewrite (same_binding_typeof _ _ _ (unchanged_ToolRegistry _ _ _ _ Hunchanged)).
  same_step.
  call_step ltac:(apply (same_binding_name (same_RegistryClass same_registry));
                  [apply same_registry_name
                  |apply (unchanged_ToolRegistry _ _ _ _ Hunchanged)]).
  intros name ? <-. apply similar_end.
Qed.

Lemma ToolRegistry_add_similar :
  ends_alike (ToolRegistry_add d1 md) (ToolRegistry_add d2 md).
Proof.
  unfold ToolRegistry_add.
  call_step ltac:(apply new_ToolRegistry_alike). intros x y Hxy.
  call_step ltac:(apply call_defineTool_alike). intros tool ? <-.
  rewrite (same_slot_typeof _ _ _ (same_add _ _ _ (proj1 Hxy))). same_step.
  call_step ltac:(apply add_alike, Hxy). intros [x1 v1] [y1 v2] [Hxy1 _].
  call_step ltac:(apply has_alike, Hxy1). intros [x2 found] [y2 ?] [_ Hfound].
  cbn in Hfound. subst. apply similar_end.
Qed.

Lemma ToolRegistry_get_similar :
  ends_alike (ToolRegistry_get d1 md) (ToolRegistry_get d2 md).
Proof.
  unfold ToolRegistry_get.
  call_step ltac:(apply new_ToolRegistry_alike). intros x y Hxy.
  call_step ltac:(apply call_defineTool_alike). intros tool ? <-.
  call_step ltac:(apply add_alike, Hxy). intros [x1 v1] [y1 v2] [Hxy1 _].
  call_step ltac:(apply get_tool_alike, Hxy1). intros [x2 retrieved] [y2 ?] [_ Hsame].
  cbn in Hsame. subst. apply similar_end.
Qed.

Lemma ToolRegistry_has_similar :
  ends_alike (ToolRegistry_has d1 md) (ToolRegistry_has d2 md).
Proof.
  unfold ToolRegistry_has.
  call_step ltac:(apply new_ToolRegistry_alike). intros x y Hxy.
  rewrite (same_slot_typeof _ _ _ (same_has _ _ _ (proj1 Hxy))). same_step.
  call_step ltac:(apply has_alike, Hxy). intros [x1 found] [y1 ?] [_ Hfound].
  cbn in Hfound. subst. apply similar_end.
Qed.

Lemma ToolRegistry_list_similar :
  ends_alike (ToolRegistry_list d1 md) (ToolRegistry_list d2 md).
Proof.
  unfold ToolRegistry_list.
  call_step ltac:(apply new_ToolRegistry_alike). intros x y Hxy.
  call_step ltac:(apply call_defineTool_alike). intros tool1 ? <-.
  call_step ltac:(apply call_defineTool_alike). intros tool2 ? <-.
  call_step ltac:(apply add_alike, Hxy). intros [x1 v1] [y1 v2] [Hxy1 _].
  call_step ltac:(apply add_alike, Hxy1). intros [x2 v3] [y2 v4] [Hxy2 _].
  call_step ltac:(apply list_tools_alike, Hxy2). intros [x3 tools] [y3 ?] [_ Hsame].
  cbn in Hsame. subst. apply similar_end.
Qed.

Lemma ToolRegistry_merge_similar :
  ends_alike (ToolRegistry_merge d1 md) (ToolRegistry_merge d2 md).
Proof.
  unfold ToolRegistry_merge.
  call_step ltac:(apply new_ToolRegistry_alike). intros x y Hxy.
  call_step ltac:(apply new_ToolRegistry_alike). intros x' y' Hxy'.
  call_step ltac:(apply call_defineTool_alike). intros tool1 ? <-.
  call_step ltac:(apply add_alike, Hxy). intros [x1 v1] [y1 v2] [Hxy1 _].
  call_step ltac:(apply call_defineTool_alike). intros tool2 ? <-.
  call_step ltac:(apply add_alike, Hxy'). intros [x2 v3] [y2 v4] [Hxy2 _].
  cbn [fst snd] in *.
  rewrite (same_slot_typeof _ _ _ (same_merge _ _ _ (proj1 Hxy1))). same_step.
  call_step ltac:(apply merge_alike; [exact Hxy1|exact Hxy2]).
  intros [x3 v5] [y3 v6] [Hxy3 _].
  call_step ltac:(apply has_alike, Hxy3). intros [x4 found1] [y4 ?] [Hxy4 Hfound1].
  cbn in Hfound1. subst. same_step.
  call_step ltac:(apply has_alike, Hxy4). intros [x5 found2] [y5 ?] [_ Hfound2].
  cbn in Hfound2. subst. apply similar_end.
Qed.

Lemma ToolRegistry_call_similar :
  ends_alike (ToolRegistry_call d1 md) (ToolRegistry_call d2 md).
Proof.
  unfold ToolRegistry_call.
  call_step ltac:(apply new_ToolRegistry_alike). intros x y Hxy.
  call_step ltac:(apply call_defineTool_alike). intros tool ? <-.
  call_step ltac:(apply add_alike, Hxy). intros [x1 v1] [y1 v2] [Hxy1 _].
  cbn [fst snd] in *.
  rewrite (same_slot_typeof _ _ _ (same_call _ _ _ (proj1 Hxy1))). same_step.
  call_step ltac:(apply call_alike, Hxy1). intros [x2 pending] [y2 ?] [_ Hsame].
  cbn in Hsame. subst. apply similar_end.
Qed.

Lemma EnvironmentConfig_exported_similar :
  ends_alike (EnvironmentConfig_exported d1 md) (EnvironmentConfig_exported d2 md).
Proof.
  unfold EnvironmentConfig_exported.
  rewrite (same_binding_typeof _ _ _ (unchanged_EnvironmentConfig _ _ _ _ Hunchanged)).
  same_step.
  call_step ltac:(apply (same_binding_name same_ConfigClass);
                  [apply same_config_name
                  |apply (unchanged_EnvironmentConfig _ _ _ _ Hunchanged)]).
  intros name ? <-. apply similar_end.
Qed.

Lemma EnvironmentConfig_get_similar :
  ends_alike (EnvironmentConfig_get d1 md) (EnvironmentConfig_get d2 md).
Proof.
  unfold EnvironmentConfig_get.
  call_step ltac:(apply static_alike, same_config_get). intros p1 p2 Hp.
  rewrite (same_slot_typeof _ _ _ Hp). same_step.
  call_step ltac:(apply static_alike, same_config_get). intros q1 q2 Hq.
  call_step ltac:(apply call_static_alike, Hq). intros config ? <-.
  apply similar_end.
Qed.

Lemma EnvironmentConfig_getTransportMode_similar :
  ends_alike (EnvironmentConfig_getTransportMode d1 md)
    (EnvironmentConfig_getTransportMode d2 md).
Proof.
  unfold EnvironmentConfig_getTransportMode.
  call_step ltac:(apply static_alike, same_getTransportMode). intros p1 p2 Hp.
  rewrite (same_slot_typeof _ _ _ Hp). same_step.
  call_step ltac:(apply static_alike, same_getTransportMode). intros q1 q2 Hq.
  call_step ltac:(apply call_static_alike, Hq). intros mode_ ? <-.
  apply similar_end.
Qed.

Lemma EnvironmentConfig_logConfiguration_similar :
  ends_alike (EnvironmentConfig_logConfiguration d1 md)
    (EnvironmentConfig_logConfiguration d2 md).
Proof.
  unfold EnvironmentConfig_logConfiguration.
  call_step ltac:(apply static_alike, same_logConfiguration). intros p1 p2 Hp.
  rewrite (same_slot_typeof _ _ _ Hp). same_step.
  call_step ltac:(apply static_alike, same_logConfiguration). intros q1 q2 Hq.
  call_step ltac:(apply call_static_alike, Hq). intros logged ? <-.
  apply similar_end.
Qed.

Lemma LLMManager_exported_similar :
  ends_alike (LLMManager_exported d1 md) (LLMManager_exported d2 md).
Proof.
  unfold LLMManager_exported.
  rewrite (same_binding_typeof _ _ _ (unchanged_LLMManager _ _ _ _ Hunchanged)).
  same_step.
  call_step ltac:(apply (same_binding_name (same_ManagerClass same_manager));
                  [apply same_manager_name
                  |apply (unchanged_LLMManager _ _ _ _ Hunchanged)]).
  intros name ? <-. apply similar_end.
Qed.

Lemma LLMManager_initialize_similar :
  ends_alike (LLMManager_initialize d1 md) (LLMManager_initialize d2 md).
Proof.
  unfold LLMManager_initialize.
  call_step ltac:(apply new_LLMManager_alike). intros x y Hxy.
  rewrite (same_slot_typeof _ _ _ (same_initialize _ _ _ (proj1 Hxy))). same_step.
  call_step ltac:(apply initialize_alike, Hxy). intros [x1 pending] [y1 ?] [_ Hsame].
  cbn in Hsame. subst. apply similar_end.
Qed.

Lemma LLMManager_getAvailableProviders_similar :
  ends_alike (LLMManager_getAvailableProviders d1 md)
    (LLMManager_getAvailableProviders d2 md).
Proof.
  unfold LLMManager_getAvailableProviders.
  call_step ltac:(apply new_LLMManager_alike). intros x y Hxy.
  rewrite (same_slot_typeof _ _ _ (same_getAvailableProviders _ _ _ (proj1 Hxy))).
  same_step.
  call_step ltac:(apply getAvailableProviders_alike, Hxy).
  intros [x1 providers] [y1 ?] [_ Hsame].
  cbn in Hsame. subst. apply similar_end.
Qed.

Lemma LLMManager_isProviderAvailable_similar :
  ends_alike (LLMManager_isProviderAvailable d1 md)
    (LLMManager_isProviderAvailable d2 md).
Proof.
  unfold LLMManager_isProviderAvailable.
  call_step ltac:(apply new_LLMManager_alike). intros x y Hxy.
  rewrite (same_slot_typeof _ _ _ (same_isProviderAvailable _ _ _ (proj1 Hxy))).
  same_step.
  call_step ltac:(apply isProviderAvailable_alike, Hxy).
  intros [x1 available] [y1 ?] [_ Hsame].
  cbn in Hsame. subst. apply similar_end.
Qed.

End Runs.


(** Entry by entry, the two runs give the same titles and end alike. *)
Lemma catalog_similar {R1 M1 R2 M2 : Type} (same_registry : R1 -> R2 -> Prop)
    (same_manager : M1 -> M2 -> Prop) (d1 : dependency R1 M1) (d2 : dependency R2 M2) :
  unchanged same_registry same_manager d1 d2 ->
  Forall2 (fun e1 e2 =>
             path e1 = path e2 /\
             similar (fun _ _ => True) (body e1 d1 Throwing) (body e2 d2 Throwing))
    catalog catalog.
Proof.
  intros H. unfold catalog, registry_entries. cbn [app].
  repeat first [ apply Forall2_nil_2 | apply Forall2_cons_2 ];
    (split; [reflexivity|]); cbn [body initialize_entry].
  - apply (defineTool_exported_similar _ _ _ _ H).
  - apply (defineTool_zod_schema_similar _ _ _ _ H).
  - apply (defineTool_optional_fields_similar _ _ _ _ H).
  - apply (defineTool_enum_fields_similar _ _ _ _ H).
  - apply (ToolRegistry_exported_similar _ _ _ _ H).
  - apply (ToolRegistry_add_similar _ _ _ _ H).
  - apply (ToolRegistry_get_similar _ _ _ _ H).
  - apply (ToolRegistry_has_similar _ _ _ _ H).
  - apply (ToolRegistry_list_similar _ _ _ _ H).
  - apply (ToolRegistry_merge_similar _ _ _ _ H).
  - apply (ToolRegistry_call_similar _ _ _ _ H).
  - apply (EnvironmentConfig_exported_similar _ _ _ _ H).
  - apply (EnvironmentConfig_get_similar _ _ _ _ H).
  - apply (EnvironmentConfig_getTransportMode_similar _ _ _ _ H).
  - apply (EnvironmentConfig_logConfiguration_similar _ _ _ _ H).
  - apply (LLMManager_exported_similar _ _ _ _ H).
  - apply (LLMManager_initialize_similar _ _ _ _ H).
  - apply (LLMManager_getAvailableProviders_similar _ _ _ _ H).
  - apply (LLMManager_isProviderAvailable_similar _ _ _ _ H).
Qed.

Lemma run_catalog_similar {R1 M1 R2 M2 : Type} (same_registry : R1 -> R2 -> Prop)
    (same_manager : M1 -> M2 -> Prop) (d1 : dependency R1 M1) (d2 : dependency R2 M2) :
  unchanged same_registry same_manager d1 d2 ->
  map result_entry (run_catalog d2) = map result_entry (run_catalog d1) /\
  map result_status (run_catalog d2) = map result_status (run_catalog d1).
Proof.
  intros H. pose proof (catalog_similar _ _ _ _ H) as Hall.
  unfold run_catalog. rewrite !map_map.
  induction Hall as [|e1 e2 rest1 rest2 [Hpath Hrun] _ [IHentry IHstatus]];
    [split; reflexivity|].
  cbn [map]. rewrite IHentry, IHstatus.
  cbn [probe report result_entry result_status].
  rewrite Hpath, (similar_verdict _ _ _ Hrun). split; reflexivity.
Qed.

Lemma imports_alike {R1 M1 R2 M2 : Type} (same_registry : R1 -> R2 -> Prop)
    (same_manager : M1 -> M2 -> Prop) (p1 : packages R1 M1) (p2 : packages R2 M2) :
  unchanged_packages same_registry same_manager p1 p2 ->
  alike (unchanged same_registry same_manager) (imports p1) (imports p2).
Proof.
  intros [Hzod Htools Hconfig Hllm]. unfold imports.
  destruct (zod_module p1) as [[]|], (zod_module p2) as [[]|]; cbn in *; try tauto.
  destruct (tools_module p1) as [[dt1 tr1]|], (tools_module p2) as [[dt2 tr2]|];
    cbn in *; try tauto.
  destruct (config_module p1) as [ec1|], (config_module p2) as [ec2|];
    cbn in *; try tauto.
  destruct (tools_llm_module p1) as [lm1|], (tools_llm_module p2) as [lm2|];
    cbn in *; try tauto.
  split; cbn; tauto.
Qed.

(** C7: two runs of the whole file against packages that have not
    changed (each specifier resolves at both runs or at neither, each
    imported name is bound alike, and each call of an export returns the
    same value at both runs or throws at both) report the same nineteen
    entries with the same status entry for entry.  The states kept inside
    the instances, and the errors that the packages throw, may differ from
    one run to the other, so the diagnostics may differ where the statuses
    do not.  If the file fails to load at the first run it does at the
    second. *)
Theorem statuses_are_stable {R1 M1 R2 M2 : Type} (same_registry : R1 -> R2 -> Prop)
    (same_manager : M1 -> M2 -> Prop) (p1 : packages R1 M1) (p2 : packages R2 M2) :
  unchanged_packages same_registry same_manager p1 p2 ->
  (forall first,
     run_file p1 = Return first ->
     exists second,
       run_file p2 = Return second /\
       length first = 19%nat /\
       map result_entry first = map path (@catalog R1 M1) /\
       map result_entry second = map result_entry first /\
       map result_status second = map result_status first) /\
  (forall err, run_file p1 = Throw err -> exists err', run_file p2 = Throw err').
Proof.
  intros H. pose proof (imports_alike _ _ _ _ H) as Himports.
  unfold run_file.
  destruct (imports p1) as [d1|e1], (imports p2) as [d2|e2]; cbn in Himports;
    try contradiction.
  - split; [|discriminate]. intros first [= <-].
    exists (run_catalog d2). split; [reflexivity|].
    split; [unfold run_catalog; rewrite length_map; reflexivity|].
    split; [unfold run_catalog; rewrite map_map; reflexivity|].
    apply (run_catalog_similar _ _ _ _ Himports).
  - split; [discriminate|]. intros err _. exists e2. reflexivity.
Qed.

(** Any call ends like itself. *)
Lemma answers_same {S B : Type} (c : completion (S * B)) : answers eq c c.
Proof. destruct c as [[s b]|]; cbn; auto. Qed.

Lemma sample_registry_same : same_RegistryClass eq sample_registry sample_registry.
Proof.
  split; unfold sample_registry;
    cbn [registry_class_name registry_new registry_add registry_get registry_has
         registry_list registry_merge registry_call same_slot alike];
    try reflexivity; intros; subst; apply answers_same.
Qed.

Lemma sample_manager_same (env : process_env) :
  same_ManagerClass eq (sample_manager env) (sample_manager env).
Proof.
  split; unfold sample_manager;
    cbn [manager_class_name manager_new manager_initialize
         manager_getAvailableProviders manager_isProviderAvailable same_slot alike];
    try reflexivity; intros; subst; apply answers_same.
Qed.

Lemma unreadable_unchanged (first second : Z) (env : process_env) :
  unchanged_packages eq eq (packaged (installed_unreadable first env) None)
    (packaged (installed_unreadable second env) None).
Proof.
  split; cbn; auto.
  - split; [intros t; apply alike_same|apply sample_registry_same].
  - split; cbn; auto.
  - apply sample_manager_same.
Qed.

(** Two runs a second apart against a configuration that cannot be read:
    the statuses agree, the diagnostic of the [get()] entry does not. *)
Lemma statuses_are_stable_witness :
  exists first second,
    run_file (packaged (installed_unreadable 1700000000 ∅) None) = Return first /\
    run_file (packaged (installed_unreadable 1700000001 ∅) None) = Return second /\
    map result_status second = map result_status first /\
    map result_failures second <> map result_failures first.
Proof.
  destruct (proj1 (statuses_are_stable eq eq _ _
                     (unreadable_unchanged 1700000000 1700000001 ∅)) _ eq_refl)
    as (second & Hsecond & _ & _ & _ & Hstatus).
  eexists _, second. split; [reflexivity|]. split; [exact Hsecond|].
  split; [exact Hstatus|].
  vm_compute in Hsecond. injection Hsecond as <-. vm_compute. discriminate.
Defined.
End UnchangedFacts.

(** ** createCanaryTools *)

Module ToolsFacts.
Import Js Value Dependency Conformance Sample Tools.

Section WithConformingPackages.
Context {R M : Type}.
Variable d : dependency R M.
Variable define : tool -> completion object.
Variable C : RegistryClass R.
Variable tools_of : R -> list tool.
Hypothesis Hdefine : defineTool d = Exported define.
Hypothesis Hconforms_define : conforming_defineTool define.
Hypothesis Hregistry : ToolRegistry d = Exported C.
Hypothesis Hconforms : conforming_registry C tools_of.

(** The module constant is a tool named [current-timestamp]. *)
Lemma currentTimestampTool_defined (P : Timestamp.Platform) :
  exists t, currentTimestampTool d P = Return (Tool t) /\
            tool_name t = VString "current-timestamp".
Proof.
  unfold currentTimestampTool, call_defineTool. rewrite Hdefine.
  destruct (Hconforms_define (timestamp_definition P) _ _ eq_refl eq_refl)
    as (t & h' & Hcall & Hname & _).
  exists t. split; assumption.
Qed.

(** One call: a new reference, holding a registry with that one tool; the
    registries that existed are left as they were. *)
Lemma createCanaryTools_allocates (t : tool) (n : string) (h : @heap R) :
  tool_name t = VString n ->
  exists this r,
    createCanaryTools d (Tool t) h = Return (this, <[this := (C, r)]> h) /\
    h !! this = None /\
    tools_of r = [t].
Proof.
  intros Hname. unfold createCanaryTools.
  destruct (StabilityFacts.new_conforming d C tools_of Hregistry Hconforms)
    as (r0 & -> & Hr0).
  destruct (StabilityFacts.add_conforming C tools_of Hconforms r0 t n Hname)
    as (r1 & v & Hadd & Hr1).
  { rewrite Hr0. reflexivity. }
  exists (fresh (dom h)), r1.
  unfold mbind, mret, completion_bind, completion_ret, Js.bind.
  rewrite Hadd. unfold heap in *. rewrite insert_insert_eq.
  split; [reflexivity|]. split.
  - apply not_elem_of_dom. apply is_fresh.
  - rewrite Hr1, Hr0. reflexivity.
Qed.

Lemma add_to_other (this other : positive) (u : object) (h h' : @heap R) :
  this <> other -> add_to this u h = Return h' -> h' !! other = h !! other.
Proof.
  intros Hne. unfold add_to, heap in *.
  destruct (h !! this) as [reg|]; [|discriminate].
  destruct (add reg u) as [[reg' v]|]; cbn; [|discriminate].
  intros [= <-]. apply lookup_insert_ne. exact Hne.
Qed.

End WithConformingPackages.

(** C9: with a [defineTool] and a [ToolRegistry] that behave as expected,
    every call of [createCanaryTools()] returns a reference to a newly made
    registry whose only tool is [currentTimestampTool], named
    [current-timestamp]; two calls give two different references, the
    second call leaves the first registry as it was, and adding a tool to
    either registry leaves the other unchanged. *)
Theorem createCanaryTools_fresh_registry {R M : Type} (d : dependency R M)
    (define : tool -> completion object) (C : RegistryClass R)
    (tools_of : R -> list tool) (P : Timestamp.Platform) (h : @heap R) :
  defineTool d = Exported define -> conforming_defineTool define ->
  ToolRegistry d = Exported C -> conforming_registry C tools_of ->
  exists t this1 r1 this2 r2,
    currentTimestampTool d P = Return (Tool t) /\
    tool_name t = VString "current-timestamp" /\
    createCanaryTools d (Tool t) h = Return (this1, <[this1 := (C, r1)]> h) /\
    h !! this1 = None /\ tools_of r1 = [t] /\
    createCanaryTools d (Tool t) (<[this1 := (C, r1)]> h)
    = Return (this2, <[this2 := (C, r2)]> (<[this1 := (C, r1)]> h)) /\
    this1 <> this2 /\ tools_of r2 = [t] /\
    (<[this2 := (C, r2)]> (<[this1 := (C, r1)]> h)) !! this1 = Some (C, r1) /\
    forall u h',
      let both := <[this2 := (C, r2)]> (<[this1 := (C, r1)]> h) in
      (add_to this1 u both = Return h' -> h' !! this2 = both !! this2) /\
      (add_to this2 u both = Return h' -> h' !! this1 = both !! this1).
Proof.
  intros Hdefine Hconf_define Hregistry Hconf. unfold heap in *.
  destruct (currentTimestampTool_defined d define Hdefine Hconf_define P)
    as (t & Htool & Hname).
  destruct (createCanaryTools_allocates d C tools_of Hregistry Hconf t _ h Hname)
    as (this1 & r1 & Hfirst & Hnew1 & Hr1).
  destruct (createCanaryTools_allocates d C tools_of Hregistry Hconf t _
              (<[this1 := (C, r1)]> h) Hname)
    as (this2 & r2 & Hsecond & Hnew2 & Hr2).
  unfold heap in *.
  assert (this1 <> this2) as Hne.
  { intros <-. rewrite lookup_insert_eq in Hnew2. discriminate Hnew2. }
  exists t, this1, r1, this2, r2. repeat split; try assumption.
  - rewrite lookup_insert_ne by congruence. apply lookup_insert_eq.
  - intros Hadd. eapply add_to_other; [exact Hne|exact Hadd].
  - intros Hadd. eapply add_to_other; [|exact Hadd]. congruence.
Qed.

(** The theorem on the sample installation and an empty heap. *)
Lemma createCanaryTools_fresh_registry_witness :
  exists t this1 this2 : _,
    currentTimestampTool (installed ∅) Timestamp.sample_platform = Return (Tool t) /\
    tool_name t = VString "current-timestamp" /\
    this1 <> this2 /\
    exists r2,
      createCanaryTools (installed ∅) (Tool t) (<[ this1 := (sample_registry, [t]) ]> ∅)
      = Return (this2, r2).
Proof.
  destruct (createCanaryTools_fresh_registry (installed ∅) _ sample_registry id
              Timestamp.sample_platform ∅ eq_refl
              StabilityFacts.sample_defineTool_conforms
              eq_refl StabilityFacts.sample_registry_conforms)
    as (t & this1 & r1 & this2 & r2 & Htool & Hname & _ & _ & Hr1 & Hsecond & Hne & _).
  unfold id in Hr1. subst r1.
  exists t, this1, this2. repeat split; try assumption.
  eexists. exact Hsecond.
Defined.

End ToolsFacts.

Module KindsFacts.
Import Js TestEnv Kinds.

Lemma own_property_In (table : list (string * TestEnvironment))
    (key : string) (e : TestEnvironment) :
  own_property table key = Some e -> In (key, e) table.
Proof.
  induction table as [|[k e'] rest IH]; cbn [own_property]; [discriminate|].
  destruct (String.eqb_spec k key) as [<-|_].
  - intros [= <-]. left. reflexivity.
  - intros H. right. exact (IH H).
Qed.

(** The seven names of the catalog. *)
Lemma catalog_names (env0 : process_env) (key : string) (e : TestEnvironment) :
  own_property (TEST_ENVIRONMENTS env0) key = Some e ->
  name e = key /\
  In key [ "express"; "express:ci"; "stdio"; "vercel:local"; "vercel:preview";
           "vercel:production"; "docker" ].
Proof.
  intros H. apply own_property_In in H. unfold TEST_ENVIRONMENTS in H.
  cbn [In] in H.
  repeat (destruct H as [H|H]; [injection H as <- <-; split; [reflexivity|];
                                cbn [In]; tauto|]).
  destruct H.
Qed.

Lemma inherited_not_ci (key : string) :
  inherited key = true -> key <> "express:ci".
Proof. intros H ->. vm_compute in H. discriminate H. Qed.

(** What [getCurrentEnvironment] returns carries the name that was asked
    for, when it is an environment at all. *)
Lemma getCurrentEnvironment_name (env0 env : process_env) (r : returned) :
  getCurrentEnvironment (TEST_ENVIRONMENTS env0) env = Return r ->
  match r with
  | Environment e =>
      name e = or_else (env !! "TEST_ENV") "vercel:local" /\
      In (name e) [ "express"; "express:ci"; "stdio"; "vercel:local";
                    "vercel:preview"; "vercel:production"; "docker" ]
  | PrototypeMember key =>
      key = or_else (env !! "TEST_ENV") "vercel:local" /\ inherited key = true
  | BaseUrlOnly _ => inherited (or_else (env !! "TEST_ENV") "vercel:local") = true
  end.
Proof.
  unfold getCurrentEnvironment, get_property.
  set (envName := or_else (env !! "TEST_ENV") "vercel:local").
  destruct (own_property (TEST_ENVIRONMENTS env0) envName) as [e|] eqn:He.
  - apply catalog_names in He as [Hname Hin].
    destruct (truthy (env !! "TEST_BASE_URL")); intros [= <-]; cbn [name with_baseUrl];
      rewrite Hname; split; [reflexivity|exact Hin|reflexivity|exact Hin].
  - destruct (inherited envName) eqn:Hinh; [|discriminate].
    destruct (truthy (env !! "TEST_BASE_URL")); intros [= <-]; [reflexivity|].
    split; [reflexivity|exact Hinh].
Qed.

(** X1.  The kinds of environment exclude one another as their names say:
    a production environment is a Vercel one, is not local and speaks HTTP;
    the STDIO environment is local, is not a Vercel one and does not speak
    HTTP; and an environment is both local and a Vercel one exactly when it
    is [vercel:local].  This holds for every environment record, in the
    catalog or not. *)
Theorem kinds_exclusive (environment : TestEnvironment) :
  (isProductionEnvironment environment = true ->
     isVercelEnvironment environment = true /\
     isLocalEnvironment environment = false /\
     isHTTPEnvironment environment = true) /\
  (isSTDIOEnvironment environment = true ->
     isLocalEnvironment environment = true /\
     isVercelEnvironment environment = false /\
     isHTTPEnvironment environment = false) /\
  (isLocalEnvironment environment && isVercelEnvironment environment = true <->
     name environment = "vercel:local").
Proof.
  unfold isProductionEnvironment, isSTDIOEnvironment, isHTTPEnvironment,
    isSTDIOEnvironment, isLocalEnvironment, isVercelEnvironment.
  split; [|split].
  - intros H. apply String.eqb_eq in H. rewrite H. vm_compute. tauto.
  - intros H. apply String.eqb_eq in H. rewrite H. vm_compute. tauto.
  - split.
    + intros H. apply andb_true_iff in H as [Hlocal Hvercel].
      repeat (apply orb_true_iff in Hlocal as [Hlocal|Hlocal]);
        apply String.eqb_eq in Hlocal; rewrite Hlocal in Hvercel |- *;
        solve [reflexivity | vm_compute in Hvercel; discriminate Hvercel].
    + intros ->. vm_compute. reflexivity.
Qed.

Lemma kinds_exclusive_witness :
  isVercelEnvironment {| name := "vercel:production";
                         baseUrl := "https://canary.vercel.app";
                         description := "Vercel production deployment" |} = true /\
  isLocalEnvironment {| name := "vercel:production";
                        baseUrl := "https://canary.vercel.app";
                        description := "Vercel production deployment" |} = false /\
  isHTTPEnvironment {| name := "vercel:production";
                       baseUrl := "https://canary.vercel.app";
                       description := "Vercel production deployment" |} = true.
Proof.
  apply (proj1 (kinds_exclusive {| name := "vercel:production";
                                   baseUrl := "https://canary.vercel.app";
                                   description := "Vercel production deployment" |})).
  reflexivity.
Defined.

(** X2.  Whatever [TEST_ENV] and [TEST_BASE_URL] hold, an environment that
    [getCurrentEnvironment] returns from the catalog carries the name that
    was asked for ([TEST_ENV], or [vercel:local]), with or without the
    override of the base URL; it is local exactly when it is neither
    [vercel:preview] nor [vercel:production], and everything that is not
    local is a Vercel environment. *)
Theorem current_environment_kind (env0 env : process_env) (e : TestEnvironment) :
  getCurrentEnvironment (TEST_ENVIRONMENTS env0) env = Return (Environment e) ->
  name e = or_else (env !! "TEST_ENV") "vercel:local" /\
  (isLocalEnvironment e = true <->
     name e <> "vercel:preview" /\ name e <> "vercel:production") /\
  (isLocalEnvironment e = false -> isVercelEnvironment e = true).
Proof.
  intros H. apply getCurrentEnvironment_name in H as [Hname Hin].
  split; [exact Hname|]. clear Hname.
  unfold isLocalEnvironment, isVercelEnvironment.
  cbn [In] in Hin.
  repeat (destruct Hin as [Hin|Hin];
          [rewrite <- Hin; vm_compute; intuition congruence|]).
  destruct Hin.
Qed.

Lemma current_environment_kind_witness :
  let env : process_env :=
    {[ "TEST_ENV" := "docker"; "TEST_BASE_URL" := "http://localhost:8080" ]} in
  let e := {| name := "docker"; baseUrl := "http://localhost:8080";
              description := "Docker container (docker run with exposed port)" |} in
  name e = or_else (env !! "TEST_ENV") "vercel:local" /\
  (isLocalEnvironment e = true <->
     name e <> "vercel:preview" /\ name e <> "vercel:production") /\
  (isLocalEnvironment e = false -> isVercelEnvironment e = true).
Proof.
  intros env e. apply (current_environment_kind ∅ env e).
  vm_compute. reflexivity.
Defined.

(** X3.  For an environment whose name is in the catalog and is not
    [express:ci], [expectsCorsHeaders] answers from the name alone: CORS
    headers are expected exactly when the environment is not local.  The
    base URL is parsed all the same, so a base URL that is no URL makes the
    function throw although the answer does not depend on it. *)
Theorem expectsCorsHeaders_by_kind (new_URL : string -> completion URL)
    (env0 env : process_env) (environment : TestEnvironment) :
  In (name environment) (keys (TEST_ENVIRONMENTS env0)) ->
  name environment <> "express:ci" ->
  match new_URL (baseUrl environment) with
  | Return _ =>
      expectsCorsHeaders new_URL env environment
      = Return (negb (isLocalEnvironment environment))
  | Throw err => expectsCorsHeaders new_URL env environment = Throw err
  end.
Proof.
  intros Hin Hci. unfold expectsCorsHeaders, isLocalEnvironment.
  destruct (new_URL (baseUrl environment)) as [u|err]; [|reflexivity].
  cbn [mbind completion_bind Js.bind].
  cbn [keys TEST_ENVIRONMENTS map fst In] in Hin.
  repeat (destruct Hin as [Hin|Hin];
          [first [congruence | rewrite <- Hin; reflexivity]|]).
  destruct Hin.
Qed.

Lemma expectsCorsHeaders_by_kind_witness :
  expectsCorsHeaders sample_new_URL ∅
    {| name := "vercel:preview"; baseUrl := "https://canary-preview.vercel.app";
       description := "Vercel preview deployment" |} = Return true /\
  expectsCorsHeaders sample_new_URL ∅
    {| name := "docker"; baseUrl := "localhost"; description := "" |}
  = Throw (ErrorObject "TypeError" "Invalid URL").
Proof.
  split.
  - apply (expectsCorsHeaders_by_kind sample_new_URL ∅ ∅
             {| name := "vercel:preview"; baseUrl := "https://canary-preview.vercel.app";
                description := "Vercel preview deployment" |}).
    + vm_compute. tauto.
    + discriminate.
  - apply (expectsCorsHeaders_by_kind sample_new_URL ∅ ∅
             {| name := "docker"; baseUrl := "localhost"; description := "" |}).
    + vm_compute. tauto.
    + discriminate.
Defined.

(** X4.  The client of the system tests sends an [Origin] header, and then
    [http://localhost:3020], exactly when the environment asked for is
    [express:ci]; the override of the base URL does not change that.  It
    always sends [Content-Type: application/json], takes its base URL from
    the current environment, and accepts every HTTP status. *)
Theorem createHttpClient_origin (env0 env : process_env) (client : AxiosInstance) :
  createHttpClient (TEST_ENVIRONMENTS env0) env = Return client ->
  (forall v, In ("Origin", v) (headers client) <->
             v = "http://localhost:3020" /\
             or_else (env !! "TEST_ENV") "vercel:local" = "express:ci") /\
  In ("Content-Type", "application/json") (headers client) /\
  (forall r, getCurrentEnvironment (TEST_ENVIRONMENTS env0) env = Return r ->
             baseURL client = returned_baseUrl r) /\
  (forall status, validateStatus client status = true).
Proof.
  unfold createHttpClient.
  destruct (getCurrentEnvironment (TEST_ENVIRONMENTS env0) env) as [r|err] eqn:Hr;
    [|discriminate].
  apply getCurrentEnvironment_name in Hr.
  cbn [mbind completion_bind Js.bind mret completion_ret].
  intros [= <-]. cbn [headers baseURL validateStatus].
  split; [|split; [|split]].
  - intros v. case_bool_decide as Hname.
    + assert (or_else (env !! "TEST_ENV") "vercel:local" = "express:ci") as ->.
      { destruct r as [e|key|url]; cbn [returned_name] in Hname.
        - destruct Hr as [<- _]. congruence.
        - destruct Hr as [<- Hinh]. apply inherited_not_ci in Hinh.
          destruct (String.eqb key "__proto__"); [discriminate|].
          destruct (String.eqb_spec key "constructor"); [subst; discriminate|].
          congruence.
        - discriminate. }
      cbn [In app]. split.
      * intros [H|[H|[]]]; [discriminate|]. injection H as <-. tauto.
      * intros [-> _]. tauto.
    + cbn [In]. split.
      * intros [H|[]]. discriminate.
      * intros [_ Hci]. exfalso. apply Hname.
        destruct r as [e|key|url]; cbn [returned_name].
        -- destruct Hr as [-> _]. congruence.
        -- destruct Hr as [-> Hinh]. apply inherited_not_ci in Hinh. congruence.
        -- apply inherited_not_ci in Hr. congruence.
  - case_bool_decide; cbn [In app]; tauto.
  - intros r' [= <-]. reflexivity.
  - reflexivity.
Qed.

Lemma createHttpClient_origin_witness :
  exists client,
    createHttpClient (TEST_ENVIRONMENTS ∅)
      {[ "TEST_ENV" := "express:ci"; "TEST_BASE_URL" := "http://localhost:4000" ]}
    = Return client /\
    In ("Origin", "http://localhost:3020") (headers client) /\
    baseURL client = Some "http://localhost:4000".
Proof.
  pose (env := ({[ "TEST_ENV" := "express:ci";
                   "TEST_BASE_URL" := "http://localhost:4000" ]} : process_env)).
  destruct (createHttpClient (TEST_ENVIRONMENTS ∅) env) as [client|err] eqn:Hclient;
    [|vm_compute in Hclient; discriminate Hclient].
  exists client. split; [exact Hclient|].
  destruct (createHttpClient_origin ∅ env client Hclient) as (Horigin & _ & Hbase & _).
  split.
  - apply Horigin. split; [reflexivity|]. vm_compute. reflexivity.
  - apply (Hbase (Environment
             {| name := "express:ci"; baseUrl := "http://localhost:4000";
                description := "Express HTTP server for CI testing (npm run dev:http:ci)" |})).
    vm_compute. reflexivity.
Defined.

(** The sample parser gives a port back without its leading zero. *)
Example sample_new_URL_normalises :
  sample_new_URL "http://localhost:03021"
  = Return {| protocol := "http:"; port := "3021" |}.
Proof. reflexivity. Qed.

(** X5.  In [express:ci] without override of the base URL, the base URL is
    [http://localhost:] followed by [HTTP_TEST_PORT] as read when the
    catalog was built, else by 3021, and when the URL parser accepts it
    [expectsCorsHeaders] compares the server port (the port that the
    parser reads off it, or 80 when it reads none) with [HTTP_TEST_PORT]
    as read at the call, else with 3001.  So with [HTTP_TEST_PORT] unset or empty the
    URL is [http://localhost:3021] and the answer is [false] for a parser
    that reads 3021 off it, although the client sends a cross-origin
    [Origin] header in that environment; with [HTTP_TEST_PORT] set, the
    answer is [true] exactly when the parser gives the port back as it is
    written there, which it does not for a port written with a leading
    zero. *)
Theorem expectsCorsHeaders_express_ci (new_URL : string -> completion URL)
    (env0 env : process_env) (u : URL) :
  or_else (env !! "TEST_ENV") "vercel:local" = "express:ci" ->
  truthy (env !! "TEST_BASE_URL") = false ->
  new_URL ("http://localhost:" +:+ or_else (env0 !! "HTTP_TEST_PORT") "3021") = Return u ->
  exists e,
    getCurrentEnvironment (TEST_ENVIRONMENTS env0) env = Return (Environment e) /\
    baseUrl e = "http://localhost:" +:+ or_else (env0 !! "HTTP_TEST_PORT") "3021" /\
    expectsCorsHeaders new_URL env e
    = Return (String.eqb (serverPort u) (or_else (env !! "HTTP_TEST_PORT") "3001")) /\
    (truthy (env !! "HTTP_TEST_PORT") = false ->
     (expectsCorsHeaders new_URL env e = Return true <-> serverPort u = "3001")) /\
    (truthy (env0 !! "HTTP_TEST_PORT") = false ->
     truthy (env !! "HTTP_TEST_PORT") = false ->
     new_URL "http://localhost:3021" = Return u /\
     (serverPort u = "3021" -> expectsCorsHeaders new_URL env e = Return false)) /\
    (forall p, p <> "" -> env !! "HTTP_TEST_PORT" = Some p ->
               (expectsCorsHeaders new_URL env e = Return true <-> serverPort u = p)).
Proof.
  intros Hname Hbase Hurl.
  exists {| name := "express:ci";
            baseUrl := "http://localhost:" +:+ or_else (env0 !! "HTTP_TEST_PORT") "3021";
            description := "Express HTTP server for CI testing (npm run dev:http:ci)" |}.
  split.
  { unfold getCurrentEnvironment. rewrite Hname, Hbase. reflexivity. }
  split; [reflexivity|].
  assert (expectsCorsHeaders new_URL env
            {| name := "express:ci";
               baseUrl := "http://localhost:" +:+ or_else (env0 !! "HTTP_TEST_PORT") "3021";
               description := "Express HTTP server for CI testing (npm run dev:http:ci)" |}
          = Return (String.eqb (serverPort u)
                               (or_else (env !! "HTTP_TEST_PORT") "3001"))) as Hresult.
  { unfold expectsCorsHeaders. cbn [baseUrl name]. rewrite Hurl. reflexivity. }
  split; [exact Hresult|]. rewrite Hresult. split; [|split].
  - intros H1. rewrite (JsFacts.or_else_falsy _ _ H1).
    split; [intros [= H]; apply String.eqb_eq; exact H|].
    intros ->. reflexivity.
  - intros H0 H1. rewrite (JsFacts.or_else_falsy _ _ H0) in Hurl.
    split; [exact Hurl|]. intros ->.
    rewrite (JsFacts.or_else_falsy _ _ H1). reflexivity.
  - intros p Hp H1. rewrite (JsFacts.or_else_truthy _ _ p H1 Hp).
    split; [intros [= H]; apply String.eqb_eq; exact H|].
    intros ->. rewrite String.eqb_refl. reflexivity.
Qed.

(** With nothing set the answer is [false]; so it is with
    [HTTP_TEST_PORT=03021], which the parser reads as [3021]. *)
Lemma expectsCorsHeaders_express_ci_witness :
  (exists e,
     getCurrentEnvironment (TEST_ENVIRONMENTS ∅) {[ "TEST_ENV" := "express:ci" ]}
     = Return (Environment e) /\
     expectsCorsHeaders sample_new_URL {[ "TEST_ENV" := "express:ci" ]} e = Return false) /\
  (let env : process_env :=
     {[ "TEST_ENV" := "express:ci"; "HTTP_TEST_PORT" := "03021" ]} in
   exists e,
     getCurrentEnvironment (TEST_ENVIRONMENTS env) env = Return (Environment e) /\
     expectsCorsHeaders sample_new_URL env e = Return false).
Proof.
  split.
  - destruct (expectsCorsHeaders_express_ci sample_new_URL ∅
                {[ "TEST_ENV" := "express:ci" ]}
                {| protocol := "http:"; port := "3021" |})
      as (e & He & _ & _ & _ & Hfalse & _).
    + vm_compute. reflexivity.
    + vm_compute. reflexivity.
    + vm_compute. reflexivity.
    + exists e. split; [exact He|]. apply Hfalse; vm_compute; reflexivity.
  - intros env.
    destruct (expectsCorsHeaders_express_ci sample_new_URL env env
                {| protocol := "http:"; port := "3021" |})
      as (e & He & _ & Hresult & _).
    + vm_compute. reflexivity.
    + vm_compute. reflexivity.
    + vm_compute. reflexivity.
    + exists e. split; [exact He|]. rewrite Hresult. vm_compute. reflexivity.
Defined.

End KindsFacts.

Module EffectsFacts.
Import Js Effects.

(** Running a sequence, one statement at a time. *)
Lemma io_bind_return {A B : Type} (m : io A) (k : A -> io B) (t t' : list event) (a : A) :
  m t = (Return a, t') -> (m ≫= k) t = k a t'.
Proof. intros H. unfold mbind, io_bind. rewrite H. reflexivity. Qed.

Lemma io_bind_throw {A B : Type} (m : io A) (k : A -> io B) (t t' : list event)
    (e : thrown) :
  m t = (Throw e, t') -> (m ≫= k) t = (Throw e, t').
Proof. intros H. unfold mbind, io_bind. rewrite H. reflexivity. Qed.

Lemma requests_app (t t' : list event) :
  requests (t ++ t') = (requests t ++ requests t')%list.
Proof. apply List.filter_app. Qed.

Lemma sleeps_app (t t' : list event) :
  sleeps (t ++ t') = (sleeps t ++ sleeps t')%list.
Proof. apply List.filter_app. Qed.

Lemma signals_app (t t' : list event) :
  signals (t ++ t') = (signals t ++ signals t')%list.
Proof. apply List.filter_app. Qed.

Lemma spawns_app (t t' : list event) :
  spawns (t ++ t') = (spawns t ++ spawns t')%list.
Proof. apply List.filter_app. Qed.

End EffectsFacts.

Module PollingFacts.
Import Js TestEnv Kinds Effects Polling EffectsFacts.

Lemma requests_sleep (t : list event) (ms : Z) :
  requests (t ++ [Sleep ms]) = requests t.
Proof. rewrite requests_app. cbn. apply app_nil_r. Qed.

Lemma replicate_snoc {A : Type} (l : list A) (x : A) (n : nat) :
  ((l ++ [x]) ++ replicate n x)%list = (l ++ replicate (S n) x)%list.
Proof. rewrite <- app_assoc. reflexivity. Qed.

Section WaitForServer.
Variable client : server.
Variable baseUrl_shown : string.
Variables maxAttempts delayMs : Z.

Local Abbreviation attempts := (attempts client baseUrl_shown maxAttempts delayMs).

(** One turn of the loop of [waitForServer]. *)
Lemma attempts_step (rest : nat) (attempt : Z) (t : list event) :
  exists t1,
    requests t1 = (requests t ++ [Request "GET" "/health"])%list /\
    sleeps t1 = sleeps t /\
    attempts (S rest) attempt t
    = if ready client "/health" (length (requests t))
      then (Return true, t1)
      else attempts rest (attempt + 1)%Z
             (if (attempt <? maxAttempts)%Z then t1 ++ [Sleep delayMs] else t1)%list.
Proof.
  cbn [Polling.attempts]. unfold ready, mbind, io_bind, caught, send, log, emit,
    sleep, mret, io_ret.
  destruct (client (length (requests t)) "GET" "/health") as [response|err].
  - destruct (status response =? 200)%Z.
    + eexists. split; [|split; [|reflexivity]].
      * rewrite !requests_app. cbn. rewrite app_nil_r. reflexivity.
      * rewrite !sleeps_app. cbn. rewrite !app_nil_r. reflexivity.
    + exists (t ++ [Request "GET" "/health"])%list. split; [|split].
      * rewrite requests_app. reflexivity.
      * rewrite sleeps_app. cbn. rewrite app_nil_r. reflexivity.
      * destruct (attempt <? maxAttempts)%Z; reflexivity.
  - eexists. split; [|split].
    3: destruct (attempt <? maxAttempts)%Z; reflexivity.
    + rewrite !requests_app. cbn. rewrite app_nil_r. reflexivity.
    + rewrite !sleeps_app. cbn. rewrite !app_nil_r. reflexivity.
Qed.

Lemma attempts_run (remaining : nat) :
  forall (attempt : Z) (t : list event),
    remaining = Z.to_nat (maxAttempts + 1 - attempt) ->
    (forall k, (k < remaining)%nat ->
       ready client "/health" (length (requests t) + k) = true ->
       (forall j, (j < k)%nat -> ready client "/health" (length (requests t) + j) = false) ->
       exists t',
         attempts remaining attempt t = (Return true, t') /\
         length (requests t') = (length (requests t) + k + 1)%nat /\
         sleeps t' = (sleeps t ++ replicate k (Sleep delayMs))%list) /\
    ((forall j, (j < remaining)%nat ->
        ready client "/health" (length (requests t) + j) = false) ->
     exists t',
       attempts remaining attempt t = (Return false, t') /\
       length (requests t') = (length (requests t) + remaining)%nat /\
       sleeps t' = (sleeps t ++ replicate (remaining - 1) (Sleep delayMs))%list).
Proof.
  induction remaining as [|rest IH]; intros attempt t Hremaining.
  - split; [intros k Hk; lia|]. intros _.
    cbn [Polling.attempts]. unfold mbind, io_bind, log, emit, mret, io_ret.
    eexists. split; [reflexivity|]. split.
    + rewrite requests_app. cbn. rewrite app_nil_r. lia.
    + rewrite sleeps_app. cbn. rewrite !app_nil_r. reflexivity.
  - destruct (attempts_step rest attempt t) as (t1 & Hrequests & Hsleeps & Hstep).
    assert (length (requests t1) = S (length (requests t))) as Hlength.
    { rewrite Hrequests, length_app. cbn. lia. }
    assert (rest = Z.to_nat (maxAttempts + 1 - (attempt + 1))) as Hrest by lia.
    split.
    + intros [|k] Hk Hready Hbefore.
      * rewrite Nat.add_0_r in Hready. rewrite Hstep, Hready.
        exists t1. split; [reflexivity|]. split; [lia|].
        rewrite Hsleeps. cbn. rewrite app_nil_r. reflexivity.
      * pose proof (Hbefore 0%nat ltac:(lia)) as Hfirst.
        rewrite Nat.add_0_r in Hfirst. rewrite Hstep, Hfirst.
        assert ((attempt <? maxAttempts)%Z = true) as -> by (apply Z.ltb_lt; lia).
        destruct (proj1 (IH (attempt + 1)%Z (t1 ++ [Sleep delayMs])%list Hrest) k)
          as (t' & Hrun & Hcount & Hpauses).
        -- lia.
        -- rewrite requests_sleep, Hlength, Nat.add_succ_comm. exact Hready.
        -- intros j Hj. rewrite requests_sleep, Hlength, Nat.add_succ_comm.
           apply Hbefore. lia.
        -- exists t'. split; [exact Hrun|]. split.
           ++ rewrite Hcount, requests_sleep, Hlength. lia.
           ++ rewrite Hpauses, sleeps_app, Hsleeps. cbn [sleeps List.filter is_sleep].
              apply replicate_snoc.
    + intros Hnever.
      pose proof (Hnever 0%nat ltac:(lia)) as Hfirst.
      rewrite Nat.add_0_r in Hfirst. rewrite Hstep, Hfirst.
      destruct rest as [|rest'].
      * assert ((attempt <? maxAttempts)%Z = false) as -> by (apply Z.ltb_ge; lia).
        destruct (proj2 (IH (attempt + 1)%Z t1 Hrest)) as (t' & Hrun & Hcount & Hpauses).
        { intros j Hj. lia. }
        exists t'. split; [exact Hrun|]. split.
        -- rewrite Hcount, Hlength. lia.
        -- rewrite Hpauses, Hsleeps. reflexivity.
      * assert ((attempt <? maxAttempts)%Z = true) as -> by (apply Z.ltb_lt; lia).
        destruct (proj2 (IH (attempt + 1)%Z (t1 ++ [Sleep delayMs])%list Hrest))
          as (t' & Hrun & Hcount & Hpauses).
        { intros j Hj. rewrite requests_sleep, Hlength, Nat.add_succ_comm.
          apply Hnever. lia. }
        exists t'. split; [exact Hrun|]. split.
        -- rewrite Hcount, requests_sleep, Hlength. lia.
        -- rewrite Hpauses, sleeps_app, Hsleeps. cbn [sleeps List.filter is_sleep].
           replace (S (S rest') - 1)%nat with (S (S rest' - 1)) by lia.
           apply replicate_snoc.
Qed.

End WaitForServer.

(** Past the look at the environment, [waitForServer] is its loop. *)
Lemma waitForServer_unfold (table : list (string * TestEnvironment))
    (env : process_env) (client : server) (maxAttempts delayMs : Z)
    (t : list event) (r : returned) :
  getCurrentEnvironment table env = Return r ->
  exists line,
    waitForServer table env client maxAttempts delayMs t
    = attempts client (shown (returned_baseUrl r)) maxAttempts delayMs
        (Z.to_nat maxAttempts) 1%Z (t ++ [Console "log" line])%list.
Proof.
  intros Hr. unfold waitForServer.
  erewrite io_bind_return by (unfold lift; rewrite Hr; reflexivity).
  eexists. reflexivity.
Qed.

Lemma requests_console (t : list event) (stream line : string) :
  requests (t ++ [Console stream line]) = requests t.
Proof. rewrite requests_app. cbn. apply app_nil_r. Qed.

Lemma sleeps_console (t : list event) (stream line : string) :
  sleeps (t ++ [Console stream line]) = sleeps t.
Proof. rewrite sleeps_app. cbn. apply app_nil_r. Qed.

(** X6.  [waitForServer] polls [/health] until the first answer with
    status 200 and at most [maxAttempts] times.  If the attempt number
    [k+1] is the first that succeeds it returns [true] after exactly [k+1]
    requests and [k] pauses of [delayMs]; if none of the [maxAttempts]
    attempts succeeds it returns [false] after [maxAttempts] requests and
    [maxAttempts - 1] pauses (there is none after the last attempt).  A
    thrown request and an answer with another status count alike.  An
    unknown [TEST_ENV] makes the function throw before any request. *)
Theorem waitForServer_polls (table : list (string * TestEnvironment))
    (env : process_env) (client : server) (maxAttempts delayMs : Z)
    (t : list event) :
  let n := length (requests t) in
  let N := Z.to_nat maxAttempts in
  (forall r k,
     getCurrentEnvironment table env = Return r ->
     (k < N)%nat ->
     ready client "/health" (n + k) = true ->
     (forall j, (j < k)%nat -> ready client "/health" (n + j) = false) ->
     exists t',
       waitForServer table env client maxAttempts delayMs t = (Return true, t') /\
       length (requests t') = (n + k + 1)%nat /\
       sleeps t' = (sleeps t ++ replicate k (Sleep delayMs))%list) /\
  (forall r,
     getCurrentEnvironment table env = Return r ->
     (forall j, (j < N)%nat -> ready client "/health" (n + j) = false) ->
     exists t',
       waitForServer table env client maxAttempts delayMs t = (Return false, t') /\
       length (requests t') = (n + N)%nat /\
       sleeps t' = (sleeps t ++ replicate (N - 1) (Sleep delayMs))%list) /\
  (forall err,
     getCurrentEnvironment table env = Throw err ->
     waitForServer table env client maxAttempts delayMs t = (Throw err, t)).
Proof.
  intros n N. split; [|split].
  - intros r k Hr Hk Hready Hbefore.
    destruct (waitForServer_unfold table env client maxAttempts delayMs t r Hr)
      as [line ->].
    destruct (proj1 (attempts_run client (shown (returned_baseUrl r)) maxAttempts
                       delayMs N 1%Z (t ++ [Console "log" line])%list
                       ltac:((unfold N; f_equal; lia))) k)
      as (t' & Hrun & Hcount & Hpauses).
    + exact Hk.
    + rewrite requests_console. exact Hready.
    + rewrite requests_console. exact Hbefore.
    + exists t'. rewrite requests_console in Hcount. rewrite sleeps_console in Hpauses.
      auto.
  - intros r Hr Hnever.
    destruct (waitForServer_unfold table env client maxAttempts delayMs t r Hr)
      as [line ->].
    destruct (proj2 (attempts_run client (shown (returned_baseUrl r)) maxAttempts
                       delayMs N 1%Z (t ++ [Console "log" line])%list
                       ltac:((unfold N; f_equal; lia))))
      as (t' & Hrun & Hcount & Hpauses).
    + rewrite requests_console. exact Hnever.
    + exists t'. rewrite requests_console in Hcount. rewrite sleeps_console in Hpauses.
      auto.
  - intros err Herr. unfold waitForServer, lift, mbind, io_bind. rewrite Herr.
    reflexivity.
Qed.

Lemma waitForServer_polls_witness :
  exists t',
    waitForServer (TEST_ENVIRONMENTS ∅) ∅ (sample_server 1 1) 10 1000 []
    = (Return true, t') /\
    length (requests t') = 3%nat /\
    sleeps t' = [Sleep 1000; Sleep 1000].
Proof.
  apply (proj1 (waitForServer_polls (TEST_ENVIRONMENTS ∅) ∅ (sample_server 1 1)
                  10 1000 [])
           (Environment {| name := "vercel:local"; baseUrl := "http://localhost:3020";
                           description := "Local Vercel dev server (npm run dev:vercel)" |})
           2%nat).
  - vm_compute. reflexivity.
  - vm_compute. lia.
  - vm_compute. reflexivity.
  - intros [|[|j]] Hj; [reflexivity|reflexivity|lia].
Defined.

Section WaitForServerReady.
Variable network : server.
Variable baseUrl : string.
Variables maxAttempts delayMs : Z.

Local Abbreviation url := (baseUrl +:+ "/health").
Local Abbreviation ready_attempts :=
  (ready_attempts network baseUrl maxAttempts delayMs).

(** One turn of the loop of [waitForServerReady]. *)
Lemma ready_attempts_step (rest : nat) (attempt : Z) (t : list event) :
  exists t1,
    requests t1 = (requests t ++ [Request "GET" url])%list /\
    sleeps t1 = sleeps t /\
    ready_attempts (S rest) attempt t
    = if ready network url (length (requests t))
      then (Return true, t1)
      else ready_attempts rest (attempt + 1)%Z
             (if threw network url (length (requests t)) && (attempt <? maxAttempts)%Z
              then t1 ++ [Sleep delayMs] else t1)%list.
Proof.
  cbn [Polling.ready_attempts]. unfold ready, threw, mbind, io_bind, caught, send,
    log, emit, sleep, mret, io_ret.
  destruct (network (length (requests t)) "GET" url) as [response|err].
  - destruct (status response =? 200)%Z.
    + eexists. split; [|split; [|reflexivity]].
      * rewrite !requests_app. cbn. rewrite app_nil_r. reflexivity.
      * rewrite !sleeps_app. cbn. rewrite !app_nil_r. reflexivity.
    + exists (t ++ [Request "GET" url])%list. split; [|split].
      * rewrite requests_app. reflexivity.
      * rewrite sleeps_app. cbn. rewrite app_nil_r. reflexivity.
      * reflexivity.
  - exists (t ++ [Request "GET" url])%list. split; [|split].
    + rewrite requests_app. reflexivity.
    + rewrite sleeps_app. cbn. rewrite app_nil_r. reflexivity.
    + destruct (attempt <? maxAttempts)%Z; reflexivity.
Qed.

Lemma ready_attempts_run (remaining : nat) :
  forall (attempt : Z) (t : list event),
    remaining = Z.to_nat (maxAttempts + 1 - attempt) ->
    (forall k, (k < remaining)%nat ->
       ready network url (length (requests t) + k) = true ->
       (forall j, (j < k)%nat -> ready network url (length (requests t) + j) = false) ->
       exists t',
         ready_attempts remaining attempt t = (Return true, t') /\
         length (requests t') = (length (requests t) + k + 1)%nat /\
         sleeps t'
         = (sleeps t ++ replicate (thrown network url (length (requests t)) k)
                          (Sleep delayMs))%list) /\
    ((forall j, (j < remaining)%nat ->
        ready network url (length (requests t) + j) = false) ->
     exists t',
       ready_attempts remaining attempt t = (Return false, t') /\
       length (requests t') = (length (requests t) + remaining)%nat /\
       sleeps t'
       = (sleeps t ++ replicate (thrown network url (length (requests t)) (remaining - 1))
                        (Sleep delayMs))%list).
Proof.
  induction remaining as [|rest IH]; intros attempt t Hremaining.
  - split; [intros k Hk; lia|]. intros _.
    cbn [Polling.ready_attempts]. unfold mbind, io_bind, emit, mret, io_ret.
    eexists. split; [reflexivity|]. split.
    + rewrite requests_app. cbn. rewrite app_nil_r. lia.
    + rewrite sleeps_app. cbn. rewrite !app_nil_r. reflexivity.
  - destruct (ready_attempts_step rest attempt t) as (t1 & Hrequests & Hsleeps & Hstep).
    assert (length (requests t1) = S (length (requests t))) as Hlength.
    { rewrite Hrequests, length_app. cbn. lia. }
    assert (rest = Z.to_nat (maxAttempts + 1 - (attempt + 1))) as Hrest by lia.
    split.
    + intros [|k] Hk Hready Hbefore.
      * rewrite Nat.add_0_r in Hready. rewrite Hstep, Hready.
        exists t1. split; [reflexivity|]. split; [lia|].
        rewrite Hsleeps. cbn. rewrite app_nil_r. reflexivity.
      * pose proof (Hbefore 0%nat ltac:(lia)) as Hfirst.
        rewrite Nat.add_0_r in Hfirst. rewrite Hstep, Hfirst.
        assert ((attempt <? maxAttempts)%Z = true) as -> by (apply Z.ltb_lt; lia).
        rewrite andb_true_r. cbn [thrown].
        destruct (threw network url (length (requests t))).
        -- destruct (proj1 (IH (attempt + 1)%Z (t1 ++ [Sleep delayMs])%list Hrest) k)
             as (t' & Hrun & Hcount & Hpauses).
           ++ lia.
           ++ rewrite requests_sleep, Hlength, Nat.add_succ_comm. exact Hready.
           ++ intros j Hj. rewrite requests_sleep, Hlength, Nat.add_succ_comm.
              apply Hbefore. lia.
           ++ exists t'. split; [exact Hrun|]. split.
              ** rewrite Hcount, requests_sleep, Hlength. lia.
              ** rewrite Hpauses, sleeps_app, Hsleeps, requests_sleep, Hlength.
                 cbn [sleeps List.filter is_sleep]. apply replicate_snoc.
        -- destruct (proj1 (IH (attempt + 1)%Z t1 Hrest) k)
             as (t' & Hrun & Hcount & Hpauses).
           ++ lia.
           ++ rewrite Hlength, Nat.add_succ_comm. exact Hready.
           ++ intros j Hj. rewrite Hlength, Nat.add_succ_comm. apply Hbefore. lia.
           ++ exists t'. split; [exact Hrun|]. split.
              ** rewrite Hcount, Hlength. lia.
              ** rewrite Hpauses, Hsleeps, Hlength. reflexivity.
    + intros Hnever.
      pose proof (Hnever 0%nat ltac:(lia)) as Hfirst.
      rewrite Nat.add_0_r in Hfirst. rewrite Hstep, Hfirst.
      destruct rest as [|rest'].
      * assert ((attempt <? maxAttempts)%Z = false) as -> by (apply Z.ltb_ge; lia).
        rewrite andb_false_r.
        destruct (proj2 (IH (attempt + 1)%Z t1 Hrest)) as (t' & Hrun & Hcount & Hpauses).
        { intros j Hj. lia. }
        exists t'. split; [exact Hrun|]. split.
        -- rewrite Hcount, Hlength. lia.
        -- rewrite Hpauses, Hsleeps. reflexivity.
      * assert ((attempt <? maxAttempts)%Z = true) as -> by (apply Z.ltb_lt; lia).
        rewrite andb_true_r.
        replace (S (S rest') - 1)%nat with (S rest') by lia.
        replace (S rest' - 1)%nat with rest' in IH by lia.
        cbn [thrown].
        destruct (threw network url (length (requests t))).
        -- destruct (proj2 (IH (attempt + 1)%Z (t1 ++ [Sleep delayMs])%list Hrest))
             as (t' & Hrun & Hcount & Hpauses).
           { intros j Hj. rewrite requests_sleep, Hlength, Nat.add_succ_comm.
             apply Hnever. lia. }
           exists t'. split; [exact Hrun|]. split.
           ++ rewrite Hcount, requests_sleep, Hlength. lia.
           ++ rewrite Hpauses, sleeps_app, Hsleeps, requests_sleep, Hlength.
              cbn [sleeps List.filter is_sleep]. apply replicate_snoc.
        -- destruct (proj2 (IH (attempt + 1)%Z t1 Hrest))
             as (t' & Hrun & Hcount & Hpauses).
           { intros j Hj. rewrite Hlength, Nat.add_succ_comm. apply Hnever. lia. }
           exists t'. split; [exact Hrun|]. split.
           ++ rewrite Hcount, Hlength. lia.
           ++ rewrite Hpauses, Hsleeps, Hlength. reflexivity.
Qed.

Lemma thrown_none (from count : nat) :
  (forall j, (j < count)%nat -> threw network url (from + j) = false) ->
  thrown network url from count = 0%nat.
Proof.
  revert from. induction count as [|count IH]; intros from Hnone; [reflexivity|].
  cbn [thrown]. pose proof (Hnone 0%nat ltac:(lia)) as H0.
  rewrite Nat.add_0_r in H0. rewrite H0, IH; [reflexivity|].
  intros j Hj. rewrite Nat.add_succ_comm. apply Hnone. lia.
Qed.

End WaitForServerReady.

Lemma waitForServerReady_unfold (network : server) (baseUrl : string)
    (maxAttempts delayMs : Z) (t : list event) :
  waitForServerReady network baseUrl maxAttempts delayMs t
  = ready_attempts network baseUrl maxAttempts delayMs (Z.to_nat maxAttempts) 1%Z
      (t ++ [Console "log" ("⏳ Waiting for server at " +:+ baseUrl +:+ "/health...")])%list.
Proof. reflexivity. Qed.

(** X7.  [waitForServerReady] requests [baseUrl/health] until the first
    answer with status 200 and at most [maxAttempts] times; it returns
    [true] after [k+1] requests when attempt [k+1] is the first to succeed,
    and [false] after [maxAttempts] requests when none does.  It pauses for
    [delayMs] only after an attempt that failed without an answer (and not
    after the last attempt allowed): the number of pauses is the number of
    such attempts, not the number of attempts. *)
Theorem waitForServerReady_polls (network : server) (baseUrl : string)
    (maxAttempts delayMs : Z) (t : list event) :
  let url := baseUrl +:+ "/health" in
  let n := length (requests t) in
  let N := Z.to_nat maxAttempts in
  (forall k,
     (k < N)%nat ->
     ready network url (n + k) = true ->
     (forall j, (j < k)%nat -> ready network url (n + j) = false) ->
     exists t',
       waitForServerReady network baseUrl maxAttempts delayMs t = (Return true, t') /\
       length (requests t') = (n + k + 1)%nat /\
       sleeps t' = (sleeps t ++ replicate (thrown network url n k) (Sleep delayMs))%list) /\
  ((forall j, (j < N)%nat -> ready network url (n + j) = false) ->
   exists t',
     waitForServerReady network baseUrl maxAttempts delayMs t = (Return false, t') /\
     length (requests t') = (n + N)%nat /\
     sleeps t'
     = (sleeps t ++ replicate (thrown network url n (N - 1)) (Sleep delayMs))%list).
Proof.
  intros url n N. setoid_rewrite waitForServerReady_unfold.
  set (t0 := (t ++ [Console "log" _])%list).
  assert (requests t0 = requests t) as Hrequests.
  { unfold t0. rewrite requests_app. cbn. apply app_nil_r. }
  assert (sleeps t0 = sleeps t) as Hsleeps.
  { unfold t0. rewrite sleeps_app. cbn. apply app_nil_r. }
  pose proof (ready_attempts_run network baseUrl maxAttempts delayMs N 1%Z t0
                ltac:(unfold N; f_equal; lia)) as [Hfound Hnever].
  rewrite Hrequests, Hsleeps in Hfound, Hnever.
  split; [exact Hfound|exact Hnever].
Qed.

Lemma waitForServerReady_polls_witness :
  exists t',
    waitForServerReady (sample_server 1 1) "http://localhost:3021" 30 1000 []
    = (Return true, t') /\
    length (requests t') = 3%nat /\
    sleeps t' = [Sleep 1000].
Proof.
  apply (proj1 (waitForServerReady_polls (sample_server 1 1) "http://localhost:3021"
                  30 1000 []) 2%nat).
  - vm_compute. lia.
  - vm_compute. reflexivity.
  - intros [|[|j]] Hj; [reflexivity|reflexivity|lia].
Defined.

(** X8.  A server that answers every health request, but never with status
    200 (one that is still starting and answers 503, say), is asked
    [maxAttempts] times by [waitForServerReady] with no pause at all
    between the requests; the function then returns [false]. *)
Theorem waitForServerReady_no_pause (network : server) (baseUrl : string)
    (maxAttempts delayMs : Z) (t : list event) :
  (forall j, (j < Z.to_nat maxAttempts)%nat ->
     exists response,
       network (length (requests t) + j)%nat "GET" (baseUrl +:+ "/health")
       = Return response /\
       status response <> 200%Z) ->
  exists t',
    waitForServerReady network baseUrl maxAttempts delayMs t = (Return false, t') /\
    length (requests t') = (length (requests t) + Z.to_nat maxAttempts)%nat /\
    sleeps t' = sleeps t.
Proof.
  intros Hanswers. setoid_rewrite waitForServerReady_unfold.
  set (t0 := (t ++ [Console "log" _])%list).
  assert (requests t0 = requests t) as Hrequests.
  { unfold t0. rewrite requests_app. cbn. apply app_nil_r. }
  assert (sleeps t0 = sleeps t) as Hsleeps.
  { unfold t0. rewrite sleeps_app. cbn. apply app_nil_r. }
  destruct (proj2 (ready_attempts_run network baseUrl maxAttempts delayMs
                     (Z.to_nat maxAttempts) 1%Z t0 ltac:(f_equal; lia)))
    as (t' & Hrun & Hcount & Hpauses).
  - intros j Hj. rewrite Hrequests. unfold ready.
    destruct (Hanswers j Hj) as (response & -> & Hstatus).
    apply Z.eqb_neq. exact Hstatus.
  - exists t'. split; [exact Hrun|]. split; [rewrite Hcount, Hrequests; reflexivity|].
    rewrite Hpauses, Hsleeps, Hrequests, thrown_none.
    + apply app_nil_r.
    + intros j Hj. unfold threw.
      destruct (Hanswers j ltac:(lia)) as (response & -> & _). reflexivity.
Qed.

Lemma waitForServerReady_no_pause_witness :
  exists t',
    waitForServerReady (sample_server 0 5) "http://localhost:3021" 5 1000 []
    = (Return false, t') /\
    length (requests t') = 5%nat /\
    sleeps t' = [].
Proof.
  apply (waitForServerReady_no_pause (sample_server 0 5) "http://localhost:3021"
           5 1000 []).
  intros j Hj. exists {| status := 503; headers := ∅; data := Value.VUndefined |}.
  split; [|discriminate].
  change (Z.to_nat 5) with 5%nat in Hj.
  do 5 (destruct j as [|j]; [reflexivity|]). lia.
Defined.

End PollingFacts.

Module TimestampExtraFacts.
Import Js Value Timestamp Tools.

(** X9.  With format [unix] the handler needs the clock alone: it returns
    the whole seconds since the epoch, rounded down (also for a clock
    before 1970), after the time zone in parentheses when one is given,
    and it never answers [Error getting timestamp].  Its only error is the
    time zone that the platform does not know. *)
Theorem handler_unix (P : Platform) (timezone : option string) :
  let seconds := (getTime P `div` 1000)%Z in
  (1000 * seconds <= getTime P < 1000 * seconds + 1000)%Z /\
  handler P timezone (Some "unix")
  = Return
      (if truthy timezone then
         if timeZone_supported P (default "" timezone)
         then {| content := [ text_item ("Current timestamp"
                                           +:+ (" (" +:+ default "" timezone +:+ ")")
                                           +:+ ": " +:+ pretty seconds) ];
                 isError := None |}
         else invalid_timezone (default "" timezone)
       else {| content := [ text_item ("Current timestamp: " +:+ pretty seconds) ];
               isError := None |}).
Proof.
  intros seconds. split.
  - unfold seconds. pose proof (Z.div_mod (getTime P) 1000 ltac:(lia)).
    pose proof (Z.mod_pos_bound (getTime P) 1000 ltac:(lia)). lia.
  - unfold handler, attempt, DateTimeFormat.
    destruct (truthy timezone) eqn:Htz.
    + destruct (timeZone_supported P (default "" timezone)); [|reflexivity].
      unfold respond, render. rewrite Htz. reflexivity.
    + unfold respond, render. reflexivity.
Qed.



Lemma handler_returns (P : Platform) (timezone format : option string) :
  exists r, handler P timezone format = Return r.
Proof.
  unfold handler, try_catch. destruct (attempt P timezone format); eauto.
Qed.

Lemma timestamp_handler_parsed (P : Platform) (timezone : option string) (f : string) :
  timestamp_handler P
    (VObject (match timezone with
              | Some s => [ ("timezone", VString s); ("format", VString f) ]
              | None => [ ("format", VString f) ]
              end))
  = result_value <$> handler P timezone (Some f).
Proof. destruct timezone; reflexivity. Qed.

(** What the schema of the tool lets through: an object with a format of
    the enumeration, and the time zone when the argument has a string
    there. *)
Lemma parsed_shape (fields : list (string * value)) (data : value) :
  parse (ZObject [ ("timezone", ZOptional ZString);
                   ("format", ZDefault (ZEnum ["unix"; "iso"; "human"]) "unix") ])
        (VObject fields) = Some data ->
  exists timezone f,
    data = VObject (match timezone with
                    | Some s => [ ("timezone", VString s); ("format", VString f) ]
                    | None => [ ("format", VString f) ]
                    end) /\
    f ∈ ["unix"; "iso"; "human"] /\
    (assoc fields "format" = None -> f = "unix") /\
    (timezone = None \/
     exists s, timezone = Some s /\ assoc fields "timezone" = Some (VString s)).
Proof.
  intros Hparse.
  cbn [parse fmap option_fmap option_map] in Hparse.
  destruct (assoc fields "timezone") as [[| | | |tz| | | |]|] eqn:Htz;
    cbn [default] in Hparse; try discriminate Hparse;
    (destruct (assoc fields "format") as [[| | | |f| | | |]|] eqn:Hf;
     cbn [default] in Hparse; try discriminate Hparse);
    cbn in Hparse;
    try (case_bool_decide as Hin; [|discriminate Hparse]);
    cbn in Hparse; injection Hparse as <-.
  - exists None, "unix". split; [reflexivity|]. split; [set_solver|auto].
  - exists None, f. split; [reflexivity|]. split; [exact Hin|]. split; [discriminate|auto].
  - exists None, "unix". split; [reflexivity|]. split; [set_solver|auto].
  - exists (Some tz), "unix". split; [reflexivity|]. split; [set_solver|eauto].
  - exists (Some tz), f. split; [reflexivity|]. split; [exact Hin|].
    split; [discriminate|eauto].
  - exists (Some tz), "unix". split; [reflexivity|]. split; [set_solver|eauto].
  - exists None, "unix". split; [reflexivity|]. split; [set_solver|auto].
  - exists None, f. split; [reflexivity|]. split; [exact Hin|]. split; [discriminate|auto].
  - exists None, "unix". split; [reflexivity|]. split; [set_solver|auto].
Qed.

(** X10.  The input schema of the tool guards its handler: for every
    argument that the schema accepts, the handler is called with a format
    that is one of [unix], [iso] and [human] ([unix] when the argument has
    none), so the [default] branch of its [switch] is not reached, and with
    a time zone that is a string of the argument or absent; the promise it
    returns resolves. *)
Theorem schema_then_handler (P : Platform) (schema : zod) (arg data : value) :
  tool_inputSchema (timestamp_definition P) = Held schema ->
  parse schema arg = Some data ->
  exists timezone format r,
    timestamp_handler P data = Return (result_value r) /\
    handler P timezone (Some format) = Return r /\
    format ∈ ["unix"; "iso"; "human"] /\
    (lookup_property arg "format" = None -> format = "unix") /\
    (timezone = None \/
     exists s, timezone = Some s /\ lookup_property arg "timezone" = Some (VString s)).
Proof.
  intros [= <-] Hparse.
  destruct arg as [| | | | | |fields| |]; try discriminate Hparse.
  apply parsed_shape in Hparse as (timezone & f & -> & Hin & Hdefault & Hzone).
  destruct (handler_returns P timezone (Some f)) as [r Hr].
  exists timezone, f, r. rewrite timestamp_handler_parsed, Hr. auto.
Qed.

Lemma schema_then_handler_witness :
  exists timezone format r,
    timestamp_handler sample_platform
      (VObject [ ("timezone", VString "Asia/Tokyo"); ("format", VString "unix") ])
    = Return (result_value r) /\
    handler sample_platform timezone (Some format) = Return r /\
    format ∈ ["unix"; "iso"; "human"] /\
    (lookup_property (VObject [ ("timezone", VString "Asia/Tokyo"); ("verbose", VBool true) ])
       "format" = None -> format = "unix") /\
    (timezone = None \/
     exists s, timezone = Some s /\
               lookup_property
                 (VObject [ ("timezone", VString "Asia/Tokyo"); ("verbose", VBool true) ])
                 "timezone" = Some (VString s)).
Proof.
  apply (schema_then_handler sample_platform
           (ZObject [ ("timezone", ZOptional ZString);
                      ("format", ZDefault (ZEnum ["unix"; "iso"; "human"]) "unix") ])
           (VObject [ ("timezone", VString "Asia/Tokyo"); ("verbose", VBool true) ])).
  - reflexivity.
  - vm_compute. reflexivity.
Defined.

End TimestampExtraFacts.

Module ExpectFacts.
Import Js Value Vitest Effects Expect.

Lemma expect_status (actual expected : Z) :
  expect (toBe (VNumber actual) (VNumber expected))
  = if (actual =? expected)%Z then Return tt
    else Throw (assertion_error
                  ("expected " +:+ pretty actual +:+ " to be " +:+ pretty expected
                     +:+ " // Object.is equality")).
Proof.
  unfold expect, toBe, assert. cbn [object_is inspect].
  destruct (actual =? expected)%Z; reflexivity.
Qed.

(** Whether the answer says that it is JSON. *)
Lemma expect_json (response : Response) :
  expect (toMatch_json (header response "content-type")) = Return tt <->
  exists contentType,
    headers response !! "content-type" = Some contentType /\
    includes "application/json" contentType = true.
Proof.
  unfold expect, toMatch_json, header, assert, js.
  destruct (headers response !! "content-type") as [contentType|].
  - destruct (includes "application/json" contentType) eqn:Hjson.
    + split; [eauto|reflexivity].
    + split; [discriminate|]. intros (c & [= <-] & H). congruence.
  - split; [discriminate|]. intros (c & H & _). discriminate H.
Qed.

Lemma expect_json_cases (response : Response) :
  expect (toMatch_json (header response "content-type")) = Return tt \/
  exists e, expect (toMatch_json (header response "content-type")) = Throw e.
Proof.
  destruct (expect (toMatch_json (header response "content-type"))) as [[]|e]; eauto.
Qed.

Lemma expect_defined (v : value) :
  expect (toBeDefined (negb (is_undefined v)))
  = if is_undefined v then Throw (assertion_error "expected undefined to be defined")
    else Return tt.
Proof. unfold expect, toBeDefined, assert. destruct (is_undefined v); reflexivity. Qed.

Lemma is_undefined_spec (v : value) : is_undefined v = true <-> v = VUndefined.
Proof. destruct v; cbn; split; congruence. Qed.

(** What makes [expectValidApiResponse] pass. *)
Lemma expectValidApiResponse_passes (response : Response) (expected : Z) :
  expectValidApiResponse response expected = Return tt <->
  status response = expected /\
  (exists contentType,
      headers response !! "content-type" = Some contentType /\
      includes "application/json" contentType = true) /\
  data response <> VUndefined.
Proof.
  unfold expectValidApiResponse. rewrite expect_status, expect_defined.
  destruct (Z.eqb_spec (status response) expected) as [Hstatus|Hstatus].
  - cbn [mbind completion_bind Js.bind].
    destruct (expect_json_cases response) as [Hjson|[e Hjson]]; rewrite Hjson.
    + apply expect_json in Hjson. cbn [mbind completion_bind Js.bind].
      destruct (is_undefined (data response)) eqn:Hdata.
      * apply is_undefined_spec in Hdata. split; [discriminate|]. tauto.
      * split; [|reflexivity]. intros _. split; [exact Hstatus|]. split; [exact Hjson|].
        intros H. apply is_undefined_spec in H. congruence.
    + split; [discriminate|]. intros (_ & H & _). apply expect_json in H. congruence.
  - split; [discriminate|]. tauto.
Qed.

Lemma expectValidApiResponse_cases (response : Response) (expected : Z) :
  expectValidApiResponse response expected = Return tt \/
  exists e, expectValidApiResponse response expected = Throw e.
Proof.
  destruct (expectValidApiResponse response expected) as [[]|e]; eauto.
Qed.

Lemma requests_log (t : list event) (stream line : string) :
  requests (t ++ [Console stream line]) = requests t.
Proof. unfold requests. rewrite List.filter_app. cbn. apply app_nil_r. Qed.

Lemma requests_request (t : list event) (method url : string) :
  requests (t ++ [Request method url]) = (requests t ++ [Request method url])%list.
Proof. unfold requests. rewrite List.filter_app. reflexivity. Qed.

(** X11.  [sendMCPRequest] posts once to [/mcp] and passes a network error
    on.  For an answer with status 400 it returns [null] when
    [response.data?.error?.message?.includes('Server not initialized')]
    holds, fails the status assertion ([expected 400 to be 200]) when that
    is false, as for a 400 answer with no such message or no body, and
    throws what the [includes] call throws otherwise.  For any other
    status it returns the data of the answer when
    [expectValidApiResponse] accepts it (status 200, a JSON content type,
    data not [undefined]) and throws what that throws on every other
    answer.  So a [null] result is either the skipped case or a 200 answer
    whose body is [null]. *)
Theorem sendMCPRequest_answers (client : server) (method : string) (t : list event) :
  (forall err,
     client (length (requests t)) "POST" "/mcp" = Throw err ->
     sendMCPRequest client method t = (Throw err, (t ++ [Request "POST" "/mcp"])%list)) /\
  (forall response,
     client (length (requests t)) "POST" "/mcp" = Return response ->
     exists c t',
       sendMCPRequest client method t = (c, t') /\
       requests t' = (requests t ++ [Request "POST" "/mcp"])%list /\
       (status response = 400%Z ->
          match optional_includes
                  (get_optional (get_optional (data response) "error") "message")
                  "Server not initialized" with
          | Return true => c = Return VNull
          | Return false =>
              c = Throw (assertion_error "expected 400 to be 200 // Object.is equality")
          | Throw e => c = Throw e
          end) /\
       (status response <> 400%Z ->
          match expectValidApiResponse response 200 with
          | Return _ => c = Return (data response)
          | Throw e => c = Throw e
          end) /\
       (forall message,
          status response = 400%Z ->
          get_optional (get_optional (data response) "error") "message" = VString message ->
          (c = Return VNull <-> includes "Server not initialized" message = true)) /\
       (forall v, c = Return v ->
          (v = VNull /\ status response = 400%Z /\
           optional_includes
             (get_optional (get_optional (data response) "error") "message")
             "Server not initialized" = Return true) \/
          (v = data response /\ status response = 200%Z /\
           expectValidApiResponse response 200 = Return tt))).
Proof.
  split.
  - intros err Herr. unfold sendMCPRequest, send, mbind, io_bind. rewrite Herr. reflexivity.
  - intros response Hresponse.
    unfold sendMCPRequest, send. unfold mbind at 1, io_bind at 1. rewrite Hresponse.
    destruct (Z.eqb_spec (status response) 400) as [H400|H400].
    + assert (expectValidApiResponse response 200
              = Throw (assertion_error "expected 400 to be 200 // Object.is equality"))
        as Hinvalid.
      { unfold expectValidApiResponse. rewrite expect_status, H400. reflexivity. }
      destruct (optional_includes
                  (get_optional (get_optional (data response) "error") "message")
                  "Server not initialized") as [[|]|e] eqn:Hincludes.
      * eexists _, _. split; [unfold lift, log, emit, mbind, io_bind, mret, io_ret;
                              reflexivity|].
        split; [rewrite !requests_log; apply requests_request|].
        split; [reflexivity|]. split; [intros H; contradiction|].
        split.
        -- intros message _ Hmessage. rewrite Hmessage in Hincludes.
           cbn in Hincludes. split; [congruence|reflexivity].
        -- intros v [= <-]. left. auto.
      * eexists _, _. split; [unfold lift, log, emit, mbind, io_bind, mret, io_ret;
                              rewrite Hinvalid; reflexivity|].
        split; [apply requests_request|].
        split; [reflexivity|]. split; [intros H; contradiction|].
        split; [|discriminate].
        intros message _ Hmessage. rewrite Hmessage in Hincludes.
        cbn in Hincludes. split; [discriminate|congruence].
      * eexists _, _. split; [unfold lift, log, emit, mbind, io_bind, mret, io_ret;
                              reflexivity|].
        split; [apply requests_request|].
        split; [reflexivity|]. split; [intros H; contradiction|].
        split; [|discriminate].
        intros message _ Hmessage. rewrite Hmessage in Hincludes.
        cbn in Hincludes. discriminate Hincludes.
    + destruct (expectValidApiResponse response 200) as [[]|e] eqn:Hvalid.
      * eexists _, _. split; [unfold lift, log, emit, mbind, io_bind, mret, io_ret;
                              reflexivity|].
        split; [apply requests_request|].
        split; [intros H; contradiction|]. split; [reflexivity|].
        split; [intros; contradiction|].
        intros v [= <-]. right. split; [reflexivity|]. split; [|reflexivity].
        apply expectValidApiResponse_passes in Hvalid. tauto.
      * eexists _, _. split; [unfold lift, log, emit, mbind, io_bind, mret, io_ret;
                              reflexivity|].
        split; [apply requests_request|].
        split; [intros H; contradiction|]. split; [reflexivity|].
        split; [intros; contradiction|discriminate].
Qed.

(** A session-less answer is skipped; a bare 400 answer fails the test. *)
Lemma sendMCPRequest_answers_witness :
  (exists t',
     sendMCPRequest (fun _ _ _ => Return uninitialized_answer) "tools/list" []
     = (Return VNull, t')) /\
  (exists t',
     sendMCPRequest (fun _ _ _ => Return bare_refusal) "tools/list" []
     = (Throw (assertion_error "expected 400 to be 200 // Object.is equality"), t')).
Proof.
  split.
  - destruct (proj2 (sendMCPRequest_answers (fun _ _ _ => Return uninitialized_answer)
                       "tools/list" []) uninitialized_answer eq_refl)
      as (c & t' & Hrun & _ & Hnull & _).
    exists t'. rewrite Hrun. f_equal. exact (Hnull eq_refl).
  - destruct (proj2 (sendMCPRequest_answers (fun _ _ _ => Return bare_refusal)
                       "tools/list" []) bare_refusal eq_refl)
      as (c & t' & Hrun & _ & Hthrow & _).
    exists t'. rewrite Hrun. f_equal. exact (Hthrow eq_refl).
Defined.

(** X12.  A health answer that [validateHealthResponse] accepts is returned
    as it is; it has status 200 and says [healthy], its time stamp is a
    date after the epoch, [expectValidApiResponse] accepts it with the
    default status 200, and [expectErrorResponse] refuses it for every
    other status. *)
Theorem validateHealthResponse_accepts (getTime : value -> option Z)
    (response : Response) (health : value) :
  validateHealthResponse getTime response = Return health ->
  health = data response /\
  status response = 200%Z /\
  get health "status" = Return (VString "healthy") /\
  (exists timestamp n,
      get health "timestamp" = Return timestamp /\ timestamp <> VUndefined /\
      getTime timestamp = Some n /\ (0 < n)%Z) /\
  expectValidApiResponse response 200 = Return tt /\
  (forall expected t, expected <> 200%Z ->
     exists e, expectErrorResponse response expected t = (Throw e, t)).
Proof.
  unfold validateHealthResponse. rewrite expect_status.
  destruct (Z.eqb_spec (status response) 200) as [Hstatus|]; [|discriminate].
  cbn [mbind completion_bind Js.bind].
  destruct (expect_json_cases response) as [Hjson|[e Hjson]]; rewrite Hjson;
    [|discriminate].
  cbn [mbind completion_bind Js.bind].
  destruct (get (data response) "status") as [health_status|] eqn:Hhealthy; [|discriminate].
  cbn [mbind completion_bind Js.bind].
  destruct (expect (toBe health_status (VString "healthy"))) as [[]|] eqn:Hsays;
    [|discriminate].
  cbn [mbind completion_bind Js.bind].
  destruct (get (data response) "timestamp") as [timestamp|] eqn:Htimestamp;
    [|discriminate].
  cbn [mbind completion_bind Js.bind]. rewrite expect_defined.
  destruct (is_undefined timestamp) eqn:Hdefined; [discriminate|].
  cbn [mbind completion_bind Js.bind].
  destruct (expect (toBeGreaterThan (getTime timestamp) 0)) as [[]|] eqn:Hlater;
    [|discriminate].
  cbn [mbind completion_bind Js.bind mret completion_ret]. intros [= <-].
  assert (data response <> VUndefined) as Hdata.
  { intros H. rewrite H in Hhealthy. discriminate Hhealthy. }
  split; [reflexivity|]. split; [exact Hstatus|]. split.
  { rewrite Hhealthy. f_equal.
    unfold expect, toBe, assert in Hsays.
    destruct health_status; cbn [object_is] in Hsays; try discriminate Hsays.
    destruct (String.eqb_spec s "healthy"); [congruence|discriminate Hsays]. }
  split.
  { unfold expect, toBeGreaterThan, assert in Hlater.
    destruct (getTime timestamp) as [n|] eqn:Htime; [|discriminate Hlater].
    destruct (Z.ltb_spec 0 n) as [Hpositive|]; [|discriminate Hlater].
    exists timestamp, n. split; [exact Htimestamp|]. split; [|split; [exact Htime|lia]].
    intros Hundefined. rewrite Hundefined in Hdefined. discriminate Hdefined. }
  split.
  { apply expectValidApiResponse_passes. apply expect_json in Hjson. auto. }
  intros expected t Hexpected. unfold expectErrorResponse, lift, mbind, io_bind.
  rewrite expect_status.
  destruct (Z.eqb_spec (status response) expected); [congruence|]. eauto.
Qed.

Lemma validateHealthResponse_accepts_witness :
  expectValidApiResponse healthy_answer 200 = Return tt /\
  exists e, expectErrorResponse healthy_answer 500 [] = (Throw e, []).
Proof.
  destruct (validateHealthResponse_accepts sample_getTime healthy_answer
              (data healthy_answer) eq_refl)
    as (_ & _ & _ & _ & Hvalid & Herror).
  split; [exact Hvalid|]. apply Herror. discriminate.
Defined.

(** X13.  [expectErrorResponse] checks the status first.  For an answer
    that does not say it is JSON (no content type at all, or HTML as
    Express sends for an unknown route) the status is all it checks,
    whatever the body; for a JSON answer the body must also have an
    [error] member, and a body that is [undefined] or [null] makes the
    helper throw. *)
Theorem expectErrorResponse_passes (response : Response) (expected : Z)
    (t : list event) :
  let contentType := or_else (headers response !! "content-type") "" in
  (exists t', expectErrorResponse response expected t = (Return tt, t')) <->
  status response = expected /\
  (includes "application/json" contentType = true ->
   exists error, get (data response) "error" = Return error /\ error <> VUndefined).
Proof.
  intros contentType. unfold expectErrorResponse, lift. fold contentType.
  unfold mbind at 1, io_bind at 1. rewrite expect_status.
  destruct (Z.eqb_spec (status response) expected) as [Hstatus|Hstatus].
  - destruct (includes "application/json" contentType).
    + unfold mbind, io_bind.
      destruct (get (data response) "error") as [error|e].
      * rewrite expect_defined. destruct (is_undefined error) eqn:Herror.
        -- apply is_undefined_spec in Herror. split.
           ++ intros [t' H]. discriminate H.
           ++ intros (_ & H). destruct (H eq_refl) as (error' & [= <-] & Hne). congruence.
        -- split; [|eauto]. intros _. split; [exact Hstatus|]. intros _.
           exists error. split; [reflexivity|]. intros H. rewrite H in Herror.
           discriminate Herror.
      * split.
        -- intros [t' H]. discriminate H.
        -- intros (_ & H). destruct (H eq_refl) as (error' & H' & _). discriminate H'.
    + split; [|unfold log, emit; eauto]. intros _. split; [exact Hstatus|discriminate].
  - split.
    + intros [t' H]. discriminate H.
    + tauto.
Qed.

Lemma expectErrorResponse_passes_witness :
  exists t', expectErrorResponse not_found_answer 404 [] = (Return tt, t').
Proof.
  apply (proj2 (expectErrorResponse_passes not_found_answer 404 [])).
  split; [reflexivity|]. vm_compute. discriminate.
Defined.

End ExpectFacts.

Module DiscoveryFacts.
Import Js Value Effects Discovery EffectsFacts.

Lemma requests_snoc_request (t : list event) (method url : string) :
  length (requests (t ++ [Request method url])) = S (length (requests t)).
Proof.
  unfold requests. rewrite List.filter_app, length_app. cbn. lia.
Qed.

(** One probe: it never throws, and it leaves one request behind. *)
Lemma try_request_run (client : server) (method path : string) (t : list event) :
  exists response,
    try_request client method path t
    = (Return response, (t ++ [Request method path])%list) /\
    found response = reachable client (length (requests t)) method path.
Proof.
  unfold try_request, caught, send, reachable, mbind, io_bind, mret, io_ret.
  destruct (client (length (requests t)) method path) as [response|err];
    eexists; split; reflexivity.
Qed.

(** X14.  [discoverEndpoints] never throws.  It always lists [health] and
    [mcp]; it asks for [/auth] and, only when that is not answered with a
    status below 400, for [/api/auth], and lists as [auth] the first of
    the two that is. *)
Theorem discoverEndpoints_first (client : server) (t : list event) :
  let n := length (requests t) in
  discoverEndpoints client t
  = if reachable client n "GET" "/auth" then
      (Return [ ("health", "/health"); ("mcp", "/mcp"); ("auth", "/auth") ],
       (t ++ [ Request "GET" "/auth" ])%list)
    else if reachable client (S n) "GET" "/api/auth" then
      (Return [ ("health", "/health"); ("mcp", "/mcp"); ("auth", "/api/auth") ],
       (t ++ [ Request "GET" "/auth"; Request "GET" "/api/auth" ])%list)
    else
      (Return [ ("health", "/health"); ("mcp", "/mcp") ],
       (t ++ [ Request "GET" "/auth"; Request "GET" "/api/auth" ])%list).
Proof.
  intros n. unfold discoverEndpoints. cbn [auth_candidates assign].
  unfold tryGet.
  destruct (try_request_run client "GET" "/auth" t) as (first & Hfirst & Hfound).
  unfold mbind at 1, io_bind at 1. rewrite Hfirst, Hfound. fold n.
  destruct (reachable client n "GET" "/auth"); [reflexivity|].
  destruct (try_request_run client "GET" "/api/auth" (t ++ [Request "GET" "/auth"]))
    as (second & Hsecond & Hfound').
  unfold mbind at 1, io_bind at 1. rewrite Hsecond, Hfound', requests_snoc_request.
  fold n. rewrite <- app_assoc. cbn [app].
  destruct (reachable client (S n) "GET" "/api/auth"); reflexivity.
Qed.

(** One turn of the loop of [discoverOAuthEndpoints]. *)
Lemma oauth_candidates_cons (client : server) (key path : string)
    (rest endpoints : list (string * string)) (t : list event) :
  oauth_candidates client ((key, path) :: rest) endpoints t
  = oauth_candidates client rest
      (if reachable client (length (requests t)) "OPTIONS" path
       then assign endpoints key path else endpoints)
      (t ++ [Request "OPTIONS" path])%list.
Proof.
  cbn [oauth_candidates]. unfold tryOptions.
  destruct (try_request_run client "OPTIONS" path t) as (response & Hrun & Hfound).
  unfold mbind, io_bind. rewrite Hrun, Hfound. reflexivity.
Qed.

(** X15.  [discoverOAuthEndpoints] asks nothing when the provider or the
    base path is empty and returns no endpoint.  Otherwise it never throws
    and sends exactly four [OPTIONS] requests, to the login, logout,
    callback and refresh paths in that order, whatever the answers; it
    lists an endpoint exactly when its request was answered with a status
    below 400. *)
Theorem discoverOAuthEndpoints_probes (client : server)
    (oauthProvider baseAuthPath : string) (t : list event) :
  let n := length (requests t) in
  let basePath := baseAuthPath +:+ "/" +:+ oauthProvider in
  (oauthProvider = "" \/ baseAuthPath = "" ->
   discoverOAuthEndpoints client oauthProvider baseAuthPath t = (Return [], t)) /\
  (oauthProvider <> "" -> baseAuthPath <> "" ->
   discoverOAuthEndpoints client oauthProvider baseAuthPath t
   = (Return
        ((if reachable client n "OPTIONS" basePath
          then [ ("oauth_login", basePath) ] else []) ++
         (if reachable client (S n) "OPTIONS" (basePath +:+ "/logout")
          then [ ("oauth_logout", basePath +:+ "/logout") ] else []) ++
         (if reachable client (S (S n)) "OPTIONS" (basePath +:+ "/callback")
          then [ ("oauth_callback", basePath +:+ "/callback") ] else []) ++
         (if reachable client (S (S (S n))) "OPTIONS" (basePath +:+ "/refresh")
          then [ ("oauth_refresh", basePath +:+ "/refresh") ] else []))%list,
      (t ++ [ Request "OPTIONS" basePath;
              Request "OPTIONS" (basePath +:+ "/logout");
              Request "OPTIONS" (basePath +:+ "/callback");
              Request "OPTIONS" (basePath +:+ "/refresh") ])%list)).
Proof.
  intros n basePath. unfold discoverOAuthEndpoints. split.
  - intros [-> | ->]; [reflexivity|].
    rewrite orb_true_r. reflexivity.
  - intros Hprovider Hbase.
    rewrite (proj2 (JsFacts.truthy_Some oauthProvider) Hprovider).
    rewrite (proj2 (JsFacts.truthy_Some baseAuthPath) Hbase).
    cbn [negb orb]. unfold oauth_paths. fold basePath.
    rewrite !oauth_candidates_cons, !requests_snoc_request. fold n.
    rewrite <- !app_assoc. cbn [app oauth_candidates].
    destruct (reachable client n "OPTIONS" basePath),
             (reachable client (S n) "OPTIONS" (basePath +:+ "/logout")),
             (reachable client (S (S n)) "OPTIONS" (basePath +:+ "/callback")),
             (reachable client (S (S (S n))) "OPTIONS" (basePath +:+ "/refresh"));
      reflexivity.
Qed.

Lemma discoverOAuthEndpoints_probes_witness :
  discoverOAuthEndpoints sample_client "" "/api/auth" [] = (Return [], []) /\
  discoverOAuthEndpoints sample_client "github" "/api/auth" []
  = (Return [ ("oauth_login", "/api/auth/github");
              ("oauth_callback", "/api/auth/github/callback") ],
     [ Request "OPTIONS" "/api/auth/github";
       Request "OPTIONS" "/api/auth/github/logout";
       Request "OPTIONS" "/api/auth/github/callback";
       Request "OPTIONS" "/api/auth/github/refresh" ]).
Proof.
  split.
  - apply (proj1 (discoverOAuthEndpoints_probes sample_client "" "/api/auth" [])).
    left. reflexivity.
  - apply (proj2 (discoverOAuthEndpoints_probes sample_client "github" "/api/auth" []));
      discriminate.
Defined.

Lemma classic_null (v : value) :
  (v = VUndefined \/ v = VNull) \/ (v <> VUndefined /\ v <> VNull).
Proof. destruct v; try (right; split; discriminate); left; auto. Qed.

Lemma discoverEndpoints_returns (client : server) (t : list event) :
  exists endpoints t',
    discoverEndpoints client t = (Return endpoints, t') /\
    (length (requests t) < length (requests t') <= length (requests t) + 2)%nat.
Proof.
  unfold discoverEndpoints. cbn [auth_candidates assign]. unfold tryGet.
  destruct (try_request_run client "GET" "/auth" t) as (first & Hfirst & _).
  unfold mbind at 1, io_bind at 1. rewrite Hfirst.
  destruct (found first).
  - eexists _, _. split; [reflexivity|]. rewrite requests_snoc_request. lia.
  - destruct (try_request_run client "GET" "/api/auth" (t ++ [Request "GET" "/auth"]))
      as (second & Hsecond & _).
    unfold mbind at 1, io_bind at 1. rewrite Hsecond.
    destruct (found second); (eexists _, _; split; [reflexivity|]);
      rewrite !requests_snoc_request; lia.
Qed.

Lemma get_defined (v : value) (key : string) :
  v <> VUndefined -> v <> VNull ->
  get v key = Return (default VUndefined (lookup_property v key)).
Proof. destruct v; intros; try reflexivity; congruence. Qed.

Lemma nonempty_array_spec (v : value) :
  nonempty_array v = true <-> exists x xs, v = VArray (x :: xs).
Proof.
  destruct v as [| | | | |items| | |]; cbn [nonempty_array];
    try (split; [discriminate|intros (x & xs & H); discriminate H]).
  destruct items as [|x xs].
  - split; [discriminate|]. intros (x & xs & H). discriminate H.
  - split; [eauto|]. intros _. cbn [length]. apply Z.ltb_lt. lia.
Qed.

Lemma detect_body (client : server) (t : list event) (health : Response) :
  client (length (requests t)) "GET" "/health" = Return health ->
  data health <> VUndefined -> data health <> VNull ->
  detect client t
  = let listed := default VUndefined (lookup_property (data health) "endpoints") in
    let t1 := (t ++ [ Request "GET" "/health" ])%list in
    if value_truthy listed then (Return (set_endpoints (read health) listed), t1)
    else (discoverEndpoints client
            ≫= fun discovered => mret (set_endpoints (read health) (record discovered))) t1.
Proof.
  intros Hhealth Hundefined Hnull. unfold detect.
  erewrite io_bind_return by (unfold send; rewrite Hhealth; reflexivity).
  do 4 (erewrite io_bind_return
          by (unfold lift; rewrite get_defined by assumption; reflexivity)).
  cbv zeta. destruct (value_truthy _); reflexivity.
Qed.

Lemma detect_no_body (client : server) (t : list event) (health : Response) :
  client (length (requests t)) "GET" "/health" = Return health ->
  data health = VUndefined \/ data health = VNull ->
  exists e, detect client t = (Throw e, (t ++ [ Request "GET" "/health" ])%list).
Proof.
  intros Hhealth Hnull. unfold detect.
  erewrite io_bind_return by (unfold send; rewrite Hhealth; reflexivity).
  destruct Hnull as [-> | ->]; eexists; apply io_bind_throw; reflexivity.
Qed.

Lemma read_providers (health : Response) :
  (hasLLM (read health) = true <->
   exists x xs, llmProviders (read health) = VArray (x :: xs)) /\
  value_truthy (llmProviders (read health)) = true.
Proof.
  unfold read. cbn [hasLLM llmProviders].
  set (providers := default VUndefined (lookup_property (data health) "llm_providers")).
  destruct (value_truthy providers) eqn:Htruthy.
  - split; [apply nonempty_array_spec|exact Htruthy].
  - split; [|reflexivity]. split.
    + intros H. apply nonempty_array_spec in H as (x & xs & H).
      rewrite H in Htruthy. discriminate Htruthy.
    + intros (x & xs & H). discriminate H.
Qed.

Lemma read_auth (health : Response) :
  data health <> VUndefined -> data health <> VNull ->
  hasAuth (read health) = true ->
  get (data health) "auth" = Return (VString "enabled").
Proof.
  intros Hundefined Hnull. rewrite get_defined by assumption.
  unfold read. cbn [hasAuth].
  destruct (default VUndefined (lookup_property (data health) "auth"));
    cbn [object_is]; try discriminate.
  intros H. apply String.eqb_eq in H. congruence.
Qed.

Lemma requests_warning (t : list event) (line : string) (e : thrown) :
  requests (t ++ [Warning line e]) = requests t.
Proof. unfold requests. rewrite List.filter_app. cbn. apply app_nil_r. Qed.

Lemma detect_no_body_error (client : server) (t : list event) (health : Response)
    (e : thrown) :
  client (length (requests t)) "GET" "/health" = Return health ->
  get (data health) "auth" = Throw e ->
  detect client t = (Throw e, (t ++ [ Request "GET" "/health" ])%list).
Proof.
  intros Hhealth Hauth. unfold detect.
  erewrite io_bind_return by (unfold send; rewrite Hhealth; reflexivity).
  apply io_bind_throw. unfold lift. rewrite Hauth. reflexivity.
Qed.

Lemma get_no_body (v : value) (key : string) :
  v = VUndefined \/ v = VNull -> exists e, get v key = Throw e.
Proof. intros [-> | ->]; eexists; reflexivity. Qed.

(** X16.  [detectServerCapabilities] never throws, whatever the server
    does.  A failed health request, and a health answer without a body
    ([undefined] or [null], on which reading [auth] throws), are reported
    on the console with the error and give the capabilities of a server
    that offers nothing.  For a health answer with a body, [hasAuth] says
    whether [auth] is ['enabled'], [hasLLM] whether [llm_providers] is a
    non-empty array, [oauthProvider] is [oauth_provider] as it is,
    [llmProviders] is [llm_providers] or the empty array when that is
    falsy, and [endpoints] is the truthy [endpoints] of the answer, taken
    as it is with no further request, or else what [discoverEndpoints]
    finds.  It sends the health request and at most two more. *)
Theorem detectServerCapabilities_total (client : server) (t : list event) :
  let n := length (requests t) in
  exists capabilities t',
    detectServerCapabilities client t = (Return capabilities, t') /\
    (n < length (requests t') <= n + 3)%nat /\
    (hasLLM capabilities = true <->
     exists x xs, llmProviders capabilities = VArray (x :: xs)) /\
    value_truthy (llmProviders capabilities) = true /\
    value_truthy (endpoints capabilities) = true /\
    (hasAuth capabilities = true <->
     exists health,
       client n "GET" "/health" = Return health /\
       get (data health) "auth" = Return (VString "enabled")) /\
    (forall health auth providers provider listed,
       client n "GET" "/health" = Return health ->
       get (data health) "auth" = Return auth ->
       get (data health) "llm_providers" = Return providers ->
       get (data health) "oauth_provider" = Return provider ->
       get (data health) "endpoints" = Return listed ->
       hasAuth capabilities = object_is auth (VString "enabled") /\
       hasLLM capabilities = nonempty_array providers /\
       oauthProvider capabilities = provider /\
       llmProviders capabilities
       = (if value_truthy providers then providers else VArray []) /\
       if value_truthy listed
       then endpoints capabilities = listed /\
            t' = (t ++ [ Request "GET" "/health" ])%list
       else exists discovered,
              discoverEndpoints client (t ++ [ Request "GET" "/health" ])%list
              = (Return discovered, t') /\
              endpoints capabilities = record discovered) /\
    (forall health,
       client n "GET" "/health" = Return health ->
       data health = VUndefined \/ data health = VNull ->
       capabilities = no_capabilities /\
       exists e,
         get (data health) "auth" = Throw e /\
         t' = (t ++ [ Request "GET" "/health";
                      Warning "⚠️  Failed to detect server capabilities:" e ])%list) /\
    (forall err,
       client n "GET" "/health" = Throw err ->
       capabilities = no_capabilities /\
       t' = (t ++ [ Request "GET" "/health";
                    Warning "⚠️  Failed to detect server capabilities:" err ])%list).
Proof.
  intros n. unfold detectServerCapabilities.
  assert ((hasLLM no_capabilities = true <->
           exists x xs, llmProviders no_capabilities = VArray (x :: xs)) /\
          value_truthy (llmProviders no_capabilities) = true /\
          value_truthy (endpoints no_capabilities) = true) as (Hnone & Hnone' & Hnone'').
  { split; [|split; reflexivity]. cbn. split; [discriminate|].
    intros (x & xs & H). discriminate H. }
  destruct (client n "GET" "/health") as [health|err] eqn:Hhealth.
  - destruct (classic_null (data health)) as [Hnull|[Hundefined Hnot_null]].
    + destruct (get_no_body (data health) "auth" Hnull) as [e He].
      pose proof (detect_no_body_error client t health e Hhealth He) as Hdetect.
      eexists _, _. split.
      { erewrite io_bind_return by (unfold caught; rewrite Hdetect; reflexivity).
        reflexivity. }
      split; [rewrite requests_warning, requests_snoc_request; fold n; lia|].
      split; [exact Hnone|]. split; [exact Hnone'|]. split; [exact Hnone''|].
      split.
      { split; [discriminate|]. intros (health' & [= <-] & Hauth). congruence. }
      split.
      { intros health' auth providers provider listed [= <-] Hauth. congruence. }
      split; [|discriminate].
      intros health' [= <-] _. split; [reflexivity|].
      exists e. split; [exact He|]. rewrite <- app_assoc. reflexivity.
    + pose proof (detect_body client t health Hhealth Hundefined Hnot_null) as Hdetect.
      cbv zeta in Hdetect.
      assert (hasAuth (read health) = true <->
              exists health',
                Return health = Return health' /\
                get (data health') "auth" = Return (VString "enabled")) as Hauth_iff.
      { split.
        - intros Hauth. exists health. split; [reflexivity|].
          apply read_auth; assumption.
        - intros (health' & [= <-] & Hauth).
          rewrite get_defined in Hauth by assumption. injection Hauth as Hauth.
          unfold read. cbn [hasAuth]. rewrite Hauth. reflexivity. }
      assert (forall capabilities t',
                hasAuth capabilities = hasAuth (read health) ->
                hasLLM capabilities = hasLLM (read health) ->
                oauthProvider capabilities = oauthProvider (read health) ->
                llmProviders capabilities = llmProviders (read health) ->
                (if value_truthy (default VUndefined
                                    (lookup_property (data health) "endpoints"))
                 then endpoints capabilities
                      = default VUndefined (lookup_property (data health) "endpoints") /\
                      t' = (t ++ [ Request "GET" "/health" ])%list
                 else exists discovered,
                        discoverEndpoints client (t ++ [ Request "GET" "/health" ])%list
                        = (Return discovered, t') /\
                        endpoints capabilities = record discovered) ->
                forall health' auth providers provider listed,
                  Return health = Return health' ->
                  get (data health') "auth" = Return auth ->
                  get (data health') "llm_providers" = Return providers ->
                  get (data health') "oauth_provider" = Return provider ->
                  get (data health') "endpoints" = Return listed ->
                  hasAuth capabilities = object_is auth (VString "enabled") /\
                  hasLLM capabilities = nonempty_array providers /\
                  oauthProvider capabilities = provider /\
                  llmProviders capabilities
                  = (if value_truthy providers then providers else VArray []) /\
                  if value_truthy listed
                  then endpoints capabilities = listed /\
                       t' = (t ++ [ Request "GET" "/health" ])%list
                  else exists discovered,
                         discoverEndpoints client (t ++ [ Request "GET" "/health" ])%list
                         = (Return discovered, t') /\
                         endpoints capabilities = record discovered) as Hbody.
      { intros capabilities t' -> -> -> -> Hends health' auth providers provider listed
               [= <-] Hauth Hproviders Hprovider Hlisted.
        rewrite get_defined in Hauth, Hproviders, Hprovider, Hlisted by assumption.
        injection Hauth as <-. injection Hproviders as <-.
        injection Hprovider as <-. injection Hlisted as <-.
        unfold read. cbn [hasAuth hasLLM oauthProvider llmProviders].
        repeat split. exact Hends. }
      destruct (value_truthy (default VUndefined (lookup_property (data health) "endpoints")))
        eqn:Hlisted.
      * eexists _, _. split.
        { erewrite io_bind_return by (unfold caught; rewrite Hdetect; reflexivity).
          reflexivity. }
        split; [rewrite requests_snoc_request; fold n; lia|].
        split; [apply read_providers|]. split; [apply read_providers|].
        split; [exact Hlisted|].
        split; [exact Hauth_iff|].
        split; [|split].
        -- apply Hbody; try reflexivity. split; reflexivity.
        -- intros health' [= <-] [H|H]; congruence.
        -- discriminate.
      * destruct (discoverEndpoints_returns client (t ++ [Request "GET" "/health"])%list)
          as (discovered & t2 & Hdiscover & Hcount).
        rewrite requests_snoc_request in Hcount. fold n in Hcount.
        erewrite io_bind_return in Hdetect by exact Hdiscover.
        eexists _, _. split.
        { erewrite io_bind_return by (unfold caught; rewrite Hdetect; reflexivity).
          reflexivity. }
        split; [lia|].
        split; [apply read_providers|]. split; [apply read_providers|].
        split; [reflexivity|].
        split; [exact Hauth_iff|].
        split; [|split].
        -- apply Hbody; try reflexivity. exists discovered. split; [exact Hdiscover|reflexivity].
        -- intros health' [= <-] [H|H]; congruence.
        -- discriminate.
  - eexists _, _. split.
    { erewrite io_bind_return
        by (unfold caught, detect; erewrite io_bind_throw
              by (unfold send; fold n; rewrite Hhealth; reflexivity);
            reflexivity).
      reflexivity. }
    split; [rewrite requests_warning, requests_snoc_request; fold n; lia|].
    split; [exact Hnone|]. split; [exact Hnone'|]. split; [exact Hnone''|].
    split.
    { split; [discriminate|]. intros (health & H & _). discriminate H. }
    split; [discriminate|]. split; [discriminate|].
    intros err' [= <-]. split; [reflexivity|]. rewrite <- app_assoc. reflexivity.
Qed.

Lemma detectServerCapabilities_total_witness :
  (exists capabilities t',
     detectServerCapabilities (Polling.sample_server 1 0) [] = (Return capabilities, t') /\
     capabilities = no_capabilities) /\
  (exists capabilities t',
     detectServerCapabilities (fun _ _ _ => Return empty_answer) [] = (Return capabilities, t') /\
     capabilities = no_capabilities).
Proof.
  split.
  - destruct (detectServerCapabilities_total (Polling.sample_server 1 0) [])
      as (capabilities & t' & Hrun & _ & _ & _ & _ & _ & _ & _ & Hnetwork).
    exists capabilities, t'. split; [exact Hrun|].
    apply (Hnetwork (ErrorObject "Error" "connect ECONNREFUSED")). reflexivity.
  - destruct (detectServerCapabilities_total (fun _ _ _ => Return empty_answer) [])
      as (capabilities & t' & Hrun & _ & _ & _ & _ & _ & _ & Hempty & _).
    exists capabilities, t'. split; [exact Hrun|].
    apply (Hempty empty_answer); [reflexivity|]. left. reflexivity.
Defined.

End DiscoveryFacts.

Module CanaryFacts.
Import Js Value Dependency Conformance Sample Timestamp Tools.

(** X17.  From end to end, with a [defineTool] and a [ToolRegistry] that
    behave as expected: the registry that [createCanaryTools()] returns
    answers a call of [current-timestamp], for every argument that the
    schema of the tool accepts, with a promise that resolves to the result
    of the handler on the parsed argument; it is never rejected.  Called
    with an empty argument the tool answers with the whole seconds of the
    clock, the default format being [unix]. *)
Theorem canary_call {R M : Type} (d : dependency R M)
    (define : tool -> completion object) (C : RegistryClass R)
    (tools_of : R -> list tool) (P : Platform) (h : @heap R)
    (schema : zod) (args data : value) :
  defineTool d = Exported define -> conforming_defineTool define ->
  ToolRegistry d = Exported C -> conforming_registry C tools_of ->
  tool_inputSchema (timestamp_definition P) = Held schema ->
  parse schema args = Some data ->
  exists t this r r' result,
    currentTimestampTool d P = Return (Tool t) /\
    createCanaryTools d (Tool t) h = Return (this, <[this := (C, r)]> h) /\
    call (C, r) (VString "current-timestamp") args
    = Return ((C, r'), VResolved (result_value result)) /\
    timestamp_handler P data = Return (result_value result) /\
    (args = VObject [] ->
     result = {| content := [ text_item ("Current timestamp: "
                                           +:+ pretty (getTime P `div` 1000)%Z) ];
                 isError := None |}).
Proof.
  intros Hdefine Hconf_define Hregistry Hconf [= <-] Hparse.
  destruct (Hconf_define (timestamp_definition P) _ _ eq_refl eq_refl)
    as (t & h' & Hcall & Hname & _ & Hschema & Hhandler & Hsame).
  destruct (ToolsFacts.createCanaryTools_allocates d C tools_of Hregistry Hconf t _ h Hname)
    as (this & r & Hcreate & _ & Hr).
  destruct (StabilityFacts.call_conforming C tools_of Hconf r "current-timestamp" t
              (ZObject [ ("timezone", ZOptional ZString);
                         ("format", ZDefault (ZEnum ["unix"; "iso"; "human"]) "unix") ])
              h' args data) as (r' & Hrun); [|exact Hschema|exact Hhandler|exact Hparse|].
  { rewrite Hr. cbn [find]. unfold named. rewrite Hname. reflexivity. }
  rewrite Hsame in Hrun.
  assert (exists result,
             timestamp_handler P data = Return (result_value result) /\
             (args = VObject [] ->
              result = {| content := [ text_item ("Current timestamp: "
                                                    +:+ pretty (getTime P `div` 1000)%Z) ];
                          isError := None |})) as (result & Hresult & Hempty).
  { destruct args as [| | | | | |fields| |]; try discriminate Hparse.
    pose proof Hparse as Hshape.
    apply TimestampExtraFacts.parsed_shape in Hshape as (timezone & f & -> & _).
    destruct (TimestampExtraFacts.handler_returns P timezone (Some f)) as [result Hresult].
    exists result. rewrite TimestampExtraFacts.timestamp_handler_parsed, Hresult.
    split; [reflexivity|]. intros [= ->].
    cbn in Hparse. injection Hparse as Hdata.
    destruct timezone; [discriminate Hdata|]. injection Hdata as <-.
    assert (handler P None (Some "unix")
            = Return {| content := [ text_item ("Current timestamp: "
                                                  +:+ pretty (getTime P `div` 1000)%Z) ];
                        isError := None |}) as Hunix by reflexivity.
    congruence. }
  exists t, this, r, r', result.
  split; [unfold currentTimestampTool, call_defineTool; rewrite Hdefine; exact Hcall|].
  split; [exact Hcreate|]. split; [|split; [exact Hresult|exact Hempty]].
  rewrite Hrun, Hresult. reflexivity.
Qed.

Lemma canary_call_witness :
  exists t this r r',
    currentTimestampTool (installed ∅) sample_platform = Return (Tool t) /\
    createCanaryTools (installed ∅) (Tool t) ∅
    = Return (this, <[this := (sample_registry, r)]> ∅) /\
    call (sample_registry, r) (VString "current-timestamp") (VObject [])
    = Return ((sample_registry, r'),
              VResolved (VObject [ ("content",
                                    VArray [ VObject [ ("type", VString "text");
                                                       ("text", VString "Current timestamp: 1700000000") ] ]) ])).
Proof.
  destruct (canary_call (installed ∅) _ sample_registry id sample_platform ∅
              (ZObject [ ("timezone", ZOptional ZString);
                         ("format", ZDefault (ZEnum ["unix"; "iso"; "human"]) "unix") ])
              (VObject []) (VObject [ ("format", VString "unix") ])
              eq_refl StabilityFacts.sample_defineTool_conforms
              eq_refl StabilityFacts.sample_registry_conforms eq_refl eq_refl)
    as (t & this & r & r' & result & Htool & Hcreate & Hcall & _ & Hempty).
  exists t, this, r, r'. split; [exact Htool|]. split; [exact Hcreate|].
  rewrite Hcall, (Hempty eq_refl). reflexivity.
Defined.

End CanaryFacts.

Module ContractFacts.
Import Js Value Dependency Vitest Stability Conformance Sample Contract.

Lemma passes_finished (body : test unit) :
  passes body <-> body Throwing = Finished tt [].
Proof.
  unfold passes, verdict. destruct (body Throwing) as [[] [|]|]; split;
    congruence.
Qed.

Lemma typeof_not_function (v : value) :
  object_is (VString (typeof v)) (VString "function") = false.
Proof. destruct v; reflexivity. Qed.

Lemma bind_finished {A B : Type} (m : test A) (k : A -> test B) (md : mode) (b : B) :
  (m ≫= k) md = Finished b [] ->
  exists a, m md = Finished a [] /\ k a md = Finished b [].
Proof.
  unfold mbind, test_bind. destruct (m md) as [a l|l e]; [|discriminate].
  destruct (k a md) as [b' l'|l' e] eqn:Hk; [|discriminate].
  intros [= <- Hnil]. apply app_eq_nil in Hnil as [-> ->]. eauto.
Qed.

Lemma js_finished {A : Type} (c : completion A) (md : mode) (a : A) (l : list thrown) :
  js c md = Finished a l -> c = Return a.
Proof. unfold js. destruct c; [|discriminate]. intros [= <- _]. reflexivity. Qed.

Lemma assert_finished (ok : bool) (message : string) (u : unit) :
  assert ok message Throwing = Finished u [] -> ok = true.
Proof. unfold assert. destruct ok; [reflexivity|discriminate]. Qed.

(** Reading a finished run backwards, statement by statement. *)
Ltac invert_run H :=
  repeat match type of H with
         | (_ ≫= _) _ = Finished _ [] =>
             let a := fresh "a" in
             let Hstep := fresh "Hstep" in
             apply bind_finished in H as (a & Hstep & H);
             first [ apply js_finished in Hstep
                   | unfold toBe, toBeDefined, toHaveProperty, toContain in Hstep;
                     apply assert_finished in Hstep ]
         end;
  try (unfold toBe, toBeDefined, toHaveProperty, toContain in H;
       apply assert_finished in H).

Lemma method_held {F : Type} (p : slot F) :
  object_is (VString (typeof_method p)) (VString "function") = true ->
  exists f, p = Held f.
Proof.
  destruct p as [f|v]; [eauto|]. cbn [typeof_method].
  rewrite typeof_not_function. discriminate.
Qed.

Lemma object_is_string (v : value) (s : string) :
  object_is v (VString s) = true <-> v = VString s.
Proof.
  destruct v; cbn [object_is]; try (split; [discriminate|congruence]).
  rewrite String.eqb_eq. split; congruence.
Qed.

(** X18.  The four tests of [describe('EnvironmentConfig class')] pass
    exactly when the package exports a class named [EnvironmentConfig]
    whose static [get()] returns a value that has a [NODE_ENV], whose
    [getTransportMode()] returns [stdio] or [streamable_http], and whose
    [logConfiguration()] returns without throwing.  So a third transport
    mode, or a configuration without [NODE_ENV], is reported as drift; what
    [logConfiguration()] returns, and every other member of the
    configuration, is not looked at. *)
Theorem config_block_passes_iff {R M : Type} (d : dependency R M) :
  Forall passes (config_block d) <-> config_contract d.
Proof.
  unfold config_block. rewrite !Forall_cons, Forall_nil, !passes_finished.
  split.
  - intros (Hexported & Hget & Hmode & Hlog & _).
    unfold EnvironmentConfig_exported, EnvironmentConfig_get,
      EnvironmentConfig_getTransportMode, EnvironmentConfig_logConfiguration,
      is_function in *.
    invert_run Hexported. invert_run Hget. invert_run Hmode. invert_run Hlog.
    unfold static, binding_name, typeof_binding in *.
    destruct (EnvironmentConfig d) as [C|v|] eqn:Hconfig.
    + repeat match goal with
             | H : Return _ = Return _ |- _ => injection H as <-
             end.
      apply method_held in Hstep2 as [get_ Hget_].
      apply method_held in Hstep7 as [mode_ Hmode_].
      apply method_held in Hstep12 as [log_ Hlog_].
      rewrite Hget_ in Hstep4. rewrite Hmode_ in Hstep9. rewrite Hlog_ in Hstep14.
      cbn [call_static] in *. subst get_ mode_ log_.
      apply object_is_string in Hexported.
      exists C, a4, a9, a14. repeat split; try assumption.
      * intros ->. discriminate Hstep5.
      * cbn [existsb] in Hmode. rewrite orb_false_r in Hmode.
        apply orb_true_iff in Hmode as [Hmode|Hmode];
          destruct a9; cbn [object_is] in Hmode; try discriminate Hmode;
          apply String.eqb_eq in Hmode; subst; auto.
    + rewrite typeof_not_function in Hstep. discriminate Hstep.
    + discriminate Hstep.
  - intros (C & config & mode & logged & Hconfig & Hname & Hget & Hdefined & Hnode
            & Hmode & Hmodes & Hlog).
    unfold EnvironmentConfig_exported, EnvironmentConfig_get,
      EnvironmentConfig_getTransportMode, EnvironmentConfig_logConfiguration,
      is_function, static, binding_name, typeof_binding.
    rewrite Hconfig, Hname, Hget, Hmode, Hlog.
    assert (is_undefined config = false) as Hconfigured.
    { destruct config; try reflexivity. congruence. }
    unfold toBe, toBeDefined, toHaveProperty, toContain.
    cbn [typeof_method call_static object_is String.eqb Ascii.eqb Bool.eqb].
    rewrite !StabilityFacts.run_js_return, !StabilityFacts.run_assert_true.
    unfold call_static. rewrite !StabilityFacts.run_js_return.
    rewrite Hconfigured, Hnode. cbn [negb].
    rewrite !StabilityFacts.run_assert_true.
    destruct Hmodes as [-> | ->]; repeat split; reflexivity.
Qed.

Lemma config_block_passes_iff_witness :
  Forall passes (config_block (installed ∅)).
Proof.
  apply (proj2 (config_block_passes_iff (installed ∅))).
  exists (sample_config ∅), (VObject [ ("NODE_ENV", VString "development") ]),
    (VString "stdio"), VUndefined.
  repeat split; try reflexivity; [discriminate|]. left. reflexivity.
Defined.

(** X19.  The four tests of [describe('defineTool function')] pass against
    every [defineTool] that hands the definition back with its name, its
    description, its schema and a handler. *)
Theorem defineTool_block_passes {R M : Type} (d : dependency R M)
    (define : tool -> completion object) :
  defineTool d = Exported define -> conforming_defineTool define ->
  Forall passes (defineTool_block d).
Proof.
  intros Hdefine Hconforms.
  assert (forall n description z h,
            exists t h',
              call_defineTool d (literal n description z h) = Return (Tool t) /\
              tool_name t = VString n /\
              tool_description t = VString description /\
              tool_inputSchema t = Held z /\
              tool_handler t = Held h') as Hcall.
  { intros n description z h.
    destruct (Hconforms (literal n description z h) z h eq_refl eq_refl)
      as (t & h' & Hrun & Hname & Hdescription & Hschema & Hhandler & _).
    exists t, h'. unfold call_defineTool. rewrite Hdefine. auto. }
  unfold defineTool_block. rewrite !Forall_cons, Forall_nil, !passes_finished.
  unfold defineTool_exported, defineTool_zod_schema, defineTool_optional_fields,
    defineTool_enum_fields, is_function, toBe, toBeDefined.
  split; [rewrite Hdefine; reflexivity|].
  split; [|split; [|split; [|exact I]]].
  - destruct (Hcall "test-tool" "Test tool for interface stability"
                (ZObject [ ("input", ZString) ]) received_input)
      as (t & h' & -> & Hname & Hdescription & Hschema & Hhandler).
    rewrite StabilityFacts.run_js_return. cbn [object_name object_description
      object_inputSchema object_handler].
    rewrite StabilityFacts.run_js_return, Hname. cbn [object_is].
    rewrite String.eqb_refl, StabilityFacts.run_assert_true.
    rewrite StabilityFacts.run_js_return, Hdescription. cbn [object_is].
    rewrite String.eqb_refl, StabilityFacts.run_assert_true.
    rewrite StabilityFacts.run_js_return, Hschema. cbn [slot_defined].
    rewrite StabilityFacts.run_assert_true.
    rewrite StabilityFacts.run_js_return, Hhandler. cbn [slot_defined].
    rewrite StabilityFacts.run_assert_true. reflexivity.
  - destruct (Hcall "optional-test" "Test optional fields"
                (ZObject [ ("required", ZString); ("optional", ZOptional ZString) ])
                empty_content)
      as (t & h' & -> & _ & _ & Hschema & _).
    rewrite StabilityFacts.run_js_return. cbn [object_inputSchema].
    rewrite StabilityFacts.run_js_return, Hschema. reflexivity.
  - destruct (Hcall "enum-test" "Test enum fields"
                (ZObject [ ("format", ZEnum ["a"; "b"; "c"]) ]) empty_content)
      as (t & h' & -> & _ & _ & Hschema & _).
    rewrite StabilityFacts.run_js_return. cbn [object_inputSchema].
    rewrite StabilityFacts.run_js_return, Hschema. reflexivity.
Qed.

Lemma defineTool_block_passes_witness :
  Forall passes (defineTool_block (installed ∅)).
Proof.
  apply (defineTool_block_passes (installed ∅) (fun t => Return (Tool t)) eq_refl).
  exact StabilityFacts.sample_defineTool_conforms.
Defined.

End ContractFacts.

Module TypeCompatRuntimeFacts.
Import Js Value Dependency Vitest Stability Conformance Sample Contract TypeCompatRuntime.

Lemma defined_tool_passes {R M : Type} (d : dependency R M) (t : tool) :
  passes (defined_tool d t) <->
  exists o, call_defineTool d t = Return o /\ object_defined o = true.
Proof.
  rewrite ContractFacts.passes_finished. unfold defined_tool, toBeDefined. split.
  - intros H. apply ContractFacts.bind_finished in H as (o & Hcall & Hdefined).
    apply ContractFacts.js_finished in Hcall.
    apply ContractFacts.assert_finished in Hdefined. eauto.
  - intros (o & -> & Hdefined).
    rewrite StabilityFacts.run_js_return, Hdefined. reflexivity.
Qed.

Lemma type_imports_resolved {R M : Type} (p : packages R M)
    (exports : binding (tool -> completion object) * binding (RegistryClass R)) :
  zod_module p = Return tt -> tools_module p = Return exports ->
  imports p = Return {| defineTool := fst exports; ToolRegistry := NotExported;
                        EnvironmentConfig := NotExported; LLMManager := NotExported |}.
Proof. intros Hzod Htools. unfold imports. rewrite Hzod, Htools. reflexivity. Qed.

Lemma type_imports_unresolved {R M : Type} (p : packages R M) :
  (exists err, zod_module p = Throw err) \/ (exists err, tools_module p = Throw err) ->
  exists err, imports p = Throw err.
Proof.
  unfold imports. intros H.
  destruct (zod_module p) as [[]|e0]; [|eauto].
  destruct (tools_module p) as [tools|e1]; [|eauto].
  destruct H as [[err H]|[err H]]; discriminate H.
Qed.



Lemma unit_titles_differ {R M : Type} (d : dependency R M) : NoDup (map fst (units d)).
Proof. apply (bool_decide_unpack _). vm_compute. exact I. Qed.

Lemma status_of_unit (us : list (string * test unit)) (u : string * test unit) :
  NoDup (map fst us) -> u ∈ us ->
  status_of (map (fun u => report (fst u) (snd u Throwing)) us) (fst u)
  = Some (verdict (snd u Throwing)).
Proof.
  unfold status_of. induction us as [|a rest IH]; intros Hnodup Hin.
  - apply elem_of_nil in Hin. destruct Hin.
  - cbn [map] in Hnodup. apply NoDup_cons in Hnodup as [Hfresh Hnodup].
    cbn [map find]. unfold report at 1. cbn [result_entry].
    match goal with
    | |- context [String.eqb ?x ?y] => destruct (String.eqb_spec x y) as [Hsame|Hother]
    end.
    + apply elem_of_cons in Hin as [->|Hin]; [reflexivity|].
      destruct Hfresh. change (fst a = fst u) in Hsame. rewrite Hsame.
      apply list_elem_of_fmap_2. exact Hin.
    + apply elem_of_cons in Hin as [->|Hin]; [destruct (Hother eq_refl)|].
      apply IH; assumption.
Qed.

Lemma status_of_units {R M : Type} (d : dependency R M) (i : nat)
    (u : string * test unit) :
  units d !! i = Some u ->
  status_of (map (fun u => report (fst u) (snd u Throwing)) (units d)) (fst u)
  = Some (verdict (snd u Throwing)).
Proof.
  intros Hi. apply status_of_unit; [apply unit_titles_differ|].
  apply list_elem_of_lookup. eauto.
Qed.



(** X20.  Under the test runner, which strips the type annotations, the
    file fails as a whole, with no test reported, when [zod] or the tools
    package does not resolve.  When they resolve, whatever the tools
    package exports and whether or not the LLM package is installed (the
    two [import type] lines are stripped), fourteen tests are reported.
    Seven of them pass whatever [defineTool] is: nothing that they use is
    left of the package at run time.  Four more, among them the two of
    'Type safety regressions', pass as soon as [defineTool] returns
    anything but [undefined] for the definition it is given, and only
    then: their handlers, with the assertions written in them and the
    statement under [@ts-expect-error], are never run by the test. *)
Theorem runtime_checks_little {R M : Type} (p : packages R M) :
  ((exists err, zod_module p = Throw err) \/ (exists err, tools_module p = Throw err) ->
   exists err, run_file p = Throw err) /\
  (forall exports,
     zod_module p = Return tt -> tools_module p = Return exports ->
     exists d results,
       imports p = Return d /\ defineTool d = fst exports /\
       run_file p = Return results /\
       length results = 14%nat /\
       Forall (fun title =>
                 status_of results ("Type System Compatibility > " +:+ title) = Some pass)
         [ "ToolDefinition type > should accept valid tool definitions";
           "ToolDefinition type > should support optional input fields in type";
           "ToolDefinition type > should support enum input fields in type";
           "LLM type compatibility > should export LLMProvider type";
           "LLM type compatibility > should export LLMRequest type with required fields";
           "LLM type compatibility > should export LLMResponse type with required fields";
           "LLM type compatibility > should export AnyModel type" ] /\
       Forall (fun check =>
                 status_of results ("Type System Compatibility > " +:+ fst check) = Some pass
                 <-> exists o, call_defineTool d (snd check) = Return o /\
                               object_defined o = true)
         [ ("defineTool type inference > should infer input type from Zod schema",
            inferred_literal);
           ("defineTool type inference > should infer complex nested types",
            complex_literal);
           ("Type safety regressions > should prevent registering tools with wrong input types",
            type_safe_literal);
           ("Type safety regressions > should prevent missing required fields",
            required_fields_literal) ]).
Proof.
  split.
  - intros Hmissing. destruct (type_imports_unresolved p Hmissing) as [err Herr].
    exists err. unfold run_file. rewrite Herr. reflexivity.
  - intros exports Hzod Htools.
    eexists _, _. split; [apply (type_imports_resolved p exports Hzod Htools)|].
    split; [reflexivity|].
    unfold run_file. rewrite (type_imports_resolved p exports Hzod Htools).
    split; [reflexivity|]. split; [reflexivity|].
    set (d := {| defineTool := fst exports; ToolRegistry := NotExported;
                 EnvironmentConfig := NotExported; LLMManager := NotExported |}).
    cbn [mbind completion_bind Js.bind mret completion_ret].
    split.
    + repeat apply List.Forall_cons; try apply List.Forall_nil.
      * exact (status_of_units d 0 _ eq_refl).
      * exact (status_of_units d 1 _ eq_refl).
      * exact (status_of_units d 2 _ eq_refl).
      * exact (status_of_units d 5 _ eq_refl).
      * exact (status_of_units d 6 _ eq_refl).
      * exact (status_of_units d 7 _ eq_refl).
      * exact (status_of_units d 8 _ eq_refl).
    + repeat apply List.Forall_cons; try apply List.Forall_nil; cbn [fst snd];
        match goal with
        | |- context [status_of _ (?a +:+ ?b)] =>
            let title := eval vm_compute in (a +:+ b) in change (a +:+ b) with title
        end.
      * pose proof (status_of_units d 3 _ eq_refl) as Hstatus. cbn [fst snd] in Hstatus.
        rewrite Hstatus, <- defined_tool_passes. unfold passes.
        split; [intros [= H]; exact H|intros ->; reflexivity].
      * pose proof (status_of_units d 4 _ eq_refl) as Hstatus. cbn [fst snd] in Hstatus.
        rewrite Hstatus, <- defined_tool_passes. unfold passes.
        split; [intros [= H]; exact H|intros ->; reflexivity].
      * pose proof (status_of_units d 12 _ eq_refl) as Hstatus. cbn [fst snd] in Hstatus.
        rewrite Hstatus, <- defined_tool_passes. unfold passes.
        split; [intros [= H]; exact H|intros ->; reflexivity].
      * pose proof (status_of_units d 13 _ eq_refl) as Hstatus. cbn [fst snd] in Hstatus.
        rewrite Hstatus, <- defined_tool_passes. unfold passes.
        split; [intros [= H]; exact H|intros ->; reflexivity].
Qed.

(** With a [defineTool] that keeps the name alone the four tests pass;
    without the tools package no test is reported. *)
Lemma runtime_checks_little_witness :
  (exists err, run_file (tools_missing ∅) = Throw err) /\
  (exists results,
     run_file (packaged (installed_name_only ∅) None) = Return results /\
     status_of results directive_unit = Some pass).
Proof.
  split.
  - apply (proj1 (runtime_checks_little (tools_missing ∅))).
    right. eexists. reflexivity.
  - destruct (proj2 (runtime_checks_little (packaged (installed_name_only ∅) None))
                _ eq_refl eq_refl)
      as (d & results & Hd & _ & Hrun & _ & _ & Hdefined).
    exists results. split; [exact Hrun|].
    apply Forall_cons in Hdefined as [_ Hdefined].
    apply Forall_cons in Hdefined as [_ Hdefined].
    apply Forall_cons in Hdefined as [Hsafe _].
    apply Hsafe. injection Hd as <-. eexists. split; reflexivity.
Defined.







(** X21.  With a [defineTool] that hands the definition back with a
    handler that behaves as the one given, all fourteen tests of the file
    pass under the test runner; the three tests of 'CallToolResult type
    compatibility' are the ones that run a handler. *)
Theorem runtime_tests_pass {R M : Type} (d : dependency R M)
    (define : tool -> completion object) :
  defineTool d = Exported define -> conforming_defineTool define ->
  Forall passes (runtime_tests d).
Proof.
  intros Hdefine Hconforms.
  assert (forall n description z h,
            exists t h',
              call_defineTool d (literal n description z h) = Return (Tool t) /\
              tool_handler t = Held h' /\ (forall arg, h' arg = h arg)) as Hcall.
  { intros n description z h.
    destruct (Hconforms (literal n description z h) z h eq_refl eq_refl)
      as (t & h' & Hrun & _ & _ & _ & Hhandler & Hsame).
    exists t, h'. unfold call_defineTool. rewrite Hdefine. auto. }
  assert (forall n description z h,
            passes (defined_tool d (literal n description z h))) as Hdefined.
  { intros n description z h. apply defined_tool_passes.
    destruct (Hcall n description z h) as (t & h' & Hrun & _). eauto. }
  unfold runtime_tests.
  repeat apply List.Forall_cons; try apply List.Forall_nil;
    try apply Hdefined; apply ContractFacts.passes_finished; try reflexivity.
  - unfold text_content_type.
    destruct (Hcall "text-tool" "Text content test" (ZObject []) hello)
      as (t & h' & -> & Hhandler & Hsame).
    rewrite StabilityFacts.run_js_return. unfold call_handler.
    cbn [object_handler mbind completion_bind Js.bind]. rewrite Hhandler, Hsame.
    reflexivity.
  - unfold error_flag.
    destruct (Hcall "error-tool" "Error handling test" (ZObject []) error_occurred)
      as (t & h' & -> & Hhandler & Hsame).
    rewrite StabilityFacts.run_js_return. unfold call_handler.
    cbn [object_handler mbind completion_bind Js.bind]. rewrite Hhandler, Hsame.
    reflexivity.
  - unfold multiple_content.
    destruct (Hcall "multi-content" "Multiple content items" (ZObject []) first_second)
      as (t & h' & -> & Hhandler & Hsame).
    rewrite StabilityFacts.run_js_return. unfold call_handler.
    cbn [object_handler mbind completion_bind Js.bind]. rewrite Hhandler, Hsame.
    reflexivity.
Qed.

Lemma runtime_tests_pass_witness :
  Forall passes (runtime_tests (installed ∅)).
Proof.
  apply (runtime_tests_pass (installed ∅) (fun t => Return (Tool t)) eq_refl).
  exact StabilityFacts.sample_defineTool_conforms.
Defined.

End TypeCompatRuntimeFacts.

Module TeardownFacts.
Import Js TestEnv Kinds Effects Teardown EffectsFacts.

Lemma kill_run (os : processes) (pid : Z) (signal : string) (t : list event) :
  kill os pid signal t
  = (match os (length (signals t)) pid signal with
     | None => Return tt
     | Some message => Throw (ErrorObject "Error" message)
     end, (t ++ [Signal pid signal])%list).
Proof. reflexivity. Qed.

(** The inner [try]: the probe, and the forced kill when the probe finds
    the process. *)
Lemma force_run (os : processes) (pid : Z) (t : list event) :
  exists c middle,
    caught (kill os pid "0";;
            log "⚠️  Vitest Global Teardown: Force killing HTTP server...";;
            kill os pid "SIGKILL") t
    = (Return c, (t ++ middle)%list) /\
    signals middle = (Signal pid "0" ::
                      match os (length (signals t)) pid "0" with
                      | Some _ => []
                      | None => [ Signal pid "SIGKILL" ]
                      end) /\
    sleeps middle = [] /\ spawns middle = [].
Proof.
  unfold caught.
  destruct (os (length (signals t)) pid "0") as [gone|] eqn:Hprobe.
  - erewrite io_bind_throw by (rewrite kill_run, Hprobe; reflexivity).
    eexists _, [ _ ]. split; [reflexivity|]. auto.
  - erewrite io_bind_return by (rewrite kill_run, Hprobe; reflexivity).
    erewrite io_bind_return by reflexivity.
    rewrite kill_run.
    eexists _, [ _; _; _ ]. rewrite <- !app_assoc. split; [reflexivity|]. auto.
Qed.

Lemma stop_server_run (os : processes) (pid : Z) (t : list event) :
  let n := length (signals t) in
  exists c t',
    stop_server os pid t = (c, t') /\
    signals t'
    = (signals t ++
       Signal pid "SIGTERM" ::
       match os n pid "SIGTERM" with
       | Some _ => []
       | None =>
           Signal pid "0" ::
           match os (S n) pid "0" with
           | Some _ => []
           | None => [ Signal pid "SIGKILL" ]
           end
       end)%list /\
    sleeps t' = (sleeps t ++ match os n pid "SIGTERM" with
                             | Some _ => []
                             | None => [ Sleep 2000 ]
                             end)%list /\
    spawns t' = (spawns t ++ match c with
                             | Return _ => [ Spawn "pkill" [ "-f"; "tsx src/index.ts" ] ]
                             | Throw _ => []
                             end)%list.
Proof.
  intros n. unfold stop_server.
  destruct (os n pid "SIGTERM") as [failure|] eqn:Hterm.
  - erewrite io_bind_throw by (rewrite kill_run; fold n; rewrite Hterm; reflexivity).
    eexists _, _. split; [reflexivity|].
    rewrite signals_app, sleeps_app, spawns_app. cbn. rewrite !app_nil_r. auto.
  - erewrite io_bind_return by (rewrite kill_run; fold n; rewrite Hterm; reflexivity).
    erewrite io_bind_return by reflexivity.
    set (t1 := ((t ++ [Signal pid "SIGTERM"]) ++ [Sleep 2000])%list).
    assert (length (signals t1) = S n) as Hcount.
    { unfold t1. rewrite !signals_app, !length_app. cbn. fold n. lia. }
    destruct (force_run os pid t1) as (c & middle & Hforce & Hsignals & Hsleeps & Hspawns).
    rewrite Hcount in Hsignals.
    erewrite io_bind_return by exact Hforce.
    erewrite io_bind_return by reflexivity.
    eexists _, _. split; [reflexivity|].
    unfold spawn, emit, t1.
    rewrite !signals_app, !sleeps_app, !spawns_app, Hsignals, Hsleeps, Hspawns.
    cbn. rewrite !app_nil_r, <- !app_assoc. auto.
Qed.

(** X22.  [globalTeardown] touches processes in [express:ci] only, and
    only when a server PID was recorded: in every other environment, and
    without a PID, it prints one line and sends no signal.  With a PID it
    sends [SIGTERM] first; if that is delivered it waits two seconds and
    probes the process with signal 0, and it sends [SIGKILL] only if the
    probe finds the process still there.  In each of these cases it starts
    [pkill -f 'tsx src/index.ts'] exactly once, forgets the PID and does
    not throw; a [SIGTERM] that cannot be delivered is reported on the
    console, not thrown. *)
Theorem globalTeardown_signals (table : list (string * TestEnvironment))
    (env : process_env) (os : processes) (serverPid : option Z) (t : list event) :
  let n := length (signals t) in
  (forall err,
     getCurrentEnvironment table env = Throw err ->
     globalTeardown table env os serverPid t = (Throw err, t)) /\
  (forall r,
     getCurrentEnvironment table env = Return r ->
     returned_name r <> Some "express:ci" ->
     exists line,
       globalTeardown table env os serverPid t
       = (Return serverPid, (t ++ [Console "log" line])%list)) /\
  (forall r,
     getCurrentEnvironment table env = Return r ->
     returned_name r = Some "express:ci" ->
     pid_truthy serverPid = false ->
     exists line,
       globalTeardown table env os serverPid t
       = (Return None, (t ++ [Console "log" line])%list)) /\
  (forall r pid,
     getCurrentEnvironment table env = Return r ->
     returned_name r = Some "express:ci" ->
     serverPid = Some pid -> pid <> 0%Z ->
     exists t',
       globalTeardown table env os serverPid t = (Return None, t') /\
       signals t'
       = (signals t ++
          Signal pid "SIGTERM" ::
          match os n pid "SIGTERM" with
          | Some _ => []
          | None =>
              Signal pid "0" ::
              match os (S n) pid "0" with
              | Some _ => []
              | None => [ Signal pid "SIGKILL" ]
              end
          end)%list /\
       sleeps t'
       = (sleeps t ++ match os n pid "SIGTERM" with
                      | Some _ => []
                      | None => [ Sleep 2000 ]
                      end)%list /\
       spawns t' = (spawns t ++ [ Spawn "pkill" [ "-f"; "tsx src/index.ts" ] ])%list).
Proof.
  intros n. unfold globalTeardown, lift. split; [|split; [|split]].
  - intros err Herr. unfold mbind, io_bind. rewrite Herr. reflexivity.
  - intros r Hr Hname. unfold mbind at 1, io_bind at 1. rewrite Hr.
    rewrite (bool_decide_eq_false_2 _ Hname). cbn [andb].
    eexists. reflexivity.
  - intros r Hr Hname Hpid. unfold mbind at 1, io_bind at 1. rewrite Hr.
    rewrite (bool_decide_eq_true_2 _ Hname).
    rewrite bool_decide_eq_false_2 by (rewrite Hname; discriminate).
    cbn [andb negb]. rewrite Hpid. eexists. reflexivity.
  - intros r pid Hr Hname -> Hpid. unfold mbind at 1, io_bind at 1. rewrite Hr.
    rewrite (bool_decide_eq_true_2 _ Hname).
    rewrite bool_decide_eq_false_2 by (rewrite Hname; discriminate).
    cbn [andb negb pid_truthy].
    assert ((pid =? 0)%Z = false) as -> by (apply Z.eqb_neq; exact Hpid).
    cbn [negb]. change (default 0%Z (Some pid)) with pid.
    set (t0 := (t ++ [Console "log"
                        ("🛑 Vitest Global Teardown: Stopping HTTP server (PID: "
                           +:+ pretty pid +:+ ")...")])%list).
    assert (signals t0 = signals t /\ sleeps t0 = sleeps t /\ spawns t0 = spawns t)
      as (Hsignals0 & Hsleeps0 & Hspawns0).
    { unfold t0. rewrite signals_app, sleeps_app, spawns_app. cbn.
      rewrite !app_nil_r. auto. }
    destruct (stop_server_run os pid t0) as (c & t1 & Hstop & Hsignals & Hsleeps & Hspawns).
    rewrite Hsignals0, Hsleeps0, Hspawns0 in *. fold n in Hsignals, Hsleeps.
    destruct c as [[]|error].
    + exists t1. split; [|auto].
      erewrite io_bind_return; [reflexivity|].
      erewrite io_bind_return by reflexivity.
      erewrite io_bind_return by (unfold caught; fold t0; rewrite Hstop; reflexivity).
      reflexivity.
    + eexists. split.
      { erewrite io_bind_return; [reflexivity|].
        erewrite io_bind_return by reflexivity.
        erewrite io_bind_return by (unfold caught; fold t0; rewrite Hstop; reflexivity).
        reflexivity. }
      rewrite !signals_app, !sleeps_app, !spawns_app, Hsignals, Hsleeps, Hspawns.
      cbn. rewrite !app_nil_r. auto.
Qed.

Lemma globalTeardown_signals_witness :
  exists t',
    globalTeardown (TEST_ENVIRONMENTS ∅) {[ "TEST_ENV" := "express:ci" ]} obedient
      (Some 4242%Z) []
    = (Return None, t') /\
    signals t' = [ Signal 4242 "SIGTERM"; Signal 4242 "0" ] /\
    sleeps t' = [ Sleep 2000 ] /\
    spawns t' = [ Spawn "pkill" [ "-f"; "tsx src/index.ts" ] ].
Proof.
  apply (proj2 (proj2 (proj2
           (globalTeardown_signals (TEST_ENVIRONMENTS ∅) {[ "TEST_ENV" := "express:ci" ]}
              obedient (Some 4242%Z) [])))
           (Environment {| name := "express:ci"; baseUrl := "http://localhost:3021";
                           description :=
                             "Express HTTP server for CI testing (npm run dev:http:ci)" |})
           4242%Z).
  - vm_compute. reflexivity.
  - reflexivity.
  - reflexivity.
  - discriminate.
Defined.

End TeardownFacts.

Module McpSuiteFacts.
Import Js Value TestEnv Kinds Effects McpSuite EffectsFacts.

Lemma createHttpClient_returns (table : list (string * TestEnvironment))
    (env : process_env) (r : returned) :
  getCurrentEnvironment table env = Return r ->
  exists client, createHttpClient table env = Return client.
Proof. intros H. unfold createHttpClient. rewrite H. eexists. reflexivity. Qed.

(** The attempt to initialise the session never fails the set-up. *)
Lemma initialize_session_run (client : server) (t : list event) :
  exists t',
    (outcome ← caught (initialize_session client);
     match outcome with
     | Return initialized => mret initialized
     | Throw error =>
         emit (LoggedError "❌ MCP session initialization error:" error);;
         mret false
     end) t
    = (Return (initialized client (length (requests t))), t') /\
    requests t' = (requests t ++ [ Request "POST" "/mcp" ])%list /\
    sleeps t' = sleeps t.
Proof.
  unfold caught, initialize_session, send, initialized, log, emit, mbind, io_bind,
    mret, io_ret.
  destruct (client (length (requests t)) "POST" "/mcp") as [response|err].
  - destruct (status response =? 200)%Z; eexists; (split; [reflexivity|]);
      rewrite !requests_app, !sleeps_app; cbn; rewrite !app_nil_r; auto.
  - eexists. split; [reflexivity|].
    rewrite !requests_app, !sleeps_app. cbn. rewrite !app_nil_r. auto.
Qed.

(** X23.  The set-up of the MCP system tests waits for the server only in
    a local environment other than [express:ci], with ten attempts one
    second apart, and it fails, with [Server not ready at] and the base
    URL, exactly when none of the ten health requests is answered with
    status 200.  Everywhere else it sends no health request.  The request
    that initialises the session never fails the set-up: whatever its
    answer, and also when it throws, the set-up ends normally and records
    whether the answer had status 200. *)
Theorem beforeAll_outcome (table : list (string * TestEnvironment)) (env : process_env)
    (client : server) (environment : TestEnvironment) (r : returned) (t : list event) :
  let n := length (requests t) in
  let waits := isLocalEnvironment environment
               && negb (String.eqb (name environment) "express:ci") in
  getCurrentEnvironment table env = Return r ->
  (waits = false ->
   exists t',
     beforeAll table env client environment t = (Return (initialized client n), t') /\
     requests t' = (requests t ++ [ Request "POST" "/mcp" ])%list /\
     sleeps t' = sleeps t) /\
  (waits = true ->
   (forall j, (j < 10)%nat -> Polling.ready client "/health" (n + j) = false) ->
   exists t',
     beforeAll table env client environment t
     = (Throw (ErrorObject "Error" ("Server not ready at " +:+ baseUrl environment)), t') /\
     length (requests t') = (n + 10)%nat /\
     sleeps t' = (sleeps t ++ replicate 9 (Sleep 1000))%list) /\
  (waits = true ->
   forall k, (k < 10)%nat ->
     Polling.ready client "/health" (n + k) = true ->
     (forall j, (j < k)%nat -> Polling.ready client "/health" (n + j) = false) ->
     exists t',
       beforeAll table env client environment t
       = (Return (initialized client (n + k + 1)), t') /\
       length (requests t') = (n + k + 2)%nat /\
       sleeps t' = (sleeps t ++ replicate k (Sleep 1000))%list).
Proof.
  intros n waits Hr. unfold beforeAll. fold waits.
  destruct (createHttpClient_returns table env r Hr) as [axios Haxios].
  destruct (PollingFacts.waitForServer_unfold table env client 10 1000 t r Hr)
    as [line Hloop].
  pose proof (PollingFacts.attempts_run client (shown (returned_baseUrl r)) 10 1000
                (Z.to_nat 10) 1%Z (t ++ [Console "log" line])%list eq_refl)
    as [Hfound Hnever].
  rewrite PollingFacts.requests_console, PollingFacts.sleeps_console in Hfound, Hnever.
  fold n in Hfound, Hnever. rewrite <- Hloop in Hfound, Hnever.
  split; [|split].
  - intros ->.
    erewrite io_bind_return by (unfold lift; rewrite Haxios; reflexivity).
    erewrite io_bind_return by reflexivity.
    apply initialize_session_run.
  - intros -> Hdown.
    destruct (Hnever Hdown) as (t1 & Hwait & Hcount & Hpauses).
    erewrite io_bind_return by (unfold lift; rewrite Haxios; reflexivity).
    exists t1. split; [|auto].
    erewrite io_bind_throw; [reflexivity|].
    erewrite io_bind_return by exact Hwait. reflexivity.
  - intros -> k Hk Hready Hbefore.
    destruct (Hfound k Hk Hready Hbefore) as (t1 & Hwait & Hcount & Hpauses).
    erewrite io_bind_return by (unfold lift; rewrite Haxios; reflexivity).
    erewrite io_bind_return
      by (erewrite io_bind_return by exact Hwait; reflexivity).
    destruct (initialize_session_run client t1) as (t' & Hrun & Hrequests & Hsleeps).
    exists t'. rewrite Hrun, Hcount. split; [reflexivity|]. split.
    + rewrite Hrequests, length_app, Hcount. cbn. lia.
    + rewrite Hsleeps. exact Hpauses.
Qed.

Lemma beforeAll_outcome_witness :
  exists t',
    beforeAll (TEST_ENVIRONMENTS ∅) {[ "TEST_ENV" := "docker" ]}
      (Polling.sample_server 10 0)
      {| name := "docker"; baseUrl := "http://localhost:3020";
         description := "Docker container (docker run with exposed port)" |} []
    = (Throw (ErrorObject "Error" "Server not ready at http://localhost:3020"), t') /\
    length (requests t') = 10%nat /\
    sleeps t' = replicate 9 (Sleep 1000).
Proof.
  pose (docker := {| name := "docker"; baseUrl := "http://localhost:3020";
                     description := "Docker container (docker run with exposed port)" |}).
  destruct (beforeAll_outcome (TEST_ENVIRONMENTS ∅) {[ "TEST_ENV" := "docker" ]}
              (Polling.sample_server 10 0) docker (Environment docker) [])
    as (_ & Hfails & _).
  { vm_compute. reflexivity. }
  apply Hfails; [reflexivity|].
  intros j Hj. do 10 (destruct j as [|j]; [reflexivity|]). lia.
Defined.

End McpSuiteFacts.

Module ServerlessFacts.
Import Js Value Dependency Effects Serverless EffectsFacts.

Section Function.
Context {R M S T : Type}.
Variable d : dependency R M.
Variable F : @Framework R M S T.
Variable tool : object.



(** X25.  A failure of the LLM packages does not stop the initialisation:
    when the statements before the [try] block succeed and the set-up of
    the server and of the transport accepts the registry, [initializeServer]
    returns and is cached whatever [initialize()], [createLLMTools] and the
    merge of the LLM tools do.  It logs one line about the LLM tools, a
    warning when the block threw, and goes on with the registry as the
    block left it. *)
Theorem llm_failure_tolerated (t t1 : list event) (llmManager : @manager M)
    (server : S) (tools : @registry R) :
  prepare d F tool t = (Return (llmManager, server, tools), t1) ->
  (forall tools' t0, exists made,
      finish F server tools' t0
      = (Return made,
         (t0 ++ [ Logger "info" "Vercel serverless function initialized" [] ])%list) /\
      snd made = tools') ->
  exists made,
    initializeServer d F tool None t
    = (Return (made, Some made),
       (t1 ++ [ match fst (load_llm F llmManager tools) with
                | Return llm_count =>
                    Logger "info" "LLM tools loaded" [ ("count", llm_count) ]
                | Throw error =>
                    Logger "warn" "LLM initialization failed - LLM tools will be unavailable"
                      [ ("error", VString (error_message error)) ]
                end;
                Logger "info" "Vercel serverless function initialized" [] ])%list) /\
    snd made = snd (load_llm F llmManager tools).
Proof.
  intros Hprepare Hfinish. unfold initializeServer.
  erewrite io_bind_return by exact Hprepare. cbv beta iota.
  destruct (load_llm F llmManager tools) as [outcome tools'] eqn:Hllm. cbn [fst snd].
  destruct outcome as [llm_count|error].
  - destruct (Hfinish tools' (t1 ++ [Logger "info" "LLM tools loaded"
                                       [ ("count", llm_count) ]])%list)
      as (made & Hmade & Htools).
    exists made. split; [|exact Htools].
    erewrite io_bind_return by reflexivity.
    erewrite io_bind_return by exact Hmade.
    rewrite <- app_assoc. reflexivity.
  - destruct (Hfinish tools'
                (t1 ++ [Logger "warn"
                          "LLM initialization failed - LLM tools will be unavailable"
                          [ ("error", VString (error_message error)) ]])%list)
      as (made & Hmade & Htools).
    exists made. split; [|exact Htools].
    erewrite io_bind_return by reflexivity.
    erewrite io_bind_return by exact Hmade.
    rewrite <- app_assoc. reflexivity.
Qed.

End Function.


Lemma llm_failure_tolerated_witness :
  exists made t',
    initializeServer (Sample.installed ∅) sample_framework
      (Tool (Tools.timestamp_definition Timestamp.sample_platform)) None []
    = (Return (made, Some made), t') /\
    In (Logger "warn" "LLM initialization failed - LLM tools will be unavailable"
          [ ("error", VString "No LLM clients could be initialized") ]) t'.
Proof.
  destruct (prepare (Sample.installed ∅) sample_framework
              (Tool (Tools.timestamp_definition Timestamp.sample_platform)) [])
    as [[[[llmManager server] tools]|e] t1] eqn:Hprepare;
    [|vm_compute in Hprepare; discriminate Hprepare].
  destruct (llm_failure_tolerated (Sample.installed ∅) sample_framework
              (Tool (Tools.timestamp_definition Timestamp.sample_platform))
              [] t1 llmManager server tools Hprepare)
    as (made & Hrun & _).
  { intros tools' t0. eexists. split; reflexivity. }
  exists made. eexists. split; [exact Hrun|].
  apply in_or_app. right. left.
  vm_compute in Hprepare. injection Hprepare as <- <- <- <-. reflexivity.
Defined.

End ServerlessFacts.
